(** * SpatialData container: coordinate systems, annotation targets, store I/O

    A shallow embedding of [spatialdata/_core/spatialdata.py] (class
    [SpatialData]) together with the statements of its specification that
    concern renaming, filtering and transforming coordinate systems, the
    annotation contract between tables and spatial elements, and the
    write / partial-read paths.

    Conventions of the embedding:
    - a Python [dict] is an insertion-ordered association list with pairwise
      distinct keys ([PyDict]); iteration follows the list order;
    - spatial elements are mutable objects: they live in a heap (a list
      indexed by location) and the container's collections map names to
      locations, so that one object registered under two names is shared;
    - tables are held by value in the container;
    - effects (heap updates, emitted warnings, draws of [os.urandom],
      raised exceptions) are threaded by the monad [M]. *)

From Stdlib Require Import String Ascii NArith Lia.
From stdpp Require Import base option functions list strings.

Local Open Scope string_scope.
Local Open Scope list_scope.

#[local] Set Warnings "-clear-no-such-hyp,-register-all".

(** ** Exceptions and warnings *)

Inductive exn :=
  | ValueError (msg : string)
  | KeyError (msg : string)
  | TypeError (msg : string)
  | RuntimeError (msg : string)
  | UnboundLocalError (msg : string)
  | AssertionError (msg : string)
  | StoreError (kind msg : string).

(** The name of the class of an exception; a [StoreError] stands for an
    error of the storage or decoding layers and carries the name of its
    class ([JSONDecodeError], [OSError], [ArrowInvalid], ...). *)
Definition exn_type_name (e : exn) : string :=
  match e with
  | ValueError _ => "ValueError"
  | KeyError _ => "KeyError"
  | TypeError _ => "TypeError"
  | RuntimeError _ => "RuntimeError"
  | UnboundLocalError _ => "UnboundLocalError"
  | AssertionError _ => "AssertionError"
  | StoreError kind _ => kind
  end.

Definition exn_message (e : exn) : string :=
  match e with
  | ValueError msg | KeyError msg | TypeError msg | RuntimeError msg
  | UnboundLocalError msg | AssertionError msg | StoreError _ msg => msg
  end.

Definition is_ValueError (e : exn) : bool :=
  match e with ValueError _ => true | _ => false end.

Inductive Warning :=
  | UserWarning (msg : string)
  | DeprecationWarning (msg : string).

(** ** Python dictionaries *)

Module PyDict.
Section Dict.
Context {V : Type}.

(** [d[k]] / [d.get(k)] *)
Fixpoint get (k : string) (d : list (string * V)) : option V :=
  match d with
  | [] => None
  | (k', v) :: d' => if decide (k = k') then Some v else get k d'
  end.

(** [k in d] *)
Definition contains (k : string) (d : list (string * V)) : bool :=
  bool_decide (k ∈ d.*1).

(** [d[k] = v]: overwrite in place, or append a new entry. *)
Fixpoint set (k : string) (v : V) (d : list (string * V)) : list (string * V) :=
  match d with
  | [] => [(k, v)]
  | (k', v') :: d' =>
      if decide (k = k') then (k, v) :: d' else (k', v') :: set k v d'
  end.

(** the dictionary left by [d.pop(k)] *)
Definition remove (k : string) (d : list (string * V)) : list (string * V) :=
  filter (λ kv, kv.1 ≠ k) d.

Definition keys (d : list (string * V)) : list string := d.*1.
Definition values (d : list (string * V)) : list V := d.*2.

(** keys are pairwise distinct, as in every Python dictionary *)
Definition wf (d : list (string * V)) : Prop := NoDup d.*1.
End Dict.
End PyDict.

(** ** Strings: the eight-character placeholder suffix *)

(** [s[:-8]] *)
Definition drop_last8 (s : string) : string :=
  substring 0 (String.length s - 8) s.

(** [hashlib.sha1(...).hexdigest()[:8]]: the first eight hexadecimal digits
    of a digest, given here by its leading 32 bits. *)
Definition hex_digit (n : N) : ascii :=
  match (n mod 16)%N with
  | 0%N => "0" | 1%N => "1" | 2%N => "2" | 3%N => "3" | 4%N => "4"
  | 5%N => "5" | 6%N => "6" | 7%N => "7" | 8%N => "8" | 9%N => "9"
  | 10%N => "a" | 11%N => "b" | 12%N => "c" | 13%N => "d" | 14%N => "e"
  | _ => "f"
  end%char.

Definition hexdigest8 (x : N) : string :=
  String (hex_digit (x / 268435456))
 (String (hex_digit (x / 16777216))
 (String (hex_digit (x / 1048576))
 (String (hex_digit (x / 65536))
 (String (hex_digit (x / 4096))
 (String (hex_digit (x / 256))
 (String (hex_digit (x / 16))
 (String (hex_digit x) ""))))))).

(** ** Data model *)

(** Transformations between coordinate spaces; coefficients are kept as
    integers, the container logic never inspects them. *)
Inductive BaseTransformation :=
  | Identity
  | Scale (factors : list Z)
  | Translation (offsets : list Z)
  | Affine (matrix : list (list Z))
  | Sequence (steps : list BaseTransformation).

(** A spatial element (image, labels, points or shapes): an opaque payload
    and the mapping from coordinate-system names to transformations that the
    source keeps in [element.attrs["transform"]]. *)
Record SpatialElement := mkSpatialElement {
  payload : list Z;
  transformations : list (string * BaseTransformation)
}.

(** Locations of spatial elements in the heap (Python object identity). *)
Definition loc := nat.

(** Cells of [table.obs]. *)
Inductive Cell :=
  | CStr (s : string)
  | CInt (z : Z).

Global Instance Cell_eq_dec : EqDecision Cell.
Proof. solve_decision. Defined.

(** [region: str | pd.Series | list[str]] *)
Inductive Region :=
  | RegionName (name : string)
  | RegionList (names : list string).

Global Instance Region_eq_dec : EqDecision Region.
Proof. solve_decision. Defined.

(** [table.uns["spatialdata_attrs"]]: a dictionary with the keys ["region"],
    ["region_key"] and ["instance_key"], each of which may be missing. *)
Record Attrs := mkAttrs {
  REGION_KEY : option Region;
  REGION_KEY_KEY : option string;
  INSTANCE_KEY : option string
}.

(** An annotation table ([AnnData]): the row metadata [obs] (column name to
    column values, one cell per row), the matrix [X] (one row per
    observation) and the annotation attributes in [uns]. *)
Record AnnData := mkAnnData {
  obs : list (string * list Cell);
  X : list (list Z);
  uns_ATTRS_KEY : option Attrs
}.

(** The container. *)
Record SpatialData := mkSpatialData {
  _path : option string;
  images : list (string * loc);
  labels : list (string * loc);
  points : list (string * loc);
  shapes : list (string * loc);
  tables : list (string * AnnData)
}.

(** Element collections, named as the attributes of the class. *)
Inductive ElementType := IMAGES | LABELS | POINTS | SHAPES | TABLES.

Global Instance ElementType_eq_dec : EqDecision ElementType.
Proof. solve_decision. Defined.

Definition element_type_name (ty : ElementType) : string :=
  match ty with
  | IMAGES => "images" | LABELS => "labels" | POINTS => "points"
  | SHAPES => "shapes" | TABLES => "tables"
  end.

(** What [_gen_elements] yields as third component. *)
Inductive Element :=
  | Spatial (l : loc)
  | Table (t : AnnData).

(** ** The world and the monad of effects *)

Record World := mkWorld {
  heap : list SpatialElement;      (* the spatial element objects *)
  warnings : list Warning;         (* warnings emitted so far, oldest first *)
  draws : nat                      (* number of calls to [os.urandom] so far *)
}.

(** Computations that read and update a state of type [S] and either return
    a value or raise an exception; the state is the one reached when the
    exception was raised. *)
Definition ST (S A : Type) : Type := S → (exn + A) * S.

Global Instance ST_ret {S} : MRet (ST S) := λ A a s, (inr a, s).
Global Instance ST_bind {S} : MBind (ST S) := λ A B f m s,
  match m s with
  | (inl e, s') => (inl e, s')
  | (inr a, s') => f a s'
  end.

(** Computations on the world. *)
Abbreviation M := (ST World).

Definition raise {S A} (e : exn) : ST S A := λ s, (inl e, s).

Definition lift_result {S A} (r : exn + A) : ST S A := λ s, (r, s).

(** A step that reads the state and may raise, and a step that updates it. *)
Definition inspect {S A} (f : S → exn + A) : ST S A := λ s, (f s, s).
Definition modify {S} (f : S → S) : ST S unit := λ s, (inr (), f s).

Definition warnings_warn (wg : Warning) : M unit := λ w,
  (inr (), mkWorld (heap w) (warnings w ++ [wg]) (draws w)).

(** [for x in xs: body x]; the first exception ends the loop. *)
Fixpoint for_each {S A} (xs : list A) (body : A → ST S unit) : ST S unit :=
  match xs with
  | [] => mret ()
  | x :: xs' => body x;; for_each xs' body
  end.

(** Modelled from the spec: [get_transformation(element, get_all=True)] of
    [spatialdata.transformations.operations], which is not part of the
    sources at hand. It gives the mapping of the element, the dictionary
    kept in the element itself. *)
Definition get_transformation_all (element : loc) : M (list (string * BaseTransformation)) :=
  λ w, match heap w !! element with
       | Some e => (inr (transformations e), w)
       | None => (inl (RuntimeError "no such object"), w)
       end.

(** Modelled from the spec: [set_transformation(element, d, set_all=True)]
    of [spatialdata.transformations.operations], which is not part of the
    sources at hand. It replaces the entire mapping of the element. *)
Definition set_transformation_all (element : loc)
    (d : list (string * BaseTransformation)) : M unit :=
  λ w, match heap w !! element with
       | Some e =>
           (inr (), mkWorld (<[element := mkSpatialElement (payload e) d]> (heap w))
                            (warnings w) (draws w))
       | None => (inl (RuntimeError "no such object"), w)
       end.

(** A new object. *)
Definition alloc (e : SpatialElement) : M loc := λ w,
  (inr (length (heap w)), mkWorld (heap w ++ [e]) (warnings w) (draws w)).

(** Python sets, kept as duplicate-free lists. *)
Definition set_add (x : string) (s : list string) : list string :=
  if bool_decide (x ∈ s) then s else s ++ [x].

Definition set_remove (x : string) (s : list string) : list string :=
  filter (λ y, y ≠ x) s.

(** ** Iterating over the container *)

Definition _gen_spatial_element_values (self : SpatialData) : list loc :=
  (images self).*2 ++ (labels self).*2 ++ (points self).*2 ++ (shapes self).*2.

Definition tag_spatial (ty : ElementType) (d : list (string * loc))
    : list (ElementType * string * Element) :=
  map (λ kv, (ty, kv.1, Spatial kv.2)) d.

Definition _gen_elements (self : SpatialData) (include_table : bool)
    : list (ElementType * string * Element) :=
  tag_spatial IMAGES (images self) ++ tag_spatial LABELS (labels self) ++
  tag_spatial POINTS (points self) ++ tag_spatial SHAPES (shapes self) ++
  (if include_table
   then map (λ kv, (TABLES, kv.1, Table kv.2)) (tables self)
   else []).

(** Names of the spatial elements, in the order of [_gen_elements()]. *)
Definition spatial_element_names (self : SpatialData) : list string :=
  (images self).*1 ++ (labels self).*1 ++ (points self).*1 ++ (shapes self).*1.

(** [coordinate_systems]: the union of the keys of all mappings. *)
Fixpoint collect_coordinate_systems (elements : list loc) (all_cs : list string)
    : M (list string) :=
  match elements with
  | [] => mret all_cs
  | obj :: rest =>
      transformations ← get_transformation_all obj;
      collect_coordinate_systems rest
        (foldl (λ acc cs, set_add cs acc) all_cs (PyDict.keys transformations))
  end.

Definition coordinate_systems (self : SpatialData) : M (list string) :=
  collect_coordinate_systems (_gen_spatial_element_values self) [].

(** ** [rename_coordinate_systems] *)

(** The validation loop over [rename_dict.items()]. [new_names] starts as the
    live names that are not renamed and grows with every accepted target. *)
Fixpoint check_rename_dict (old_names new_names : list string)
    (items : list (string * string)) : exn + unit :=
  match items with
  | [] => inr ()
  | (old_cs, new_cs) :: rest =>
      if bool_decide (old_cs ∉ old_names) then
        inl (ValueError ("Coordinate system " +:+ old_cs +:+ " does not exist."))
      else if bool_decide (new_cs ∈ new_names) then
        inl (ValueError ("It is not allowed to rename a coordinate system if the new name already exists and " +:+
                         "if it is not renamed in the same call."))
      else check_rename_dict old_names (new_names ++ [new_cs]) rest
  end.

(** Second loop of the renaming of one element: placeholders lose their
    suffix, every other key is kept. The loop runs over the entries of
    [transformations]; [transformations[cs_with_suffix]] is the value of the
    entry at hand. *)
Fixpoint remove_random_suffixes (entries : list (string * BaseTransformation))
    (suffixes_to_replace : list string)
    (new_transformations : list (string * BaseTransformation))
    : list (string * BaseTransformation) :=
  match entries with
  | [] => new_transformations
  | (cs_with_suffix, t) :: rest =>
      if bool_decide (cs_with_suffix ∈ suffixes_to_replace) then
        let cs := drop_last8 cs_with_suffix in
        remove_random_suffixes rest (set_remove cs_with_suffix suffixes_to_replace)
          (PyDict.set cs t new_transformations)
      else
        remove_random_suffixes rest suffixes_to_replace
          (PyDict.set cs_with_suffix t new_transformations)
  end.

Section Rename.
(** The leading 32 bits of [hashlib.sha1(os.urandom(128))] at the n-th
    draw of the run. *)
Variable sha1_urandom : nat → N.

Definition random_suffix : M string := λ w,
  (inr (hexdigest8 (sha1_urandom (draws w))),
   mkWorld (heap w) (warnings w) (S (draws w))).

(** First loop of the renaming of one element: every renamed key present
    in [transformations] is moved to its target name followed by a random
    suffix. *)
Fixpoint add_random_suffixes (items : list (string * string))
    (transformations : list (string * BaseTransformation))
    (suffixes_to_replace : list string)
    : M (list (string * BaseTransformation) * list string) :=
  match items with
  | [] => mret (transformations, suffixes_to_replace)
  | (old_cs, new_cs) :: rest =>
      match PyDict.get old_cs transformations with
      | Some t =>
          suffix ← random_suffix;
          add_random_suffixes rest
            (PyDict.set (new_cs +:+ suffix) t (PyDict.remove old_cs transformations))
            (set_add (new_cs +:+ suffix) suffixes_to_replace)
      | None => add_random_suffixes rest transformations suffixes_to_replace
      end
  end.

Definition rename_element (rename_dict : list (string * string)) (element : loc)
    : M unit :=
  transformations ← get_transformation_all element;
  '(transformations, suffixes_to_replace) ←
      add_random_suffixes rename_dict transformations [];
  (* the first loop works on the element's own dictionary *)
  set_transformation_all element transformations;;
  let new_transformations :=
    remove_random_suffixes transformations suffixes_to_replace [] in
  set_transformation_all element new_transformations.

Definition rename_coordinate_systems (self : SpatialData)
    (rename_dict : list (string * string)) : M unit :=
  old_names ← coordinate_systems self;
  let new_names := filter (λ n, n ∉ PyDict.keys rename_dict) old_names in
  lift_result (check_rename_dict old_names new_names rename_dict);;
  for_each (_gen_spatial_element_values self) (rename_element rename_dict).
End Rename.

(** The dictionary written [{k1: v1, k2: v2, ...}]. *)
Definition dict_literal {V} (entries : list (string * V)) : list (string * V) :=
  foldl (λ d kv, PyDict.set kv.1 kv.2 d) [] entries.

(** ** Specification predicates *)

(** Every spatial element of the container is an object of the heap. *)
Definition objects_exist (self : SpatialData) (w : World) : Prop :=
  Forall (λ l, is_Some (heap w !! l)) (_gen_spatial_element_values self).

(** [cs] is a live coordinate system: some spatial element of the container
    has a transformation keyed by it. *)
Definition live (self : SpatialData) (w : World) (cs : string) : Prop :=
  Exists (λ l, ∃ e, heap w !! l = Some e ∧ cs ∈ PyDict.keys (transformations e))
         (_gen_spatial_element_values self).

(** The mapping of every spatial element is a dictionary. *)
Definition mappings_wf (self : SpatialData) (w : World) : Prop :=
  Forall (λ l, ∀ e, heap w !! l = Some e → PyDict.wf (transformations e))
         (_gen_spatial_element_values self).

(** The exchange of two names. *)
Definition swap_names (a b k : string) : string :=
  if decide (k = a) then b else if decide (k = b) then a else k.

(** What the second loop of the renaming does to a key, given the set of
    placeholders. *)
Definition strip_placeholder (suffixes_to_replace : list string) (k : string) : string :=
  if bool_decide (k ∈ suffixes_to_replace) then drop_last8 k else k.

(** No placeholder that the run can draw for the target [new_cs] is already a
    key of [d]. *)
Definition placeholders_fresh (sha1_urandom : nat → N) {V} (new_cs : string)
    (d : list (string * V)) : Prop :=
  ∀ n, new_cs +:+ hexdigest8 (sha1_urandom n) ∉ PyDict.keys d.

(** The placeholder under which the first loop of a swap of [a] and [b]
    stores the entry of key [k], for the suffixes [s1] and [s2]. *)
Definition swap_placeholder (a b s1 s2 k : string) : string :=
  if decide (k = a) then b +:+ s1 else if decide (k = b) then a +:+ s2 else k.

(** No placeholder for [new_cs] collides with a key of a spatial element. *)
Definition placeholders_fresh_in (sha1_urandom : nat → N) (self : SpatialData)
    (w : World) (new_cs : string) : Prop :=
  Forall (λ l, ∀ e, heap w !! l = Some e →
                    placeholders_fresh sha1_urandom new_cs (transformations e))
         (_gen_spatial_element_values self).

(** Between the worlds [w] and [w'] the mapping of every spatial element of
    the container has had the entries of [a] and [b] exchanged: what was
    stored under [a] is now under [b] and conversely, and every other entry
    is where it was. *)
Definition memberships_swapped (self : SpatialData) (a b : string) (w w' : World) : Prop :=
  Forall (λ l, ∃ e e', heap w !! l = Some e ∧ heap w' !! l = Some e' ∧
                 ∀ k, PyDict.get k (transformations e') =
                      PyDict.get (swap_names a b k) (transformations e))
         (_gen_spatial_element_values self).

(** ** Annotation tables *)

(** The names a region argument stands for. *)
Definition region_names (region : Region) : list string :=
  match region with
  | RegionName name => [name]
  | RegionList names => names
  end.

(** Truth value of [table.uns.get(TableModel.ATTRS_KEY)]: a missing entry
    and an empty dictionary are both false. *)
Definition attrs_truthy (table : AnnData) : bool :=
  match uns_ATTRS_KEY table with
  | None => false
  | Some attrs =>
      match REGION_KEY attrs, REGION_KEY_KEY attrs, INSTANCE_KEY attrs with
      | None, None, None => false
      | _, _, _ => true
      end
  end.

(** Modelled from the spec: [get_table_keys] of [spatialdata.models], which
    is not part of the sources at hand. It returns the triple region,
    region_key, instance_key kept in the annotation metadata of the table. *)
Definition get_table_keys (table : AnnData) : exn + (Region * string * string) :=
  match uns_ATTRS_KEY table with
  | None => inl (KeyError "spatialdata_attrs")
  | Some attrs =>
      match REGION_KEY attrs, REGION_KEY_KEY attrs, INSTANCE_KEY attrs with
      | Some region, Some region_key, Some instance_key =>
          inr (region, region_key, instance_key)
      | None, _, _ => inl (KeyError "region")
      | _, None, _ => inl (KeyError "region_key")
      | _, _, None => inl (KeyError "instance_key")
      end
  end.

Definition get_annotated_regions (table : AnnData) : exn + Region :=
  match get_table_keys table with
  | inl e => inl e
  | inr (regions, _, _) => inr regions
  end.

(** Modelled from the spec: [check_target_region_column_symmetry] of
    [spatialdata.models], which is not part of the sources at hand. It fails
    with [ValueError] if the distinct values of the region_key column are not
    a subset of the declared regions. Indexing [table.obs] with a column
    that does not exist is a [KeyError]. *)
Definition check_target_region_column_symmetry (table : AnnData)
    (region_key : option string) (target : Region) : exn + unit :=
  match region_key with
  | None => inl (KeyError "None")
  | Some region_key =>
      match PyDict.get region_key (obs table) with
      | None => inl (KeyError region_key)
      | Some column =>
          if bool_decide (Forall (λ c, c ∈ CStr <$> region_names target) column)
          then inr ()
          else inl (ValueError "Mismatch(es) found between regions in region column in obs and target element")
      end
  end.

(** [_set_table_annotation_target]; the table is the state. Both checks and
    the symmetry check come before the only assignment, to
    [table.uns[TableModel.ATTRS_KEY]]. *)
Definition _set_table_annotation_target (region : Region)
    (region_key instance_key : string) : ST AnnData unit := λ table,
  if negb (PyDict.contains region_key (obs table)) then
    (inl (ValueError ("Specified region_key, " +:+ region_key +:+ ", not in table.obs")), table)
  else if negb (PyDict.contains instance_key (obs table)) then
    (inl (ValueError ("Specified instance_key, " +:+ instance_key +:+ ", not in table.obs")), table)
  else
    let attrs := mkAttrs (Some region) (Some region_key) (Some instance_key) in
    match check_target_region_column_symmetry table (Some region_key) region with
    | inl e => (inl e, table)
    | inr _ => (inr (), mkAnnData (obs table) (X table) (Some attrs))
    end.

(** [not region_key] for [region_key: None | str] *)
Definition falsy (s : option string) : bool :=
  match s with
  | None => true
  | Some s => bool_decide (s = "")
  end.

(** [attrs[TableModel.REGION_KEY] = region], on the dictionary held in
    [table.uns]. *)
Definition set_attrs_region (region : Region) (table : AnnData) : AnnData :=
  match uns_ATTRS_KEY table with
  | None => table
  | Some attrs =>
      mkAnnData (obs table) (X table)
        (Some (mkAttrs (Some region) (REGION_KEY_KEY attrs) (INSTANCE_KEY attrs)))
  end.

Section Tables.
(** [TableModel().validate] and [TableModel()._validate_set_instance_key]
    belong to [spatialdata.models] and are not part of the sources at hand:
    the schema validation is any function that accepts a table or raises,
    the instance-key step any function that updates the table or raises. *)
Variable TableModel_validate : AnnData → exn + unit.
Variable _validate_set_instance_key : option string → ST AnnData unit.

Definition _change_table_annotation_target (region : Region)
    (region_key instance_key : option string) : ST AnnData unit := λ table,
  match uns_ATTRS_KEY table with
  | None => (inl (KeyError "spatialdata_attrs"), table)
  | Some attrs =>
      let table_region_key := REGION_KEY_KEY attrs in
      if falsy region_key then
        if falsy table_region_key then
          (inl (ValueError "No region_key in table.uns and no region_key provided as argument. Please specify region_key."), table)
        else if negb (from_option (λ k, PyDict.contains k (obs table)) false table_region_key) then
          (inl (ValueError "Specified region_key in table.uns is not present as column in table.obs. Please specify region_key."), table)
        else
          (_validate_set_instance_key instance_key;;
           inspect (λ table, check_target_region_column_symmetry table table_region_key region);;
           modify (set_attrs_region region)) table
      else
        if negb (from_option (λ k, PyDict.contains k (obs table)) false region_key) then
          (inl (ValueError "column not present in table.obs"), table)
        else
          (_validate_set_instance_key instance_key;;
           inspect (λ table, check_target_region_column_symmetry table table_region_key region);;
           modify (set_attrs_region region)) table
  end.

(** [set_table_annotates_spatialelement]; the container is the state. The
    table is an object of the container, so what the inner call does to it
    is kept, also when that call raises. Tables are held by value, under
    the name they are looked up with: a table object is taken to be
    registered under that one name. *)
Definition set_table_annotates_spatialelement (table_name : string)
    (region : Region) (region_key instance_key : option string)
    : ST SpatialData unit := λ self,
  match PyDict.get table_name (tables self) with
  | None => (inl (KeyError table_name), self)
  | Some table =>
      let element_names := (_gen_elements self false).*1.*2 in
      match region with
      | RegionList _ => (inl (TypeError "unhashable type"), self)
      | RegionName name =>
          if bool_decide (name ∉ element_names) then
            (inl (ValueError ("Annotation target '" +:+ name +:+
                              "' not present as SpatialElement in  SpatialData object.")), self)
          else
            let store r table' :=
              (r, mkSpatialData (_path self) (images self) (labels self) (points self)
                    (shapes self) (PyDict.set table_name table' (tables self))) in
            if attrs_truthy table then
              let '(r, table') :=
                _change_table_annotation_target region region_key instance_key table in
              store r table'
            else
              match region_key, instance_key with
              | Some region_key, Some instance_key =>
                  let '(r, table') :=
                    _set_table_annotation_target region region_key instance_key table in
                  store r table'
              | _, _ =>
                  (inl (TypeError "No current annotation metadata found. Please specify both region_key and instance_key."), self)
              end
      end
  end.

(** [validate_table_in_spatialdata] *)
Definition validate_table_in_spatialdata (self : SpatialData) (data : AnnData) : M unit :=
  lift_result (TableModel_validate data);;
  let element_names :=
    (filter (λ x, x.1.1 ≠ TABLES) (_gen_elements self false)).*1.*2 in
  match uns_ATTRS_KEY data with
  | None => mret ()
  | Some attrs =>
      match REGION_KEY attrs with
      | None => raise (KeyError "region")
      | Some region =>
          let regions := region_names region in
          if bool_decide (Forall (λ element_name, element_name ∈ element_names) regions)
          then mret ()
          else warnings_warn (UserWarning
                 "The table is annotating an/some element(s) not present in the SpatialData object")
      end
  end.
End Tables.

(** The arguments for which [_set_table_annotation_target] refuses to set
    the annotation target: a key column is missing from [table.obs], or the
    region_key column holds a value outside the declared regions. *)
Definition annotation_target_refused (table : AnnData) (region : Region)
    (region_key instance_key : string) : Prop :=
  region_key ∉ PyDict.keys (obs table) ∨
  instance_key ∉ PyDict.keys (obs table) ∨
  ∃ column c, PyDict.get region_key (obs table) = Some column ∧
              c ∈ column ∧ c ∉ CStr <$> region_names region.

(** ** Construction, filtering and transformation of containers *)

(** [_validate_unique_element_names]: the list has as many entries as the
    set of its entries. *)
Definition _validate_unique_element_names (element_names : list string) : exn + unit :=
  if bool_decide (NoDup element_names) then inr ()
  else inl (KeyError "Element names must be unique.").

(** [coordinate_system: str | list[str]] *)
Inductive CoordinateSystems :=
  | CsName (name : string)
  | CsList (names : list string).

Definition as_list (coordinate_system : CoordinateSystems) : list string :=
  match coordinate_system with
  | CsName name => [name]
  | CsList names => names
  end.

(** The local [elements: dict[str, dict[str, SpatialElement]]] of the
    filtering and transforming methods. Its keys are among the four
    collection names and a missing key is passed to the constructor as an
    empty collection, so it is kept as a function from the collection to
    its dictionary. *)
Definition no_elements : ElementType → list (string * loc) := λ _, [].

(** [elements[element_type][element_name] = element] *)
Definition add_element (element_type : ElementType) (element_name : string)
    (element : loc) (elements : ElementType → list (string * loc))
    : ElementType → list (string * loc) :=
  <[element_type := PyDict.set element_name element (elements element_type)]> elements.

(** The column of [table.obs] named by the region_key of the annotation
    metadata, if the table has both. *)
Definition region_column (table : AnnData) : option (list Cell) :=
  attrs ← uns_ATTRS_KEY table;
  region_key ← REGION_KEY_KEY attrs;
  PyDict.get region_key (obs table).

(** For every row, whether its region_key value is among the names. *)
Definition row_mask (table : AnnData) (element_names : list string) : list bool :=
  match region_column table with
  | Some column => (λ c, bool_decide (c ∈ CStr <$> element_names)) <$> column
  | None => []
  end.

(** The rows selected by a mask. *)
Fixpoint select_rows {A} (mask : list bool) (rows : list A) : list A :=
  match mask, rows with
  | true :: mask', r :: rows' => r :: select_rows mask' rows'
  | false :: mask', _ :: rows' => select_rows mask' rows'
  | _, _ => []
  end.

(** Modelled from the spec: [_filter_table_by_coordinate_system] of
    [spatialdata._core.query.relational_query], which is not part of the
    sources at hand. It returns a new table containing only the rows whose
    region_key value is among the given element names. A table without a
    region_key column has no such row. *)
Definition _filter_table_by_coordinate_system (table : AnnData)
    (element_names : list string) : AnnData :=
  let mask := row_mask table element_names in
  mkAnnData ((λ kv, (kv.1, select_rows mask kv.2)) <$> obs table)
            (select_rows mask (X table))
            (uns_ATTRS_KEY table).

(** Modelled from the spec: [get_transformation_between_coordinate_systems]
    of [spatialdata.transformations.operations], which is not part of the
    sources at hand. The guaranteed behaviour is the direct lookup: the
    mapping of the element into the target system, if it has one. *)
Definition get_transformation_between_coordinate_systems (element : loc)
    (target_coordinate_system : string) : M BaseTransformation :=
  transformations ← get_transformation_all element;
  match PyDict.get target_coordinate_system transformations with
  | Some t => mret t
  | None => raise (RuntimeError "No path found between the two coordinate systems")
  end.

(** Modelled from the spec: [remove_transformation(element, remove_all=True)]
    of [spatialdata.transformations.operations], which is not part of the
    sources at hand. It removes every entry of the mapping of the element. *)
Definition remove_transformation_all (element : loc) : M unit :=
  set_transformation_all element [].

(** Modelled from the spec: [set_transformation(element, t, cs)] of
    [spatialdata.transformations.operations], which is not part of the
    sources at hand. It replaces the entry of the mapping for [cs]. *)
Definition set_transformation (element : loc) (t : BaseTransformation)
    (to_coordinate_system : string) : M unit :=
  transformations ← get_transformation_all element;
  set_transformation_all element (PyDict.set to_coordinate_system t transformations).

Section Container.
Variable TableModel_validate : AnnData → exn + unit.
(** What applying a transformation does to a payload; the container never
    looks at it. *)
Variable transform_payload : BaseTransformation → list Z → list Z.

(** The loop of the constructor over [tables.items()]. *)
Fixpoint init_tables (self : SpatialData) (items : list (string * AnnData))
    : M SpatialData :=
  match items with
  | [] => mret self
  | (k, v) :: rest =>
      validate_table_in_spatialdata TableModel_validate self v;;
      init_tables
        (mkSpatialData (_path self) (images self) (labels self) (points self)
           (shapes self) (PyDict.set k v (tables self)))
        rest
  end.

(** [SpatialData.__init__]. The assignments [self.images[k] = v] and the
    like go through the collection classes of [spatialdata._core._elements],
    which are not part of the sources at hand; they are taken to store the
    element under its name. *)
Definition __init__ (images labels points shapes : list (string * loc))
    (tables : list (string * AnnData)) : M SpatialData :=
  lift_result (_validate_unique_element_names
    (PyDict.keys images ++ PyDict.keys labels ++ PyDict.keys points ++ PyDict.keys shapes));;
  init_tables
    (mkSpatialData None (dict_literal images) (dict_literal labels)
       (dict_literal points) (dict_literal shapes) [])
    tables.

(** The loop of [filter_by_coordinate_system] over [self._gen_elements()].
    The state is the pair of [elements] and
    [element_paths_in_coordinate_system]. *)
Definition keep_if_in (element_type : ElementType) (element_name : string)
    (element : loc) (transformations : list (string * BaseTransformation))
    (st : (ElementType → list (string * loc)) * list string) (cs : string)
    : (ElementType → list (string * loc)) * list string :=
  if PyDict.contains cs transformations then
    (add_element element_type element_name element st.1, st.2 ++ [element_name])
  else st.

Fixpoint filter_elements (coordinate_system : list string)
    (gen : list (ElementType * string * Element))
    (st : (ElementType → list (string * loc)) * list string)
    : M ((ElementType → list (string * loc)) * list string) :=
  match gen with
  | [] => mret st
  | (element_type, element_name, element) :: rest =>
      match element with
      | Spatial element =>
          if bool_decide (element_type ≠ TABLES) then
            transformations ← get_transformation_all element;
            filter_elements coordinate_system rest
              (foldl (keep_if_in element_type element_name element transformations)
                     st coordinate_system)
          else filter_elements coordinate_system rest st
      | Table _ => filter_elements coordinate_system rest st
      end
  end.

Definition filter_by_coordinate_system (self : SpatialData)
    (coordinate_system : CoordinateSystems) (filter_tables : bool) : M SpatialData :=
  let coordinate_system := as_list coordinate_system in
  '(elements, element_paths_in_coordinate_system) ←
     filter_elements coordinate_system (_gen_elements self false) (no_elements, []);
  let tables :=
    if filter_tables then
      foldl (λ tables kv,
               PyDict.set kv.1
                 (_filter_table_by_coordinate_system kv.2 element_paths_in_coordinate_system)
                 tables)
            [] (tables self)
    else tables self in
  __init__ (elements IMAGES) (elements LABELS) (elements POINTS) (elements SHAPES) tables.

(** Modelled from the spec: [transform] of [spatialdata], which is not part
    of the sources at hand. It produces a new element whose payload reflects
    the transformation and does not change its argument. *)
Definition transform (element : loc) (t : BaseTransformation) : M loc :=
  λ w, match heap w !! element with
       | Some e => alloc (mkSpatialElement (transform_payload t (payload e))
                                           (transformations e)) w
       | None => (inl (RuntimeError "no such object"), w)
       end.

Definition transform_element_to_coordinate_system (element : loc)
    (target_coordinate_system : string) : M loc :=
  t ← get_transformation_between_coordinate_systems element target_coordinate_system;
  transformed ← transform element t;
  remove_transformation_all transformed;;
  set_transformation transformed Identity target_coordinate_system;;
  mret transformed.

(** The loop of [transform_to_coordinate_system] over
    [sdata._gen_elements()]. *)
Fixpoint transform_elements (target_coordinate_system : string)
    (gen : list (ElementType * string * Element))
    (elements : ElementType → list (string * loc))
    : M (ElementType → list (string * loc)) :=
  match gen with
  | [] => mret elements
  | (element_type, element_name, element) :: rest =>
      match element with
      | Spatial element =>
          if bool_decide (element_type ≠ TABLES) then
            transformed ← transform_element_to_coordinate_system element
                            target_coordinate_system;
            transform_elements target_coordinate_system rest
              (add_element element_type element_name transformed elements)
          else transform_elements target_coordinate_system rest elements
      | Table _ => transform_elements target_coordinate_system rest elements
      end
  end.

Definition transform_to_coordinate_system (self : SpatialData)
    (target_coordinate_system : string) : M SpatialData :=
  sdata ← filter_by_coordinate_system self (CsName target_coordinate_system) false;
  elements ← transform_elements target_coordinate_system (_gen_elements sdata false)
               no_elements;
  __init__ (elements IMAGES) (elements LABELS) (elements POINTS) (elements SHAPES)
           (tables sdata).
End Container.

(** [getattr(self, element_type)] for the four collections of spatial
    elements. *)
Definition spatial_collection (element_type : ElementType) (self : SpatialData)
    : list (string * loc) :=
  match element_type with
  | IMAGES => images self
  | LABELS => labels self
  | POINTS => points self
  | SHAPES => shapes self
  | TABLES => []
  end.

(** ** What filtering is to return, in the words of the specification *)

(** The element at [l] has a transformation into at least one of the
    requested coordinate systems. *)
Definition has_transformation_to (w : World) (coordinate_system : list string)
    (l : loc) : bool :=
  match heap w !! l with
  | Some e => bool_decide (Exists (λ cs, cs ∈ PyDict.keys (transformations e))
                                  coordinate_system)
  | None => false
  end.

(** The entries of a collection that are kept. *)
Definition kept_elements (w : World) (coordinate_system : list string)
    (d : list (string * loc)) : list (string * loc) :=
  filter (λ kv, has_transformation_to w coordinate_system kv.2 = true) d.

(** The names of the kept spatial elements. *)
Definition kept_names (self : SpatialData) (w : World)
    (coordinate_system : list string) : list string :=
  (kept_elements w coordinate_system (images self)).*1 ++
  (kept_elements w coordinate_system (labels self)).*1 ++
  (kept_elements w coordinate_system (points self)).*1 ++
  (kept_elements w coordinate_system (shapes self)).*1.

(** The restriction of the rows of a table to a set of element names, in
    the words of the specification: the rows are paired with the values of
    the region_key column, and a row stays when its value is one of the
    names; the rows that stay keep their order. *)
Definition rows_whose_region_in {A} (column : list Cell) (element_names : list string)
    (rows : list A) : list A :=
  (filter (λ cr, cr.1 ∈ CStr <$> element_names) (zip column rows)).*2.

(** The tables handed to the new container. *)
Definition filtered_tables (self : SpatialData) (w : World)
    (coordinate_system : list string) (filter_tables : bool)
    : list (string * AnnData) :=
  if filter_tables then
    (λ kv, (kv.1, _filter_table_by_coordinate_system kv.2
                    (kept_names self w coordinate_system))) <$> tables self
  else tables self.

(** The container that keeps a spatial element if and only if it has a
    transformation into a requested system, with the tables restricted to
    the kept names or passed through. *)
Definition filtered_container (self : SpatialData) (w : World)
    (coordinate_system : list string) (filter_tables : bool) : SpatialData :=
  mkSpatialData None
    (kept_elements w coordinate_system (images self))
    (kept_elements w coordinate_system (labels self))
    (kept_elements w coordinate_system (points self))
    (kept_elements w coordinate_system (shapes self))
    (filtered_tables self w coordinate_system filter_tables).

(** The table goes through [validate_table_in_spatialdata] without an
    exception: the schema validation accepts it and its annotation
    metadata, when present, names a region. *)
Definition table_accepted (TableModel_validate : AnnData → exn + unit)
    (table : AnnData) : Prop :=
  TableModel_validate table = inr () ∧
  ∀ attrs, uns_ATTRS_KEY table = Some attrs → is_Some (REGION_KEY attrs).

(** The invariant of containers: the names of the spatial elements are
    pairwise distinct across the four collections, and so are the names of
    the tables. *)
Definition names_unique (self : SpatialData) : Prop :=
  NoDup (spatial_element_names self) ∧ PyDict.wf (tables self).

(** ** What transforming is to return, in the words of the specification *)

(** The element at [l] is placed in the coordinate system [cs] and in no
    other one, and its transformation into [cs] is the identity. *)
Definition only_identity (w : World) (cs : string) (l : loc) : Prop :=
  ∃ e, heap w !! l = Some e ∧ transformations e = [(cs, Identity)].

(** The objects of [w] are objects of [w'], unchanged. *)
Definition heap_extends (w w' : World) : Prop :=
  ∃ news, heap w' = heap w ++ news.

(** Invariant of the loop of [transform_to_coordinate_system]: the objects
    created since the heap had [n0] objects are placed in [cs] only, with the
    identity, and [elements] holds such objects only. *)
Definition transformed_so_far (cs : string) (n0 : nat)
    (elements : ElementType → list (string * loc)) (w : World) : Prop :=
  (n0 ≤ length (heap w))%nat ∧
  (∀ l, (n0 ≤ l < length (heap w))%nat → only_identity w cs l) ∧
  ∀ ty, Forall (λ l, (n0 ≤ l < length (heap w))%nat) (elements ty).*2.

(** ** Writing a container *)

(** [is_backed] and the setting of [self._path]. *)
Definition is_backed (self : SpatialData) : bool :=
  bool_decide (_path self ≠ None).

Definition set_path (path : option string) (self : SpatialData) : SpatialData :=
  mkSpatialData path (images self) (labels self) (points self) (shapes self)
                (tables self).

(** [str(self.path)] *)
Definition str_path (path : option string) : string := default "None" path.

(** The root group of the Zarr store under construction: the groups it
    holds and, for each, the names of the element groups inside. *)
Definition create_group (name : string) : ST (list (string * list string)) unit :=
  λ root,
    if PyDict.contains name root
    then (inl (StoreError "ContainsGroupError" name), root)
    else (inr (), PyDict.set name [] root).

(** [_init_add_element]: the group of the collection is created unless it
    is there (the labels group is left to the writer); with [overwrite] an
    existing element group of that name is deleted, without it such a group
    is an error. [elem_group] is unbound when the collection is the labels
    and the store has no labels group. *)
Definition _init_add_element (name : string) (element_type : ElementType)
    (overwrite : bool) : ST (list (string * list string)) unit := λ root,
  let ty := element_type_name element_type in
  if bool_decide (element_type = TABLES) then (inl (AssertionError ty), root)
  else
    let root :=
      if bool_decide (element_type ≠ LABELS) && negb (PyDict.contains ty root)
      then PyDict.set ty [] root else root in
    let elem_group := PyDict.get ty root in
    if overwrite then
      match elem_group with
      | None => (inl (UnboundLocalError "elem_group"), root)
      | Some members =>
          (inr (), if bool_decide (name ∈ members)
                   then PyDict.set ty (filter (λ n, n ≠ name) members) root
                   else root)
      end
    else
      match elem_group with
      | None => (inr (), root)
      | Some members =>
          if bool_decide (name ∈ members)
          then (inl (ValueError ("Element " +:+ name +:+
                                 " already exists, use overwrite=True to overwrite it")), root)
          else (inr (), root)
      end.

Section Write.
(** The file system and the storage library are outside the container:
    whether the target exists, whether it is a Zarr store, and which calls
    of the storage layer fail are given from outside. A writer that returns
    has added the element group to the store. *)
Variable os_path_exists : string → bool.
Variable is_zarr_store : string → bool.
Variable open_store_fails : string → option exn.
Variable writer_fails : ElementType → string → option exn.
Variable consolidate_metadata_fails : option exn.

(** [write_image], [write_labels], [write_points], [write_shapes] and
    [write_table] of [spatialdata._io]. *)
Definition write_element (element_type : ElementType) (name : string)
    : ST (list (string * list string)) unit := λ root,
  match writer_fails element_type name with
  | Some e => (inl e, root)
  | None =>
      let ty := element_type_name element_type in
      (inr (), PyDict.set ty (default [] (PyDict.get ty root) ++ [name]) root)
  end.

(** One of the four blocks [if len(self.images): ...] of the [try]. *)
Definition write_collection (element_type : ElementType) (keys : list string)
    (overwrite : bool) : ST (list (string * list string)) unit :=
  if bool_decide (keys = []) then mret ()
  else
    create_group (element_type_name element_type);;
    for_each keys (λ name,
      _init_add_element name element_type overwrite;;
      write_element element_type name).

(** The body of the [try]: the writing of the elements. *)
Definition write_elements (self : SpatialData) (overwrite : bool)
    : ST (list (string * list string)) unit :=
  write_collection IMAGES (PyDict.keys (images self)) overwrite;;
  write_collection LABELS (PyDict.keys (labels self)) overwrite;;
  write_collection POINTS (PyDict.keys (points self)) overwrite;;
  write_collection SHAPES (PyDict.keys (shapes self)) overwrite;;
  if bool_decide (PyDict.keys (tables self) = []) then mret ()
  else
    create_group "tables";;
    for_each (PyDict.keys (tables self)) (write_element TABLES).

(** [write]; the container is the state. The message logged when the
    backing file changes has no effect on it. The exceptions of the
    embedding are all instances of [Exception], which is what the handler
    catches. *)
Definition write (file_path : string) (overwrite consolidate_metadata : bool)
    : ST SpatialData unit := λ self,
  if os_path_exists file_path then
    if negb (is_zarr_store file_path) then
      (inl (ValueError "The target file path specified already exists, and it has been detected to not be a Zarr store."), self)
    else if negb overwrite && bool_decide (str_path (_path self) ≠ file_path) then
      (inl (ValueError "The Zarr store already exists. Use `overwrite=True` to overwrite the store."), self)
    else
      (inl (ValueError "The file path specified is the same as the one used for backing."), self)
  else
    match open_store_fails file_path with
    | Some e => (inl e, self)
    | None =>
        let root : list (string * list string) := [] in
        let self := set_path (Some file_path) self in
        match write_elements self overwrite root with
        | (inl e, _) => (inl e, set_path None self)
        | (inr _, _) =>
            if consolidate_metadata then
              match consolidate_metadata_fails with
              | Some e => (inl e, self)
              | None => (inr (), self)
              end
            else (inr (), self)
        end
    end.
End Write.

(** ** Reading a persisted container *)

(** [on_bad_files="error"|"warn"] *)
Inductive OnBadFiles := OnError | OnWarn.

(** A persisted container: for every collection the element groups by name,
    each with what reading it yields, the element or the error of the
    storage or decoding layer. *)
Record ZarrStore := mkZarrStore {
  stored_images : list (string * (exn + SpatialElement));
  stored_labels : list (string * (exn + SpatialElement));
  stored_points : list (string * (exn + SpatialElement));
  stored_shapes : list (string * (exn + SpatialElement));
  stored_tables : list (string * (exn + AnnData))
}.

Definition stored_collection (element_type : ElementType) (store : ZarrStore)
    : list (string * (exn + SpatialElement)) :=
  match element_type with
  | IMAGES => stored_images store
  | LABELS => stored_labels store
  | POINTS => stored_points store
  | SHAPES => stored_shapes store
  | TABLES => []
  end.

(** The path of an element in the store, as in ["images/blobs_image"]. *)
Definition element_path (element_type : ElementType) (name : string) : string :=
  element_type_name element_type +:+ "/" +:+ name.

(** The warning for an element that could not be read; it names the path of
    the element and the class of the error. *)
Definition bad_file_warning (element_type : ElementType) (name : string) (e : exn)
    : Warning :=
  UserWarning (element_path element_type name +:+ ": " +:+ exn_type_name e
               +:+ ": " +:+ exn_message e).

(** Modelled from the spec: the two policies of [read_zarr] for an element
    that could not be read. With [on_bad_files="error"] the failure aborts
    the read with the underlying error; with [on_bad_files="warn"] it is
    caught, a warning names the path and the class of the error, the element
    is left out and the read goes on. *)
Definition handle_bad_file {A} (on_bad_files : OnBadFiles)
    (element_type : ElementType) (name : string) (e : exn) (skipped : A) : M A :=
  match on_bad_files with
  | OnError => raise e
  | OnWarn => warnings_warn (bad_file_warning element_type name e);; mret skipped
  end.

(** Modelled from the spec: the reading of the element groups of one
    collection, one after the other; a group that is read gives a new
    object, registered under its name. *)
Fixpoint read_collection (on_bad_files : OnBadFiles) (element_type : ElementType)
    (groups : list (string * (exn + SpatialElement)))
    (loaded : list (string * loc)) : M (list (string * loc)) :=
  match groups with
  | [] => mret loaded
  | (name, inr element) :: rest =>
      l ← alloc element;
      read_collection on_bad_files element_type rest (PyDict.set name l loaded)
  | (name, inl e) :: rest =>
      loaded ← handle_bad_file on_bad_files element_type name e loaded;
      read_collection on_bad_files element_type rest loaded
  end.

(** Modelled from the spec: the reading of the tables. *)
Fixpoint read_tables (on_bad_files : OnBadFiles)
    (groups : list (string * (exn + AnnData)))
    (loaded : list (string * AnnData)) : M (list (string * AnnData)) :=
  match groups with
  | [] => mret loaded
  | (name, inr table) :: rest =>
      read_tables on_bad_files rest (PyDict.set name table loaded)
  | (name, inl e) :: rest =>
      loaded ← handle_bad_file on_bad_files TABLES name e loaded;
      read_tables on_bad_files rest loaded
  end.

(** Modelled from the spec: the non-fatal check of a loaded table against
    the loaded elements. It emits the warning of
    [validate_table_in_spatialdata] and never raises. *)
Definition warn_if_annotating_absent (self : SpatialData) (table : AnnData) : M unit :=
  match uns_ATTRS_KEY table ≫= REGION_KEY with
  | Some region =>
      if bool_decide (Forall (λ name, name ∈ spatial_element_names self)
                             (region_names region))
      then mret ()
      else warnings_warn (UserWarning
             "The table is annotating an/some element(s) not present in the SpatialData object")
  | None => mret ()
  end.

(** Modelled from the spec: [read_zarr] of [spatialdata._io], which is not
    part of the sources at hand (only its tests are). The store is read
    element by element, every element going from pending to reading and
    then to loaded or failed; the check of the tables runs over what was
    loaded. *)
Definition read_zarr (store : ZarrStore) (on_bad_files : OnBadFiles) : M SpatialData :=
  images ← read_collection on_bad_files IMAGES (stored_images store) [];
  labels ← read_collection on_bad_files LABELS (stored_labels store) [];
  points ← read_collection on_bad_files POINTS (stored_points store) [];
  shapes ← read_collection on_bad_files SHAPES (stored_shapes store) [];
  tables ← read_tables on_bad_files (stored_tables store) [];
  let sdata := mkSpatialData None images labels points shapes tables in
  for_each (PyDict.values tables) (warn_if_annotating_absent sdata);;
  mret sdata.

(** The warnings of [w] are the first warnings of [w']. *)
Definition warnings_extend (w w' : World) : Prop :=
  ∃ more, warnings w' = warnings w ++ more.

(** ** Looking elements up *)

(** The loop of [_locate_spatial_element]: the entries of the four
    collections, in order, whose value is the object [element]. *)
Definition found_entries (self : SpatialData) (element : loc)
    : list (ElementType * string) :=
  let entries_of element_type d :=
    (λ kv, (element_type, kv.1)) <$> filter (λ kv, kv.2 = element) d in
  entries_of IMAGES (images self) ++ entries_of LABELS (labels self) ++
  entries_of POINTS (points self) ++ entries_of SHAPES (shapes self).

(** [_locate_spatial_element]: the name and the collection of the object.
    The message of the second error goes on to list the names and the
    collections found, which is left out here. *)
Definition _locate_spatial_element (self : SpatialData) (element : loc)
    : exn + (string * ElementType) :=
  match found_entries self element with
  | [] => inl (ValueError "Element not found in the SpatialData object.")
  | [(found_element_type, found_element_name)] =>
      inr (found_element_name, found_element_type)
  | _ => inl (ValueError "Element found multiple times in the SpatialData object.")
  end.

(** [contains_element]: a [ValueError] of the search is re-raised or turned
    into [False]. *)
Definition contains_element (self : SpatialData) (element : loc)
    (raise_exception : bool) : exn + bool :=
  match _locate_spatial_element self element with
  | inr _ => inr true
  | inl e =>
      if is_ValueError e then (if raise_exception then inl e else inr false)
      else inl e
  end.

(** [gen_spatial_elements] and [gen_elements]. *)
Definition gen_spatial_elements (self : SpatialData)
    : list (ElementType * string * Element) := _gen_elements self false.

Definition gen_elements (self : SpatialData)
    : list (ElementType * string * Element) := _gen_elements self true.

(** [_find_element]: the first element of [gen_elements()] with the name.
    The message quotes the name as [repr] does for a name without quotes
    or escapes. *)
Fixpoint find_in (element_name : string) (gen : list (ElementType * string * Element))
    : exn + (ElementType * string * Element) :=
  match gen with
  | [] => inl (KeyError ("Could not find element with name '" +:+ element_name +:+ "'"))
  | (element_type, element_name_, element) :: rest =>
      if decide (element_name_ = element_name)
      then inr (element_type, element_name_, element)
      else find_in element_name rest
  end.

Definition _find_element (self : SpatialData) (element_name : string)
    : exn + (ElementType * string * Element) :=
  find_in element_name (gen_elements self).

(** [__getitem__] *)
Definition __getitem__ (self : SpatialData) (item : string) : exn + Element :=
  match _find_element self item with
  | inl e => inl e
  | inr (_, _, element) => inr element
  end.

(** [_non_empty_elements]: the names of the collections that hold something. *)
Definition collection_size (self : SpatialData) (element_type : ElementType) : nat :=
  match element_type with
  | IMAGES => length (images self)
  | LABELS => length (labels self)
  | POINTS => length (points self)
  | SHAPES => length (shapes self)
  | TABLES => length (tables self)
  end.

Definition _non_empty_elements (self : SpatialData) : list string :=
  let all_elements := [IMAGES; LABELS; POINTS; SHAPES; TABLES] in
  element_type_name <$>
    filter (λ element, (0 < collection_size self element)%nat) all_elements.

(** ** The deprecated accessors of the table named ["table"] *)

(** Truth value of an [AnnData] object: it has a length, the number of its
    observations. *)
Definition n_obs (table : AnnData) : nat := length (X table).

Definition set_tables (tables : list (string * AnnData)) (self : SpatialData)
    : SpatialData :=
  mkSpatialData (_path self) (images self) (labels self) (points self)
                (shapes self) tables.

(** The getter of [table]. *)
Definition table_getter (self : SpatialData) : M (option AnnData) :=
  warnings_warn (DeprecationWarning
    "Table accessor will be deprecated with SpatialData version 0.1, use sdata.tables instead.");;
  mret (PyDict.get "table" (tables self)).

Section TableAccessors.
Variable TableModel_validate : AnnData → exn + unit.

(** The setter of [table]; it returns the container after the assignment. *)
Definition table_setter (self : SpatialData) (table : AnnData) : M SpatialData :=
  warnings_warn (DeprecationWarning
    "Table setter will be deprecated with SpatialData version 0.1, use tables instead.");;
  lift_result (TableModel_validate table);;
  match PyDict.get "table" (tables self) with
  | Some _ =>
      raise (ValueError "The table already exists. Use del sdata.tables['table'] to remove it first.")
  | None => mret (set_tables (PyDict.set "table" table (tables self)) self)
  end.
End TableAccessors.

(** The deleter of [table]; it returns the container after the deletion. *)
Definition table_deleter (self : SpatialData) : M SpatialData :=
  warnings_warn (DeprecationWarning
    "del sdata.table will be deprecated with SpatialData version 0.1, use del sdata.tables['table'] instead.");;
  match PyDict.get "table" (tables self) with
  | Some table =>
      if bool_decide (n_obs table ≠ 0%nat)
      then mret (set_tables (PyDict.remove "table" (tables self)) self)
      else raise (KeyError "table with name 'table' not present in the SpatialData object.")
  | None => raise (KeyError "table with name 'table' not present in the SpatialData object.")
  end.

(** The number of names under which the object [element] is registered in
    the four collections of spatial elements. *)
Definition registrations (self : SpatialData) (element : loc) : nat :=
  length (filter (λ l, l = element) (_gen_spatial_element_values self)).

(** The names of one collection, [getattr(self, element_type).keys()]. *)
Definition collection_keys (self : SpatialData) (element_type : ElementType)
    : list string :=
  match element_type with
  | IMAGES => PyDict.keys (images self)
  | LABELS => PyDict.keys (labels self)
  | POINTS => PyDict.keys (points self)
  | SHAPES => PyDict.keys (shapes self)
  | TABLES => PyDict.keys (tables self)
  end.

(** The names of the element groups inside the group of a collection; none
    when the store has no such group. *)
Definition group_members (element_type : ElementType)
    (root : list (string * list string)) : list string :=
  default [] (PyDict.get (element_type_name element_type) root).

(** The conditions that the validation loop of [rename_coordinate_systems]
    checks: every source is a live name, no target is given twice, and a
    target that is a live name is itself renamed in the same call. *)
Definition rename_accepted (self : SpatialData) (w : World)
    (rename_dict : list (string * string)) : Prop :=
  Forall (λ on, live self w on.1) rename_dict ∧
  NoDup rename_dict.*2 ∧
  Forall (λ on, live self w on.2 → on.2 ∈ PyDict.keys rename_dict) rename_dict.

(** The entry found under [k] once the entry of [old_cs] has been moved to
    [new_cs]. *)
Definition moved_entry {V} (old_cs new_cs : string) (d : list (string * V))
    (k : string) : option V :=
  if decide (k = new_cs) then PyDict.get old_cs d
  else if decide (k = old_cs) then None
  else PyDict.get k d.

(** The three conditions on the mapping of an element under which the
    renaming to [new_cs] moves its entry: the mapping is a dictionary, it
    does not have the new name, and no placeholder of the run is one of its
    keys. *)
Definition ready_to_move (sha1_urandom : nat → N) (new_cs : string)
    (e : SpatialElement) : Prop :=
  PyDict.wf (transformations e) ∧
  (new_cs ∉ PyDict.keys (transformations e)) ∧
  placeholders_fresh sha1_urandom new_cs (transformations e).

(** [e] is [e0] with the entry of [old_cs] moved to [new_cs]. *)
Definition moved_element (old_cs new_cs : string) (e0 e : SpatialElement) : Prop :=
  payload e = payload e0 ∧
  PyDict.wf (transformations e) ∧
  ∀ k, PyDict.get k (transformations e)
       = moved_entry old_cs new_cs (transformations e0) k.

(** ** Sample containers *)

Module Samples.
(** Two elements placed in the systems ["A"] and ["B"]; the first one also
    has a system whose name is ["B"] followed by eight hexadecimal digits. *)
Definition element0 : SpatialElement :=
  mkSpatialElement [1%Z; 2%Z]
    [("A", Identity); ("B", Scale [2%Z]); ("B00000000", Translation [1%Z])].
Definition element1 : SpatialElement :=
  mkSpatialElement [3%Z] [("A", Identity); ("B", Scale [2%Z])].

Definition world : World := mkWorld [element0; element1] [] 0.

(** Two images, each its own object. *)
Definition sdata : SpatialData :=
  mkSpatialData None [("image0", 0); ("image1", 1)] [] [] [] [].

(** One object registered under two names. *)
Definition sdata_aliased : SpatialData :=
  mkSpatialData None [("image1", 1); ("image1_again", 1)] [] [] [] [].

(** A labels element ["cells"] and a table whose region column holds only
    ["cells"]. *)
Definition cells_table : AnnData :=
  mkAnnData [("region", [CStr "cells"; CStr "cells"]); ("id", [CInt 1; CInt 2])]
            [[10%Z]; [20%Z]] None.

Definition sdata_cells : SpatialData :=
  mkSpatialData None [] [("cells", 1)] [] [] [("table", cells_table)].

(** The same table once its annotation target is ["nuclei"], an element the
    container does not have. *)
Definition nuclei_table : AnnData :=
  mkAnnData [("region", [CStr "nuclei"]); ("id", [CInt 1])] [[10%Z]]
            (Some (mkAttrs (Some (RegionName "nuclei")) (Some "region") (Some "id"))).

(** Two images and a shapes element, the latter placed in the system ["C"]
    only, with a table annotating the first image and the shapes. *)
Definition element2 : SpatialElement :=
  mkSpatialElement [5%Z] [("C", Affine [[1%Z]])].

Definition world3 : World := mkWorld [element0; element1; element2] [] 0.

Definition annotating_table : AnnData :=
  mkAnnData [("region", [CStr "image0"; CStr "shapes2"; CStr "image0"]);
             ("id", [CInt 1; CInt 2; CInt 3])]
            [[10%Z]; [20%Z]; [30%Z]]
            (Some (mkAttrs (Some (RegionList ["image0"; "shapes2"]))
                           (Some "region") (Some "id"))).

Definition sdata_annotated : SpatialData :=
  mkSpatialData None [("image0", 0); ("image1", 1)] [] [] [("shapes2", 2)]
                [("table", annotating_table)].

(** A table annotating the labels ["cells"], and a store in which the
    metadata file of that element is a zero-byte file. *)
Definition cells_annotating_table : AnnData :=
  mkAnnData [("region", [CStr "cells"; CStr "cells"]); ("id", [CInt 1; CInt 2])]
            [[10%Z]; [20%Z]]
            (Some (mkAttrs (Some (RegionName "cells")) (Some "region") (Some "id"))).

Definition corrupted_store : ZarrStore :=
  mkZarrStore [("image0", inr element0)]
              [("cells", inl (StoreError "JSONDecodeError" "Expecting value"))]
              [] []
              [("table", inr cells_annotating_table)].

Definition empty_world : World := mkWorld [] [] 0.

(** A file system on which the target does not exist and a storage layer
    whose writer fails on the element ["image1"]. *)
Definition nothing_exists : string → bool := λ _, false.
Definition opens : string → option exn := λ _, None.
Definition fails_on_image1 : ElementType → string → option exn := λ _ name,
  if decide (name = "image1") then Some (StoreError "OSError" "No space left on device")
  else None.

(** Stand-ins for the two functions of [TableModel]: a validation that
    accepts every table and an instance-key step that changes nothing. *)
Definition accept_all : AnnData → exn + unit := λ _, inr ().
Definition keep_instance_key : option string → ST AnnData unit := λ _, mret ().
End Samples.

(** * Properties *)

(** ** Facts about dictionaries *)

Module PyDictFacts.
Import PyDict.
Section Facts.
Context {V : Type}.
Implicit Types (d : list (string * V)) (k : string) (v : V).

Lemma get_None k d : get k d = None ↔ k ∉ d.*1.
Proof.
  induction d as [|[k' v] d IH]; simpl.
  - split; [intros _; apply not_elem_of_nil | done].
  - rewrite not_elem_of_cons. case_decide as Hk; naive_solver.
Qed.

Lemma get_Some_elem k v d : get k d = Some v → (k, v) ∈ d.
Proof.
  induction d as [|[k' v'] d IH]; simpl; [done|].
  case_decide; [intros [= <-]; subst; left | intros; right; auto].
Qed.

Lemma elem_get k v d : wf d → (k, v) ∈ d → get k d = Some v.
Proof.
  unfold wf. induction d as [|[k' v'] d IH]; simpl; intros Hnd Hin.
  - by apply elem_of_nil in Hin.
  - apply NoDup_cons in Hnd as [Hk' Hnd].
    apply elem_of_cons in Hin as [[= -> ->]|Hin].
    + by rewrite decide_True.
    + rewrite decide_False; [auto|].
      intros ->. apply Hk'. apply list_elem_of_fmap. by exists (k', v).
Qed.

Lemma contains_get k d : contains k d = true ↔ is_Some (get k d).
Proof.
  unfold contains. rewrite bool_decide_eq_true.
  destruct (get k d) eqn:E.
  - split; [eauto|]. intros _. apply get_Some_elem in E.
    apply list_elem_of_fmap. by exists (k, v).
  - apply get_None in E. split; [done | intros [? ?]; done].
Qed.

Lemma get_set_eq k v d : get k (set k v d) = Some v.
Proof.
  induction d as [|[k' v'] d IH]; simpl.
  - by rewrite decide_True.
  - case_decide; simpl; [by rewrite decide_True | by rewrite decide_False].
Qed.

Lemma get_set_ne k k' v d : k' ≠ k → get k' (set k v d) = get k' d.
Proof.
  intros Hne. induction d as [|[k0 v0] d IH]; simpl.
  - by rewrite decide_False.
  - case_decide; simpl.
    + subst. by rewrite !decide_False.
    + case_decide; [done | apply IH].
Qed.

Lemma get_set k k' v d :
  get k' (set k v d) = if decide (k' = k) then Some v else get k' d.
Proof.
  case_decide; [subst; apply get_set_eq | by apply get_set_ne].
Qed.

Lemma keys_set k v d :
  (set k v d).*1 = if decide (k ∈ d.*1) then d.*1 else d.*1 ++ [k].
Proof.
  induction d as [|[k' v'] d IH].
  - cbn. case_decide as Hk; [by apply elem_of_nil in Hk | done].
  - cbn [set]. destruct (decide (k = k')) as [->|Hk]; cbn.
    + rewrite decide_True; [done | left].
    + rewrite IH. destruct (decide (k ∈ d.*1)) as [Hin|Hin].
      * rewrite decide_True; [done | by right].
      * rewrite decide_False; [done|].
        rewrite elem_of_cons. naive_solver.
Qed.

Lemma elem_of_keys_set k k' v d : k' ∈ (set k v d).*1 ↔ k' = k ∨ k' ∈ d.*1.
Proof.
  rewrite keys_set. case_decide.
  - naive_solver.
  - rewrite elem_of_app, list_elem_of_singleton. naive_solver.
Qed.

Lemma wf_set k v d : wf d → wf (set k v d).
Proof.
  unfold wf. intros Hnd. rewrite keys_set. case_decide; [done|].
  apply NoDup_app. split_and!; [done | | apply NoDup_singleton].
  intros x Hx ->%list_elem_of_singleton. done.
Qed.

Lemma get_remove_eq k d : get k (remove k d) = None.
Proof.
  apply get_None. unfold remove. intros (kv & -> & Hin)%list_elem_of_fmap.
  apply list_elem_of_filter in Hin as [Hne _]. done.
Qed.

Lemma get_remove_ne k k' d : k' ≠ k → get k' (remove k d) = get k' d.
Proof.
  intros Hne. unfold remove. induction d as [|[k0 v0] d IH]; [done|].
  rewrite filter_cons. simpl. case_decide as Hk0; simpl in *.
  - case_decide; [done | apply IH].
  - subst. by rewrite decide_False.
Qed.

Lemma elem_of_keys_remove k k' d : k' ∈ (remove k d).*1 ↔ k' ≠ k ∧ k' ∈ d.*1.
Proof.
  unfold remove. rewrite !list_elem_of_fmap. split.
  - intros (kv & -> & [? ?]%list_elem_of_filter). eauto.
  - intros (Hne & kv & -> & Hin). exists kv. split; [done|].
    by apply list_elem_of_filter.
Qed.

Lemma wf_remove k d : wf d → wf (remove k d).
Proof.
  unfold wf, remove. induction d as [|[k0 v0] d IH]; [done|].
  simpl. intros [Hk0 Hnd]%NoDup_cons. rewrite filter_cons. simpl.
  case_decide; simpl; [|auto].
  apply NoDup_cons. split; [|auto].
  intros Hin. apply Hk0. apply (elem_of_keys_remove k k0 d) in Hin. tauto.
Qed.

Lemma wf_nil : wf ([] : list (string * V)).
Proof. apply NoDup_nil_2. Qed.
End Facts.
End PyDictFacts.

(** ** Facts about strings *)

Lemma app_string_nil (s : string) : "" +:+ s = s.
Proof. reflexivity. Qed.

Lemma app_string_cons (c : ascii) (a s : string) :
  String c a +:+ s = String c (a +:+ s).
Proof. reflexivity. Qed.

Lemma length_app_string (a b : string) :
  String.length (a +:+ b) = String.length a + String.length b.
Proof.
  induction a as [|c a IH]; [done|].
  rewrite app_string_cons. simpl. by rewrite IH.
Qed.

Lemma substring_prefix (a b : string) :
  substring 0 (String.length a) (a +:+ b) = a.
Proof.
  induction a as [|c a IH].
  - rewrite app_string_nil. by destruct b.
  - rewrite app_string_cons. simpl. by rewrite IH.
Qed.

Lemma drop_last8_app (a sfx : string) :
  String.length sfx = 8 → drop_last8 (a +:+ sfx) = a.
Proof.
  intros Hlen. unfold drop_last8. rewrite length_app_string, Hlen.
  replace (String.length a + 8 - 8) with (String.length a) by lia.
  apply substring_prefix.
Qed.

Lemma app_string_inj_same_length (a b s t : string) :
  String.length s = String.length t → a +:+ s = b +:+ t → a = b.
Proof.
  revert b. induction a as [|c a IH]; intros [|d b] Hlen Heq;
    rewrite ?app_string_nil, ?app_string_cons in Heq.
  - done.
  - subst s. simpl in Hlen. rewrite length_app_string in Hlen. lia.
  - subst t. simpl in Hlen. rewrite length_app_string in Hlen. lia.
  - injection Heq as -> Heq. f_equal. by apply IH.
Qed.

Lemma app_string_ne_self (a s : string) :
  0 < String.length s → a +:+ s ≠ a.
Proof.
  intros Hlen Heq. apply (f_equal String.length) in Heq.
  rewrite length_app_string in Heq. lia.
Qed.

Lemma length_hexdigest8 (x : N) : String.length (hexdigest8 x) = 8.
Proof. reflexivity. Qed.

(** ** The monad *)

Lemma bind_inr {S A B} (m : ST S A) (f : A → ST S B) w a w' :
  m w = (inr a, w') → (m ≫= f) w = f a w'.
Proof. intros H. unfold mbind, ST_bind. by rewrite H. Qed.

Lemma bind_inl {S A B} (m : ST S A) (f : A → ST S B) w e w' :
  m w = (inl e, w') → (m ≫= f) w = (inl e, w').
Proof. intros H. unfold mbind, ST_bind. by rewrite H. Qed.

Lemma get_transformation_all_Some l e w :
  heap w !! l = Some e → get_transformation_all l w = (inr (transformations e), w).
Proof. intros H. unfold get_transformation_all. by rewrite H. Qed.

(** ** Live coordinate systems *)

Lemma elem_of_set_add x y s : x ∈ set_add y s ↔ x = y ∨ x ∈ s.
Proof.
  unfold set_add. case_bool_decide.
  - naive_solver.
  - rewrite elem_of_app, list_elem_of_singleton. naive_solver.
Qed.

Lemma elem_of_foldl_set_add x ks acc :
  x ∈ foldl (λ acc cs, set_add cs acc) acc ks ↔ x ∈ ks ∨ x ∈ acc.
Proof.
  revert acc. induction ks as [|k ks IH]; intros acc; simpl.
  - rewrite elem_of_nil. naive_solver.
  - rewrite IH, elem_of_set_add, elem_of_cons. naive_solver.
Qed.

Lemma collect_coordinate_systems_spec locs acc w :
  Forall (λ l, is_Some (heap w !! l)) locs →
  ∃ cs, collect_coordinate_systems locs acc w = (inr cs, w) ∧
    ∀ k, k ∈ cs ↔ k ∈ acc ∨
      Exists (λ l, ∃ e, heap w !! l = Some e ∧ k ∈ PyDict.keys (transformations e)) locs.
Proof.
  revert acc. induction locs as [|l locs IH]; intros acc Hok.
  - exists acc. split; [done|]. intros k. rewrite Exists_nil. naive_solver.
  - apply Forall_cons in Hok as [[e He] Hok]. simpl.
    rewrite (bind_inr _ _ _ _ _ (get_transformation_all_Some _ _ _ He)).
    destruct (IH (foldl (λ acc cs, set_add cs acc) acc (PyDict.keys (transformations e))) Hok)
      as (cs & -> & Hcs).
    exists cs. split; [done|]. intros k.
    rewrite Hcs, elem_of_foldl_set_add, Exists_cons. split.
    + intros [[?|?]|?]; eauto 10.
    + intros [?|[(e' & He' & ?)|?]]; eauto. left. left. congruence.
Qed.

Lemma coordinate_systems_spec self w :
  objects_exist self w →
  ∃ cs, coordinate_systems self w = (inr cs, w) ∧ ∀ k, k ∈ cs ↔ live self w k.
Proof.
  intros Hok. destruct (collect_coordinate_systems_spec _ [] w Hok) as (cs & Hcs & Hk).
  exists cs. split; [done|]. intros k. rewrite Hk, elem_of_nil. unfold live. naive_solver.
Qed.

(** ** Validation of the renaming *)

Lemma check_rename_dict_ValueError old_names new_names items e :
  check_rename_dict old_names new_names items = inl e → is_ValueError e = true.
Proof.
  revert new_names. induction items as [|[o n] items IH]; intros new_names; simpl; [done|].
  repeat case_bool_decide; try (intros [= <-]; done). apply IH.
Qed.

Lemma check_rename_dict_raises old_names new_names items :
  Exists (λ on, on.1 ∉ old_names ∨ on.2 ∈ new_names) items →
  ∃ e, check_rename_dict old_names new_names items = inl e.
Proof.
  revert new_names. induction items as [|[o n] items IH]; intros new_names Hex.
  - by apply Exists_nil in Hex.
  - simpl. repeat case_bool_decide; eauto.
    apply IH. apply Exists_cons in Hex as [[?|?]|Hex]; simpl in *; [done..|].
    eapply Exists_impl; [exact Hex|]. intros [o' n'] [?|?]; simpl in *; [by left|].
    right. apply elem_of_app. by left.
Qed.

Import PyDictFacts.

(** ** The second loop of the renaming *)

Lemma foldl_ext_elem {A B} (f g : A → B → A) (l : list B) (a : A) :
  (∀ x a', x ∈ l → f a' x = g a' x) → foldl f a l = foldl g a l.
Proof.
  revert a. induction l as [|x l IH]; intros a Hfg; simpl; [done|].
  rewrite Hfg by left. apply IH. intros. apply Hfg. by right.
Qed.

Lemma elem_of_set_remove x y s : x ∈ set_remove y s ↔ x ≠ y ∧ x ∈ s.
Proof. unfold set_remove. by rewrite list_elem_of_filter. Qed.

Lemma remove_random_suffixes_foldl entries S acc :
  PyDict.wf entries →
  remove_random_suffixes entries S acc =
  foldl (λ acc kv, PyDict.set (strip_placeholder S kv.1) kv.2 acc) acc entries.
Proof.
  unfold PyDict.wf. revert S acc.
  induction entries as [|[k t] entries IH]; intros S acc Hnd; simpl; [done|].
  apply NoDup_cons in Hnd as [Hk Hnd]. unfold strip_placeholder at 2. simpl.
  case_bool_decide as HkS; [|by apply IH].
  rewrite IH by done. apply foldl_ext_elem. intros [k' t'] a' Hin. simpl.
  f_equal. unfold strip_placeholder.
  assert (k' ≠ k).
  { intros ->. apply Hk. apply list_elem_of_fmap. by exists (k, t'). }
  rewrite (bool_decide_ext (k' ∈ set_remove k S) (k' ∈ S)); [done|].
  rewrite elem_of_set_remove. naive_solver.
Qed.

Lemma get_foldl_set_miss {V} (f : string → string) (entries acc : list (string * V)) k' :
  (∀ k, k ∈ entries.*1 → f k ≠ k') →
  PyDict.get k' (foldl (λ acc kv, PyDict.set (f kv.1) kv.2 acc) acc entries) = PyDict.get k' acc.
Proof.
  revert acc. induction entries as [|[k v] entries IH]; intros acc Hf; simpl; [done|].
  rewrite IH.
  - apply get_set_ne. intros ->. apply (Hf k); [left | done].
  - intros k0 Hk0. apply Hf. by right.
Qed.

Lemma get_foldl_set_hit {V} (f : string → string) (entries acc : list (string * V)) k v :
  PyDict.wf entries →
  (∀ k1 k2, k1 ∈ entries.*1 → k2 ∈ entries.*1 → f k1 = f k2 → k1 = k2) →
  (k, v) ∈ entries →
  PyDict.get (f k) (foldl (λ acc kv, PyDict.set (f kv.1) kv.2 acc) acc entries) = Some v.
Proof.
  unfold PyDict.wf. revert acc.
  induction entries as [|[k0 v0] entries IH]; intros acc Hnd Hinj Hin; simpl.
  - by apply elem_of_nil in Hin.
  - apply NoDup_cons in Hnd as [Hk0 Hnd].
    apply elem_of_cons in Hin as [[= -> ->]|Hin].
    + rewrite get_foldl_set_miss; [apply get_set_eq|].
      intros k Hk Heq. apply Hinj in Heq; [by subst | by right | by left].
    + apply IH; [done | | done]. intros k1 k2 ? ?. apply Hinj; by right.
Qed.

Lemma get_remove {V} k k' (d : list (string * V)) :
  PyDict.get k' (PyDict.remove k d) = if decide (k' = k) then None else PyDict.get k' d.
Proof. case_decide; [subst; apply get_remove_eq | by apply get_remove_ne]. Qed.

Lemma elem_of_keys_get {V} k (d : list (string * V)) :
  k ∈ d.*1 ↔ is_Some (PyDict.get k d).
Proof.
  destruct (PyDict.get k d) eqn:E.
  - split; [eauto|]. intros _. apply get_Some_elem in E.
    apply list_elem_of_fmap. by exists (k, v).
  - apply get_None in E. split; [done | by intros [? ?]].
Qed.

Lemma strip_placeholder_in S k sfx :
  String.length sfx = 8 → k +:+ sfx ∈ S → strip_placeholder S (k +:+ sfx) = k.
Proof.
  intros Hlen Hin. unfold strip_placeholder.
  rewrite bool_decide_eq_true_2 by done. by apply drop_last8_app.
Qed.

Lemma strip_placeholder_notin S k :
  k ∉ S → strip_placeholder S k = k.
Proof. intros Hin. unfold strip_placeholder. by rewrite bool_decide_eq_false_2. Qed.

Section Swap.
Variable sha1_urandom : nat → N.
Variables a b : string.
Hypothesis Hab : a ≠ b.

Lemma placeholders_distinct s1 s2 :
  String.length s1 = 8 → String.length s2 = 8 →
  b +:+ s1 ≠ b ∧ a +:+ s2 ≠ a ∧ b +:+ s1 ≠ a +:+ s2.
Proof.
  intros H1 H2. split_and!.
  - apply app_string_ne_self. lia.
  - apply app_string_ne_self. lia.
  - intros Heq. apply app_string_inj_same_length in Heq; [done | lia].
Qed.

Ltac get_cases :=
  repeat first [rewrite get_set | rewrite get_remove | case_decide];
  congruence.

Lemma add_random_suffixes_swap_ne T w :
  PyDict.wf T →
  placeholders_fresh sha1_urandom a T →
  placeholders_fresh sha1_urandom b T →
  ∃ T2 S2 w' s1 s2,
    add_random_suffixes sha1_urandom [(a, b); (b, a)] T [] w = (inr (T2, S2), w') ∧
    heap w' = heap w ∧ warnings w' = warnings w ∧
    PyDict.wf T2 ∧
    (∀ k v, PyDict.get k T = Some v →
            PyDict.get (swap_placeholder a b s1 s2 k) T2 = Some v) ∧
    (∀ k2 v, PyDict.get k2 T2 = Some v →
             ∃ k, PyDict.get k T = Some v ∧ k2 = swap_placeholder a b s1 s2 k) ∧
    (∀ k v, PyDict.get k T = Some v →
            strip_placeholder S2 (swap_placeholder a b s1 s2 k) = swap_names a b k).
Proof.
  intros Hwf Hfa Hfb.
  assert (HfA : ∀ n, PyDict.get (a +:+ hexdigest8 (sha1_urandom n)) T = None).
  { intros n. apply get_None, Hfa. }
  assert (HfB : ∀ n, PyDict.get (b +:+ hexdigest8 (sha1_urandom n)) T = None).
  { intros n. apply get_None, Hfb. }
  clear Hfa Hfb.
  cbn [add_random_suffixes].
  destruct (PyDict.get a T) as [ta|] eqn:Ea.
  - unfold mbind at 1, ST_bind at 1. cbn [random_suffix].
    set (s1 := hexdigest8 (sha1_urandom (draws w))).
    pose proof (HfB (draws w)) as HB1. fold s1 in HB1.
    rewrite get_set, get_remove.
    destruct (placeholders_distinct s1 s1 eq_refl eq_refl) as (N1 & _ & _).
    rewrite decide_False by congruence. rewrite decide_False by congruence.
    destruct (PyDict.get b T) as [tb|] eqn:Eb.
    + unfold mbind, ST_bind. cbn [random_suffix draws heap warnings].
      set (s2 := hexdigest8 (sha1_urandom (S (draws w)))).
      pose proof (HfA (S (draws w))) as HA2. fold s2 in HA2.
      destruct (placeholders_distinct s1 s2 eq_refl eq_refl) as (_ & N2 & N3).
      eexists _, _, _, s1, s2. split; [reflexivity|]. split_and!; try done.
      * by apply wf_set, wf_remove, wf_set, wf_remove.
      * intros k v Hk. unfold swap_placeholder. get_cases.
      * intros k2 v Hk2. unfold swap_placeholder.
        rewrite get_set, get_remove, get_set, get_remove in Hk2.
        destruct (decide (k2 = a +:+ s2)) as [->|?].
        { exists b. rewrite decide_False, decide_True by done. split; congruence. }
        destruct (decide (k2 = b)) as [->|?]; [done|].
        destruct (decide (k2 = b +:+ s1)) as [->|?].
        { exists a. rewrite decide_True by done. split; congruence. }
        destruct (decide (k2 = a)) as [->|?]; [done|].
        exists k2. by rewrite !decide_False.
      * intros k v Hk. unfold swap_placeholder, swap_names.
        destruct (decide (k = a)) as [->|?].
        { apply strip_placeholder_in; [done|].
          rewrite !elem_of_set_add. auto. }
        destruct (decide (k = b)) as [->|?].
        { apply strip_placeholder_in; [done|].
          rewrite !elem_of_set_add. auto. }
        apply strip_placeholder_notin. rewrite !elem_of_set_add, elem_of_nil.
        intros [->|[->|[]]]; congruence.
    + set (s2 := hexdigest8 (sha1_urandom 0)).
      destruct (placeholders_distinct s1 s2 eq_refl eq_refl) as (_ & N2 & N3).
      eexists _, _, _, s1, s2. split; [reflexivity|]. split_and!; try done.
      * by apply wf_set, wf_remove.
      * intros k v Hk. unfold swap_placeholder. get_cases.
      * intros k2 v Hk2. unfold swap_placeholder.
        rewrite get_set, get_remove in Hk2.
        destruct (decide (k2 = b +:+ s1)) as [->|?].
        { exists a. rewrite decide_True by done. split; congruence. }
        destruct (decide (k2 = a)) as [->|?]; [done|].
        exists k2. rewrite !decide_False by (simpl in *; congruence). done.
      * intros k v Hk. unfold swap_placeholder, swap_names.
        destruct (decide (k = a)) as [->|?].
        { apply strip_placeholder_in; [done|].
          rewrite !elem_of_set_add. auto. }
        destruct (decide (k = b)) as [->|?]; [congruence|].
        apply strip_placeholder_notin. rewrite !elem_of_set_add, elem_of_nil.
        intros [->|[]]; congruence.
  - destruct (PyDict.get b T) as [tb|] eqn:Eb.
    + unfold mbind, ST_bind. cbn [random_suffix draws heap warnings].
      set (s2 := hexdigest8 (sha1_urandom (draws w))).
      set (s1 := hexdigest8 (sha1_urandom 0)).
      pose proof (HfA (draws w)) as HA2. fold s2 in HA2.
      destruct (placeholders_distinct s1 s2 eq_refl eq_refl) as (N1 & N2 & N3).
      eexists _, _, _, s1, s2. split; [reflexivity|]. split_and!; try done.
      * by apply wf_set, wf_remove.
      * intros k v Hk. unfold swap_placeholder. get_cases.
      * intros k2 v Hk2. unfold swap_placeholder.
        rewrite get_set, get_remove in Hk2.
        destruct (decide (k2 = a +:+ s2)) as [->|?].
        { exists b. rewrite decide_False, decide_True by done. split; congruence. }
        destruct (decide (k2 = b)) as [->|?]; [done|].
        exists k2. rewrite !decide_False by (simpl in *; congruence). done.
      * intros k v Hk. unfold swap_placeholder, swap_names.
        destruct (decide (k = a)) as [->|?]; [congruence|].
        destruct (decide (k = b)) as [->|?].
        { apply strip_placeholder_in; [done|].
          rewrite !elem_of_set_add. auto. }
        apply strip_placeholder_notin. rewrite !elem_of_set_add, elem_of_nil.
        intros [->|[]]; congruence.
    + set (s1 := hexdigest8 (sha1_urandom 0)).
      eexists _, _, _, s1, s1. split; [reflexivity|]. split_and!; try done.
      * intros k v Hk. unfold swap_placeholder.
        rewrite !decide_False; [done|congruence..].
      * intros k2 v Hk2. exists k2. unfold swap_placeholder.
        rewrite !decide_False; [done|congruence..].
      * intros k v Hk. unfold swap_placeholder, swap_names.
        rewrite !decide_False by congruence.
        apply strip_placeholder_notin, not_elem_of_nil.
Qed.

End Swap.

Lemma dict_literal_swap (a b : string) :
  dict_literal [(a, b); (b, a)] = if decide (a = b) then [(a, a)] else [(a, b); (b, a)].
Proof.
  unfold dict_literal. simpl. case_decide as Hab.
  - subst. by rewrite decide_True.
  - by rewrite decide_False.
Qed.

Lemma swap_names_involutive a b k : swap_names a b (swap_names a b k) = k.
Proof. unfold swap_names. repeat (case_decide; simplify_eq/=); done. Qed.

Lemma add_random_suffixes_swap sha1_urandom a b T w :
  PyDict.wf T →
  placeholders_fresh sha1_urandom a T →
  placeholders_fresh sha1_urandom b T →
  ∃ T2 S2 w' s1 s2,
    add_random_suffixes sha1_urandom (dict_literal [(a, b); (b, a)]) T [] w
      = (inr (T2, S2), w') ∧
    heap w' = heap w ∧ warnings w' = warnings w ∧
    PyDict.wf T2 ∧
    (∀ k v, PyDict.get k T = Some v →
            PyDict.get (swap_placeholder a b s1 s2 k) T2 = Some v) ∧
    (∀ k2 v, PyDict.get k2 T2 = Some v →
             ∃ k, PyDict.get k T = Some v ∧ k2 = swap_placeholder a b s1 s2 k) ∧
    (∀ k v, PyDict.get k T = Some v →
            strip_placeholder S2 (swap_placeholder a b s1 s2 k) = swap_names a b k).
Proof.
  rewrite dict_literal_swap. case_decide as Hab; [subst b|by apply add_random_suffixes_swap_ne].
  intros Hwf Hfa _.
  assert (HfA : ∀ n, PyDict.get (a +:+ hexdigest8 (sha1_urandom n)) T = None).
  { intros n. apply get_None, Hfa. }
  clear Hfa. cbn [add_random_suffixes].
  destruct (PyDict.get a T) as [ta|] eqn:Ea.
  - unfold mbind, ST_bind. cbn [random_suffix].
    set (s1 := hexdigest8 (sha1_urandom (draws w))).
    pose proof (HfA (draws w)) as HA1. fold s1 in HA1.
    assert (N1 : a +:+ s1 ≠ a) by (apply app_string_ne_self; simpl; lia).
    eexists _, _, _, s1, s1. split; [reflexivity|]. split_and!; try done.
    + by apply wf_set, wf_remove.
    + intros k v Hk. unfold swap_placeholder.
      repeat first [rewrite get_set | rewrite get_remove | case_decide]; congruence.
    + intros k2 v Hk2. unfold swap_placeholder.
      rewrite get_set, get_remove in Hk2.
      destruct (decide (k2 = a +:+ s1)) as [->|?].
      { exists a. rewrite decide_True by done. split; congruence. }
      destruct (decide (k2 = a)) as [->|?]; [done|].
      exists k2. by rewrite !decide_False.
    + intros k v Hk. unfold swap_placeholder, swap_names.
      destruct (decide (k = a)) as [->|?].
      { apply strip_placeholder_in; [done|]. rewrite !elem_of_set_add. auto. }
      apply strip_placeholder_notin. rewrite !elem_of_set_add, elem_of_nil.
      intros [->|[]]; congruence.
  - set (s1 := hexdigest8 (sha1_urandom 0)).
    eexists _, _, _, s1, s1. split; [reflexivity|]. split_and!; try done.
    + intros k v Hk. unfold swap_placeholder.
      rewrite !decide_False; [done|congruence..].
    + intros k2 v Hk2. exists k2. unfold swap_placeholder.
      rewrite !decide_False; [done|congruence..].
    + intros k v Hk. unfold swap_placeholder, swap_names.
      rewrite !decide_False by congruence.
      apply strip_placeholder_notin, not_elem_of_nil.
Qed.

Lemma set_transformation_all_Some l e d w :
  heap w !! l = Some e →
  set_transformation_all l d w =
    (inr (), mkWorld (<[l := mkSpatialElement (payload e) d]> (heap w)) (warnings w) (draws w)).
Proof. intros H. unfold set_transformation_all. by rewrite H. Qed.

(** Renaming one element with the swap dictionary exchanges the entries of
    the two names and keeps every other entry. *)
Lemma rename_element_swap sha1_urandom a b l e w :
  heap w !! l = Some e →
  PyDict.wf (transformations e) →
  placeholders_fresh sha1_urandom a (transformations e) →
  placeholders_fresh sha1_urandom b (transformations e) →
  ∃ w' d',
    rename_element sha1_urandom (dict_literal [(a, b); (b, a)]) l w = (inr (), w') ∧
    heap w' = <[l := mkSpatialElement (payload e) d']> (heap w) ∧
    warnings w' = warnings w ∧
    ∀ k, PyDict.get k d' = PyDict.get (swap_names a b k) (transformations e).
Proof.
  intros He Hwf Hfa Hfb. unfold rename_element.
  rewrite (bind_inr _ _ _ _ _ (get_transformation_all_Some _ _ _ He)).
  destruct (add_random_suffixes_swap sha1_urandom a b _ w Hwf Hfa Hfb)
    as (T2 & S2 & w1 & s1 & s2 & Hrun & Hheap & Hwarn & Hwf2 & Hfwd & Hbwd & Hstrip).
  rewrite (bind_inr _ _ _ _ _ Hrun).
  assert (He1 : heap w1 !! l = Some e) by by rewrite Hheap.
  rewrite (bind_inr _ _ _ _ _ (set_transformation_all_Some _ _ T2 _ He1)).
  assert (Hl : l < length (heap w1)) by by eapply lookup_lt_Some.
  rewrite (set_transformation_all_Some l (mkSpatialElement (payload e) T2));
    [|by apply list_lookup_insert_eq].
  cbn [heap warnings draws payload].
  eexists _, _. split; [reflexivity|]. cbn [heap warnings].
  rewrite list_insert_insert_eq, Hheap. split_and!; [done..|].
  intros k'. rewrite remove_random_suffixes_foldl by done.
  destruct (PyDict.get (swap_names a b k') (transformations e)) as [v|] eqn:Ek.
  - rewrite <- (swap_names_involutive a b k'), <- (Hstrip _ _ Ek).
    apply get_foldl_set_hit; [done| |].
    + intros k1 k2 [v1 Hk1]%elem_of_keys_get [v2 Hk2]%elem_of_keys_get Heq.
      apply Hbwd in Hk1 as (j1 & Hj1 & ->). apply Hbwd in Hk2 as (j2 & Hj2 & ->).
      rewrite (Hstrip _ _ Hj1), (Hstrip _ _ Hj2) in Heq.
      apply (f_equal (swap_names a b)) in Heq.
      rewrite !swap_names_involutive in Heq. by subst.
    + apply get_Some_elem. eauto.
  - rewrite get_foldl_set_miss; [done|].
    intros k2 [v2 Hk2]%elem_of_keys_get Heq.
    apply Hbwd in Hk2 as (j & Hj & ->). rewrite (Hstrip _ _ Hj) in Heq. subst k'.
    rewrite swap_names_involutive in Ek. congruence.
Qed.

Lemma for_each_rename_swap sha1_urandom a b locs w :
  NoDup locs →
  Forall (λ l, ∃ e, heap w !! l = Some e ∧ PyDict.wf (transformations e) ∧
                    placeholders_fresh sha1_urandom a (transformations e) ∧
                    placeholders_fresh sha1_urandom b (transformations e)) locs →
  ∃ w', for_each locs (rename_element sha1_urandom (dict_literal [(a, b); (b, a)])) w
          = (inr (), w') ∧
    warnings w' = warnings w ∧
    (∀ l, l ∉ locs → heap w' !! l = heap w !! l) ∧
    Forall (λ l, ∃ e e', heap w !! l = Some e ∧ heap w' !! l = Some e' ∧
                   ∀ k, PyDict.get k (transformations e') =
                        PyDict.get (swap_names a b k) (transformations e)) locs.
Proof.
  revert w. induction locs as [|l locs IH]; intros w Hnd Hall.
  - exists w. by split_and!.
  - apply NoDup_cons in Hnd as [Hl Hnd].
    apply Forall_cons in Hall as [(e & He & Hwf & Hfa & Hfb) Hall].
    destruct (rename_element_swap sha1_urandom a b l e w He Hwf Hfa Hfb)
      as (w1 & d1 & Hrun & Hheap1 & Hwarn1 & Hd1).
    assert (Hother : ∀ l', l' ≠ l → heap w1 !! l' = heap w !! l').
    { intros l' Hne. rewrite Hheap1. by apply list_lookup_insert_ne. }
    destruct (IH w1 Hnd) as (w' & Hrun' & Hwarn' & Hframe & Hswapped).
    { rewrite Forall_forall in Hall. apply Forall_forall. intros l' Hl'.
      rewrite Hother; [by apply Hall|]. by intros ->. }
    exists w'. cbn [for_each]. rewrite (bind_inr _ _ _ _ _ Hrun).
    split_and!; [done | congruence | |].
    + intros l' [Hne Hnin]%not_elem_of_cons. rewrite Hframe, Hother; done.
    + apply Forall_cons. split.
      * exists e, (mkSpatialElement (payload e) d1). split_and!; [done | | done].
        rewrite Hframe by done. rewrite Hheap1. apply list_lookup_insert_eq.
        by eapply lookup_lt_Some.
      * rewrite Forall_forall in Hswapped. apply Forall_forall. intros l' Hl'.
        rewrite <- Hother; [by apply Hswapped|]. by intros ->.
Qed.

Lemma check_rename_dict_swap old_names a b :
  a ∈ old_names → b ∈ old_names →
  check_rename_dict old_names
    (filter (λ n, n ∉ PyDict.keys (dict_literal [(a, b); (b, a)])) old_names)
    (dict_literal [(a, b); (b, a)]) = inr ().
Proof.
  intros Ha Hb. rewrite dict_literal_swap. case_decide as Hab; simpl.
  - rewrite bool_decide_eq_false_2 by (intros ?; done).
    rewrite bool_decide_eq_false_2; [done|].
    rewrite list_elem_of_filter. intros [Hn _]. apply Hn. left.
  - rewrite bool_decide_eq_false_2 by (intros ?; done).
    rewrite bool_decide_eq_false_2.
    2:{ rewrite list_elem_of_filter. intros [Hn _]. apply Hn. right. left. }
    rewrite bool_decide_eq_false_2 by (intros ?; done).
    rewrite bool_decide_eq_false_2; [done|].
    rewrite elem_of_app, list_elem_of_filter, list_elem_of_singleton.
    intros [[Hn _]|?]; [|done]. apply Hn. left.
Qed.

(** C4: a rename whose source is not live, or whose target is a live name
    that is not renamed in the same call, raises [ValueError] and leaves the
    world (hence every mapping) as it was. *)
Theorem rename_coordinate_systems_invalid sha1_urandom self rename_dict w :
  objects_exist self w →
  Exists (λ on, ¬ live self w on.1) rename_dict ∨
  Exists (λ on, live self w on.2 ∧ on.2 ∉ PyDict.keys rename_dict) rename_dict →
  ∃ msg, rename_coordinate_systems sha1_urandom self rename_dict w
         = (inl (ValueError msg), w).
Proof.
  intros Hok Hbad. unfold rename_coordinate_systems.
  destruct (coordinate_systems_spec self w Hok) as (cs & Hcs & Hlive).
  rewrite (bind_inr _ _ _ _ _ Hcs).
  destruct (check_rename_dict_raises cs
              (filter (λ n, n ∉ PyDict.keys rename_dict) cs) rename_dict) as [e He].
  { destruct Hbad as [Hbad|Hbad]; (eapply Exists_impl; [exact Hbad|]);
      intros [o n]; simpl.
    - rewrite Hlive. by left.
    - intros [Hn Hk]. right. apply list_elem_of_filter. by rewrite Hlive. }
  pose proof (check_rename_dict_ValueError _ _ _ _ He) as HV.
  destruct e; try done. exists msg.
  unfold mbind, ST_bind, lift_result. by rewrite He.
Qed.

(** C1 (amended): when the spatial elements of the container are pairwise
    distinct objects and no placeholder of the run is already a key of an
    element, renaming [{a: b, b: a}] with both names live succeeds and
    exchanges the entries of [a] and [b] in every element, every other entry
    being kept. *)
Theorem rename_coordinate_systems_swap sha1_urandom self a b w :
  objects_exist self w →
  mappings_wf self w →
  NoDup (_gen_spatial_element_values self) →
  placeholders_fresh_in sha1_urandom self w a →
  placeholders_fresh_in sha1_urandom self w b →
  live self w a → live self w b →
  ∃ w', rename_coordinate_systems sha1_urandom self (dict_literal [(a, b); (b, a)]) w
        = (inr (), w') ∧
    warnings w' = warnings w ∧
    memberships_swapped self a b w w'.
Proof.
  intros Hok Hwf Hnd Hfa Hfb Ha Hb. unfold rename_coordinate_systems.
  destruct (coordinate_systems_spec self w Hok) as (cs & Hcs & Hlive).
  rewrite (bind_inr _ _ _ _ _ Hcs).
  rewrite check_rename_dict_swap by by apply Hlive.
  destruct (for_each_rename_swap sha1_urandom a b _ w Hnd)
    as (w' & Hrun & Hwarn & _ & Hsw).
  { unfold objects_exist, mappings_wf, placeholders_fresh_in in *.
    rewrite Forall_forall in *. intros l Hl.
    destruct (Hok l Hl) as [e He]. exists e. split_and!; eauto. }
  exists w'. unfold mbind, ST_bind, lift_result. by rewrite Hrun.
Qed.

(** ** Renaming: instances *)

Ltac by_computation := apply (bool_decide_unpack _); vm_compute; exact I.

Lemma rename_coordinate_systems_invalid_witness :
  objects_exist Samples.sdata Samples.world ∧
  (Exists (λ on, ¬ live Samples.sdata Samples.world on.1) [("A", "B")] ∨
   Exists (λ on, live Samples.sdata Samples.world on.2 ∧ on.2 ∉ PyDict.keys [("A", "B")])
          [("A", "B")]) ∧
  ∃ msg, rename_coordinate_systems (λ _, 1%N) Samples.sdata [("A", "B")] Samples.world
         = (inl (ValueError msg), Samples.world).
Proof.
  assert (Hok : objects_exist Samples.sdata Samples.world).
  { repeat constructor; eexists; reflexivity. }
  assert (Hbad : Exists (λ on, live Samples.sdata Samples.world on.2 ∧
                               on.2 ∉ PyDict.keys [("A", "B")]) [("A", "B")]).
  { apply Exists_cons_hd. split; [|by_computation].
    apply Exists_cons_hd. eexists. split; [reflexivity | by_computation]. }
  split_and!; [exact Hok | right; exact Hbad |].
  apply (rename_coordinate_systems_invalid (λ _, 1%N) Samples.sdata [("A", "B")]
           Samples.world Hok (or_intror Hbad)).
Defined.

Lemma rename_coordinate_systems_swap_witness :
  objects_exist Samples.sdata Samples.world ∧
  mappings_wf Samples.sdata Samples.world ∧
  NoDup (_gen_spatial_element_values Samples.sdata) ∧
  placeholders_fresh_in (λ _, 1%N) Samples.sdata Samples.world "A" ∧
  placeholders_fresh_in (λ _, 1%N) Samples.sdata Samples.world "B" ∧
  live Samples.sdata Samples.world "A" ∧
  live Samples.sdata Samples.world "B" ∧
  ∃ w', rename_coordinate_systems (λ _, 1%N) Samples.sdata
          (dict_literal [("A", "B"); ("B", "A")]) Samples.world = (inr (), w') ∧
    warnings w' = warnings Samples.world ∧
    memberships_swapped Samples.sdata "A" "B" Samples.world w'.
Proof.
  assert (Hok : objects_exist Samples.sdata Samples.world).
  { repeat constructor; eexists; reflexivity. }
  assert (Hwf : mappings_wf Samples.sdata Samples.world).
  { repeat constructor; intros e [= <-]; by_computation. }
  assert (Hnd : NoDup (_gen_spatial_element_values Samples.sdata)) by by_computation.
  assert (Hfa : placeholders_fresh_in (λ _, 1%N) Samples.sdata Samples.world "A").
  { repeat constructor; intros e [= <-] n; by_computation. }
  assert (Hfb : placeholders_fresh_in (λ _, 1%N) Samples.sdata Samples.world "B").
  { repeat constructor; intros e [= <-] n; by_computation. }
  assert (Ha : live Samples.sdata Samples.world "A").
  { apply Exists_cons_hd. eexists. split; [reflexivity | by_computation]. }
  assert (Hb : live Samples.sdata Samples.world "B").
  { apply Exists_cons_hd. eexists. split; [reflexivity | by_computation]. }
  split_and!; try assumption.
  exact (rename_coordinate_systems_swap (λ _, 1%N) Samples.sdata "A" "B" Samples.world
           Hok Hwf Hnd Hfa Hfb Ha Hb).
Defined.

(** C1 as stated fails in two ways. When one object is registered under two
    names the loop over the element values renames it twice, which undoes
    the swap. When a drawn placeholder equals a key of the element, the
    entry of that key is overwritten. *)
Lemma rename_coordinate_systems_swap_counterexample :
  (objects_exist Samples.sdata_aliased Samples.world ∧
   mappings_wf Samples.sdata_aliased Samples.world ∧
   live Samples.sdata_aliased Samples.world "A" ∧
   live Samples.sdata_aliased Samples.world "B" ∧
   ∃ w', rename_coordinate_systems (λ _, 1%N) Samples.sdata_aliased
           (dict_literal [("A", "B"); ("B", "A")]) Samples.world = (inr (), w') ∧
         ¬ memberships_swapped Samples.sdata_aliased "A" "B" Samples.world w') ∧
  (objects_exist Samples.sdata Samples.world ∧
   mappings_wf Samples.sdata Samples.world ∧
   NoDup (_gen_spatial_element_values Samples.sdata) ∧
   live Samples.sdata Samples.world "A" ∧
   live Samples.sdata Samples.world "B" ∧
   ∃ w', rename_coordinate_systems (λ _, 0%N) Samples.sdata
           (dict_literal [("A", "B"); ("B", "A")]) Samples.world = (inr (), w') ∧
         ¬ memberships_swapped Samples.sdata "A" "B" Samples.world w').
Proof.
  split.
  - split_and!.
    + repeat constructor; eexists; reflexivity.
    + repeat constructor; intros e [= <-]; by_computation.
    + apply Exists_cons_hd. eexists. split; [reflexivity | by_computation].
    + apply Exists_cons_hd. eexists. split; [reflexivity | by_computation].
    + eexists. split; [vm_compute; reflexivity|].
      intros Hsw. apply Forall_cons in Hsw as [(e & e' & [= <-] & [= <-] & Hk) _].
      specialize (Hk "A"). vm_compute in Hk. discriminate.
  - split_and!.
    + repeat constructor; eexists; reflexivity.
    + repeat constructor; intros e [= <-]; by_computation.
    + by_computation.
    + apply Exists_cons_hd. eexists. split; [reflexivity | by_computation].
    + apply Exists_cons_hd. eexists. split; [reflexivity | by_computation].
    + eexists. split; [vm_compute; reflexivity|].
      intros Hsw. apply Forall_cons in Hsw as [(e & e' & [= <-] & [= <-] & Hk) _].
      specialize (Hk "B00000000"). vm_compute in Hk. discriminate.
Qed.

(** ** Annotation targets *)

Lemma contains_false {V} k (d : list (string * V)) :
  PyDict.contains k d = false ↔ k ∉ PyDict.keys d.
Proof. unfold PyDict.contains, PyDict.keys. apply bool_decide_eq_false. Qed.

Lemma contains_true {V} k (d : list (string * V)) :
  PyDict.contains k d = true ↔ k ∈ PyDict.keys d.
Proof. unfold PyDict.contains, PyDict.keys. apply bool_decide_eq_true. Qed.

(** C5: [_set_table_annotation_target] raises [ValueError], leaving the
    table as it was, exactly when the region_key or the instance_key column
    is missing from [table.obs] or the region_key column holds a value
    outside the declared regions; otherwise it returns, the table carries
    the triple region, region_key, instance_key, and
    [get_annotated_regions] gives back the declared regions. *)
Theorem set_table_annotation_target_spec table region region_key instance_key :
  match _set_table_annotation_target region region_key instance_key table with
  | (inl e, table') =>
      is_ValueError e = true ∧ table' = table ∧
      annotation_target_refused table region region_key instance_key
  | (inr _, table') =>
      ¬ annotation_target_refused table region region_key instance_key ∧
      table' = mkAnnData (obs table) (X table)
                 (Some (mkAttrs (Some region) (Some region_key) (Some instance_key))) ∧
      get_annotated_regions table' = inr region
  end.
Proof.
  unfold _set_table_annotation_target, annotation_target_refused.
  destruct (PyDict.contains region_key (obs table)) eqn:Hrk; simpl.
  2:{ apply contains_false in Hrk. auto. }
  destruct (PyDict.contains instance_key (obs table)) eqn:Hik; simpl.
  2:{ apply contains_false in Hik. auto. }
  apply contains_true in Hrk, Hik.
  destruct (PyDict.get region_key (obs table)) as [column|] eqn:Hcol.
  2:{ apply get_None in Hcol. done. }
  case_bool_decide as Hall.
  - split_and!; [|done..]. intros [?|[?|(col & c & Hc & Hin & Hnot)]]; [done..|].
    injection Hc as <-.
    rewrite Forall_forall in Hall. auto.
  - split_and!; [done..|]. right. right.
    apply not_Forall_Exists in Hall; [|apply _].
    apply Exists_exists in Hall as (c & Hin & Hnot). eauto.
Qed.

(** The scenario of the specification: a table whose region column holds
    only ["cells"] accepts the target ["cells"], which is then what
    [get_annotated_regions] returns; the target ["nuclei"] is refused. *)
Example set_annotation_target_cells :
  ∃ table', _set_table_annotation_target (RegionName "cells") "region" "id"
              Samples.cells_table = (inr (), table') ∧
            get_annotated_regions table' = inr (RegionName "cells").
Proof. eexists. split; reflexivity. Qed.

Example set_annotation_target_nuclei :
  ∃ msg, _set_table_annotation_target (RegionName "nuclei") "region" "id"
           Samples.cells_table = (inl (ValueError msg), Samples.cells_table).
Proof. eexists. reflexivity. Qed.

Lemma tag_spatial_names ty d : (tag_spatial ty d).*1.*2 = d.*1.
Proof.
  unfold tag_spatial. induction d as [|[k v] d IH]; [done|].
  cbn. f_equal. exact IH.
Qed.

Lemma tag_spatial_not_tables ty d :
  ty ≠ TABLES →
  filter (λ x : ElementType * string * Element, x.1.1 ≠ TABLES) (tag_spatial ty d)
  = tag_spatial ty d.
Proof.
  intros Hty. unfold tag_spatial. induction d as [|[k v] d IH]; [done|].
  cbn [map]. rewrite filter_cons. cbn [fst]. rewrite decide_True by done.
  f_equal. exact IH.
Qed.

Lemma gen_elements_names self :
  (filter (λ x, x.1.1 ≠ TABLES) (_gen_elements self false)).*1.*2
  = spatial_element_names self ∧
  (_gen_elements self false).*1.*2 = spatial_element_names self.
Proof.
  unfold _gen_elements, spatial_element_names.
  rewrite !filter_app, !tag_spatial_not_tables by done.
  rewrite filter_nil, !fmap_app, !tag_spatial_names, !fmap_nil, app_nil_r. done.
Qed.

Section TableFacts.
Variable TableModel_validate : AnnData → exn + unit.
Variable _validate_set_instance_key : option string → ST AnnData unit.

(** C6: for a table that passes the schema validation and declares a region
    that is not the name of a spatial element of the container,
    [validate_table_in_spatialdata] returns normally; its only effect is
    one [UserWarning]. *)
Theorem validate_table_in_spatialdata_warns self data attrs region w :
  TableModel_validate data = inr () →
  uns_ATTRS_KEY data = Some attrs →
  REGION_KEY attrs = Some region →
  Exists (λ name, name ∉ spatial_element_names self) (region_names region) →
  validate_table_in_spatialdata TableModel_validate self data w =
    (inr (), mkWorld (heap w)
               (warnings w ++ [UserWarning
                  "The table is annotating an/some element(s) not present in the SpatialData object"])
               (draws w)).
Proof.
  intros Hvalid Hattrs Hregion Hmissing. unfold validate_table_in_spatialdata.
  unfold mbind, ST_bind, lift_result. rewrite Hvalid, Hattrs, Hregion.
  rewrite (proj1 (gen_elements_names self)).
  rewrite bool_decide_eq_false_2; [done|].
  intros Hall. apply Exists_exists in Hmissing as (name & Hin & Hnot).
  rewrite Forall_forall in Hall. auto.
Qed.

(** C10: for a table of the container and a region given as a string that
    is not the name of an image, labels, points or shapes element,
    [set_table_annotates_spatialelement] raises [ValueError] and the
    container, with the table and its annotation metadata, is as before.
    The names of tables play no part in the test. *)
Theorem set_table_annotates_spatialelement_unknown_region
    self table_name table name region_key instance_key :
  PyDict.get table_name (tables self) = Some table →
  name ∉ spatial_element_names self →
  ∃ msg, set_table_annotates_spatialelement _validate_set_instance_key table_name
           (RegionName name) region_key instance_key self
         = (inl (ValueError msg), self).
Proof.
  intros Htable Hname. unfold set_table_annotates_spatialelement.
  rewrite Htable, (proj2 (gen_elements_names self)).
  rewrite bool_decide_eq_true_2 by done. eauto.
Qed.
End TableFacts.

Lemma validate_table_in_spatialdata_warns_witness :
  Samples.accept_all Samples.nuclei_table = inr () ∧
  uns_ATTRS_KEY Samples.nuclei_table
    = Some (mkAttrs (Some (RegionName "nuclei")) (Some "region") (Some "id")) ∧
  REGION_KEY (mkAttrs (Some (RegionName "nuclei")) (Some "region") (Some "id"))
    = Some (RegionName "nuclei") ∧
  Exists (λ name, name ∉ spatial_element_names Samples.sdata_cells)
         (region_names (RegionName "nuclei")) ∧
  validate_table_in_spatialdata Samples.accept_all Samples.sdata_cells Samples.nuclei_table
      Samples.world =
    (inr (), mkWorld (heap Samples.world)
               (warnings Samples.world ++ [UserWarning
                  "The table is annotating an/some element(s) not present in the SpatialData object"])
               (draws Samples.world)).
Proof.
  assert (Hmissing : Exists (λ name, name ∉ spatial_element_names Samples.sdata_cells)
                            (region_names (RegionName "nuclei"))).
  { apply Exists_cons_hd. by_computation. }
  split_and!; [reflexivity | reflexivity | reflexivity | exact Hmissing |].
  exact (validate_table_in_spatialdata_warns Samples.accept_all Samples.sdata_cells
           Samples.nuclei_table _ _ Samples.world eq_refl eq_refl eq_refl Hmissing).
Defined.

(** The region ["table"] is the name of a table of the container, not of a
    spatial element. *)
Lemma set_table_annotates_spatialelement_unknown_region_witness :
  PyDict.get "table" (tables Samples.sdata_cells) = Some Samples.cells_table ∧
  ("table" ∉ spatial_element_names Samples.sdata_cells) ∧
  ∃ msg, set_table_annotates_spatialelement Samples.keep_instance_key "table"
           (RegionName "table") (Some "region") (Some "id") Samples.sdata_cells
         = (inl (ValueError msg), Samples.sdata_cells).
Proof.
  assert (Hname : "table" ∉ spatial_element_names Samples.sdata_cells) by by_computation.
  split_and!; [reflexivity | exact Hname |].
  exact (set_table_annotates_spatialelement_unknown_region Samples.keep_instance_key
           Samples.sdata_cells "table" Samples.cells_table "table"
           (Some "region") (Some "id") eq_refl Hname).
Defined.

(** ** Construction of containers *)

Lemma set_fresh {V} k (v : V) d : k ∉ d.*1 → PyDict.set k v d = d ++ [(k, v)].
Proof.
  induction d as [|[k' v'] d IH]; intros Hk; [done|].
  apply not_elem_of_cons in Hk as [Hne Hk]. simpl in *.
  rewrite decide_False by done. by rewrite IH.
Qed.

Lemma set_idemp {V} k (v : V) d : PyDict.set k v (PyDict.set k v d) = PyDict.set k v d.
Proof.
  induction d as [|[k' v'] d IH]; simpl.
  - by rewrite decide_True.
  - case_decide; simpl; [by rewrite decide_True|].
    rewrite decide_False by done. by rewrite IH.
Qed.

Lemma foldl_set_app {V} (d acc : list (string * V)) :
  NoDup (acc.*1 ++ d.*1) →
  foldl (λ acc kv, PyDict.set kv.1 kv.2 acc) acc d = acc ++ d.
Proof.
  revert acc. induction d as [|[k v] d IH]; intros acc Hnd; simpl.
  - by rewrite app_nil_r.
  - assert (Hk : k ∉ acc.*1).
    { apply NoDup_app in Hnd as (_ & Hdisj & _). intros Hin.
      apply (Hdisj k Hin). left. }
    rewrite set_fresh by done. rewrite IH.
    + by rewrite <- app_assoc.
    + rewrite fmap_app. simpl. by rewrite <- app_assoc.
Qed.

Lemma dict_literal_wf {V} (d : list (string * V)) : PyDict.wf d → dict_literal d = d.
Proof. intros Hwf. unfold dict_literal. by rewrite foldl_set_app. Qed.

Section ContainerFacts.
Variable TableModel_validate : AnnData → exn + unit.
Variable transform_payload : BaseTransformation → list Z → list Z.

Lemma validate_table_in_spatialdata_accepted self data w :
  table_accepted TableModel_validate data →
  ∃ w', validate_table_in_spatialdata TableModel_validate self data w = (inr (), w') ∧
        heap w' = heap w ∧ draws w' = draws w.
Proof.
  intros [Hvalid Hregion]. unfold validate_table_in_spatialdata.
  unfold mbind, ST_bind, lift_result. rewrite Hvalid.
  destruct (uns_ATTRS_KEY data) as [attrs|]; [|by eexists].
  destruct (Hregion attrs eq_refl) as [region ->].
  case_bool_decide; by eexists.
Qed.

Lemma init_tables_accepted self items w :
  NoDup ((tables self).*1 ++ items.*1) →
  Forall (λ kv, table_accepted TableModel_validate kv.2) items →
  ∃ w', init_tables TableModel_validate self items w =
          (inr (mkSpatialData (_path self) (images self) (labels self) (points self)
                  (shapes self) (tables self ++ items)), w') ∧
        heap w' = heap w ∧ draws w' = draws w.
Proof.
  revert self w. induction items as [|[k v] items IH]; intros self w Hnd Hacc.
  - exists w. rewrite app_nil_r. by destruct self.
  - apply Forall_cons in Hacc as [Hv Hacc]. simpl in Hv.
    destruct (validate_table_in_spatialdata_accepted self v w Hv) as (w1 & Hrun & Hh & Hd).
    cbn [init_tables]. rewrite (bind_inr _ _ _ _ _ Hrun).
    assert (Hk : k ∉ (tables self).*1).
    { apply NoDup_app in Hnd as (_ & Hdisj & _). intros Hin.
      apply (Hdisj k Hin). left. }
    rewrite set_fresh by done.
    edestruct (IH (mkSpatialData (_path self) (images self) (labels self) (points self)
                     (shapes self) (tables self ++ [(k, v)])) w1) as (w' & Hrun' & Hh' & Hd').
    { cbn [tables]. rewrite fmap_app. simpl. by rewrite <- app_assoc. }
    { done. }
    exists w'. rewrite Hrun'. cbn [_path images labels points shapes tables].
    rewrite <- app_assoc. split_and!; [done | congruence | congruence].
Qed.

Lemma init_accepted images labels points shapes tables w :
  NoDup (images.*1 ++ labels.*1 ++ points.*1 ++ shapes.*1) →
  PyDict.wf tables →
  Forall (λ kv, table_accepted TableModel_validate kv.2) tables →
  ∃ w', __init__ TableModel_validate images labels points shapes tables w =
          (inr (mkSpatialData None images labels points shapes tables), w') ∧
        heap w' = heap w ∧ draws w' = draws w.
Proof.
  intros Hnd Hwf Hacc. unfold __init__, _validate_unique_element_names, PyDict.keys.
  rewrite bool_decide_eq_true_2 by done.
  unfold mbind at 1, ST_bind at 1, lift_result.
  pose proof Hnd as Hnd'.
  apply NoDup_app in Hnd' as (Hi & _ & Hnd').
  apply NoDup_app in Hnd' as (Hl & _ & Hnd').
  apply NoDup_app in Hnd' as (Hp & _ & Hs).
  rewrite !dict_literal_wf by done.
  edestruct (init_tables_accepted (mkSpatialData None images labels points shapes []) tables w)
    as (w' & Hrun & Hh & Hd); [done | done |].
  exists w'. by rewrite Hrun.
Qed.
End ContainerFacts.
(** ** Filtering by coordinate system *)

Lemma foldl_keep_if_in ty n l T css els paths els' paths' :
  foldl (keep_if_in ty n l T) (els, paths) css = (els', paths') →
  (∀ ty', els' ty' =
     if decide (Exists (λ cs, cs ∈ PyDict.keys T) css ∧ ty' = ty)
     then PyDict.set n l (els ty') else els ty') ∧
  (∀ x, x ∈ paths' ↔ x ∈ paths ∨ (Exists (λ cs, cs ∈ PyDict.keys T) css ∧ x = n)).
Proof.
  revert els paths. induction css as [|cs css IH]; intros els paths Hrun; simpl in Hrun.
  - injection Hrun as <- <-. split.
    + intros ty'. rewrite decide_False; [done|]. intros [H%Exists_nil _]. done.
    + intros x. rewrite Exists_nil. naive_solver.
  - unfold keep_if_in at 2 in Hrun. cbn [fst snd] in Hrun.
    destruct (PyDict.contains cs T) eqn:Hcs.
    + apply contains_true in Hcs. apply IH in Hrun as [Hels Hpaths]. split.
      * intros ty'. rewrite Hels. unfold add_element.
        destruct (decide (ty' = ty)) as [->|Hne].
        -- rewrite fn_lookup_insert.
           rewrite (decide_True (P := Exists _ (cs :: css) ∧ ty = ty))
             by (split; [by apply Exists_cons_hd | done]).
           case_decide; [apply set_idemp | done].
        -- rewrite fn_lookup_insert_ne by done.
           rewrite !decide_False; [done | naive_solver | naive_solver].
      * intros x. rewrite Hpaths, elem_of_app, list_elem_of_singleton, Exists_cons.
        naive_solver.
    + apply contains_false in Hcs. apply IH in Hrun as [Hels Hpaths]. split.
      * intros ty'. rewrite Hels. apply decide_ext. rewrite Exists_cons. naive_solver.
      * intros x. rewrite Hpaths, Exists_cons. naive_solver.
Qed.

Lemma has_transformation_to_Some w css l e :
  heap w !! l = Some e →
  has_transformation_to w css l = true ↔
  Exists (λ cs, cs ∈ PyDict.keys (transformations e)) css.
Proof.
  intros He. unfold has_transformation_to. rewrite He. apply bool_decide_eq_true.
Qed.

Lemma filter_elements_tag css ty d rest els paths w :
  ty ≠ TABLES →
  Forall (λ kv, is_Some (heap w !! kv.2)) d →
  NoDup ((els ty).*1 ++ d.*1) →
  ∃ els' paths',
    filter_elements css (tag_spatial ty d ++ rest) (els, paths) w
      = filter_elements css rest (els', paths') w ∧
    els' ty = els ty ++ kept_elements w css d ∧
    (∀ ty', ty' ≠ ty → els' ty' = els ty') ∧
    (∀ x, x ∈ paths' ↔ x ∈ paths ∨ x ∈ (kept_elements w css d).*1).
Proof.
  intros Hty. revert els paths. induction d as [|[k l] d IH]; intros els paths Hok Hnd.
  - exists els, paths. unfold kept_elements. rewrite filter_nil, app_nil_r.
    split_and!; [done..|]. intros x. rewrite fmap_nil, elem_of_nil. naive_solver.
  - apply Forall_cons in Hok as [[e He] Hok]. simpl in He.
    cbn [tag_spatial map app filter_elements fst snd].
    rewrite bool_decide_eq_true_2 by done.
    rewrite (bind_inr _ _ _ _ _ (get_transformation_all_Some _ _ _ He)).
    destruct (foldl (keep_if_in ty k l (transformations e)) (els, paths) css)
      as [els1 paths1] eqn:Hfold.
    apply foldl_keep_if_in in Hfold as [Hels1 Hpaths1].
    assert (Hk : k ∉ (els ty).*1).
    { apply NoDup_app in Hnd as (_ & Hdisj & _). intros Hin.
      apply (Hdisj k Hin). left. }
    assert (Hnd' : NoDup ((els ty).*1 ++ d.*1)).
    { eapply sublist_NoDup; [exact Hnd|]. apply sublist_app; [done|].
      simpl. by apply sublist_cons. }
    unfold kept_elements. rewrite filter_cons. cbn [snd].
    fold (kept_elements w css d).
    destruct (decide (has_transformation_to w css l = true)) as [Hany|Hany].
    + pose proof Hany as Hany'. rewrite (has_transformation_to_Some _ _ _ _ He) in Hany'.
      destruct (IH els1 paths1 Hok) as (els' & paths' & Hrun & Hty' & Hother & Hpaths').
      { rewrite Hels1, decide_True by done. rewrite set_fresh by done.
        rewrite fmap_app. simpl. rewrite <- app_assoc. exact Hnd. }
      exists els', paths'. split_and!.
      * exact Hrun.
      * rewrite Hty', Hels1, decide_True by done. rewrite set_fresh by done.
        by rewrite <- app_assoc.
      * intros ty' Hne. rewrite Hother, Hels1 by done.
        rewrite decide_False; [done | naive_solver].
      * intros x. rewrite Hpaths', Hpaths1. simpl. rewrite elem_of_cons. naive_solver.
    + assert (Hany' : ¬ Exists (λ cs, cs ∈ PyDict.keys (transformations e)) css).
      { by rewrite <- (has_transformation_to_Some _ _ _ _ He). }
      destruct (IH els1 paths1 Hok) as (els' & paths' & Hrun & Hty' & Hother & Hpaths').
      { rewrite Hels1, decide_False by naive_solver. exact Hnd'. }
      exists els', paths'. split_and!.
      * exact Hrun.
      * rewrite Hty', Hels1, decide_False by naive_solver. done.
      * intros ty' Hne. rewrite Hother, Hels1 by done.
        rewrite decide_False; [done | naive_solver].
      * intros x. rewrite Hpaths', Hpaths1. naive_solver.
Qed.

Lemma filter_table_ext table names1 names2 :
  (∀ x, x ∈ names1 ↔ x ∈ names2) →
  _filter_table_by_coordinate_system table names1
  = _filter_table_by_coordinate_system table names2.
Proof.
  intros Hext. unfold _filter_table_by_coordinate_system.
  assert (Hmask : row_mask table names1 = row_mask table names2).
  { unfold row_mask. destruct (region_column table) as [column|]; [|done].
    apply list_fmap_ext. intros i c _. apply bool_decide_ext.
    rewrite !list_elem_of_fmap. naive_solver. }
  by rewrite Hmask.
Qed.

Lemma foldl_set_fmap {V W} (f : V → W) (d : list (string * V)) :
  PyDict.wf d →
  foldl (λ acc kv, PyDict.set kv.1 (f kv.2) acc) [] d = (λ kv, (kv.1, f kv.2)) <$> d.
Proof.
  intros Hwf.
  transitivity (foldl (λ acc kv, PyDict.set kv.1 kv.2 acc) []
                      ((λ kv, (kv.1, f kv.2)) <$> d)).
  { by rewrite foldl_fmap. }
  apply foldl_set_app. simpl. rewrite <- list_fmap_compose.
  rewrite (list_fmap_ext _ fst d); done.
Qed.

Lemma kept_elements_sublist w css d : (kept_elements w css d).*1 `sublist_of` d.*1.
Proof. unfold kept_elements. apply fmap_sublist, sublist_filter. Qed.

Lemma kept_names_NoDup self w css :
  NoDup (spatial_element_names self) → NoDup (kept_names self w css).
Proof.
  intros Hnd. eapply sublist_NoDup; [exact Hnd|].
  unfold kept_names, spatial_element_names.
  repeat apply sublist_app; apply kept_elements_sublist.
Qed.
(** Selecting by the mask of a column is the restriction of the rows. *)
Lemma select_rows_region_in {A} (column : list Cell) element_names (rows : list A) :
  select_rows ((λ c, bool_decide (c ∈ CStr <$> element_names)) <$> column) rows
  = rows_whose_region_in column element_names rows.
Proof.
  unfold rows_whose_region_in. revert rows.
  induction column as [|c column IH]; intros [|r rows]; try done.
  - cbn. by destruct (bool_decide _).
  - cbn [fmap list_fmap select_rows zip zip_with]. rewrite filter_cons. cbn [fst].
    case_bool_decide; [rewrite decide_True by done | rewrite decide_False by done];
      by rewrite IH.
Qed.

Lemma filter_table_rows table element_names :
  uns_ATTRS_KEY (_filter_table_by_coordinate_system table element_names)
    = uns_ATTRS_KEY table ∧
  match region_column table with
  | Some column =>
      X (_filter_table_by_coordinate_system table element_names)
        = rows_whose_region_in column element_names (X table) ∧
      obs (_filter_table_by_coordinate_system table element_names)
        = (λ c, (c.1, rows_whose_region_in column element_names c.2)) <$> obs table
  | None =>
      X (_filter_table_by_coordinate_system table element_names) = [] ∧
      obs (_filter_table_by_coordinate_system table element_names)
        = (λ c, (c.1, [])) <$> obs table
  end.
Proof.
  unfold _filter_table_by_coordinate_system, row_mask. cbn [uns_ATTRS_KEY X obs].
  split; [done|]. destruct (region_column table) as [column|].
  - rewrite select_rows_region_in. split; [done|].
    apply list_fmap_ext. intros i [k rows] _. cbn. by rewrite select_rows_region_in.
  - split; [done|]. done.
Qed.

Section FilterFacts.
Variable TableModel_validate : AnnData → exn + unit.

Lemma filter_elements_run self css w :
  objects_exist self w →
  NoDup (spatial_element_names self) →
  ∃ els paths,
    filter_elements css (_gen_elements self false) (no_elements, []) w
      = (inr (els, paths), w) ∧
    els IMAGES = kept_elements w css (images self) ∧
    els LABELS = kept_elements w css (labels self) ∧
    els POINTS = kept_elements w css (points self) ∧
    els SHAPES = kept_elements w css (shapes self) ∧
    (∀ x, x ∈ paths ↔ x ∈ kept_names self w css).
Proof.
  intros Hok Hnd. unfold objects_exist, _gen_spatial_element_values in Hok.
  rewrite !Forall_app, !Forall_fmap in Hok. destruct Hok as (Hi & Hl & Hp & Hs).
  unfold spatial_element_names in Hnd.
  pose proof Hnd as Hnd'.
  apply NoDup_app in Hnd' as (Hni & _ & Hnd').
  apply NoDup_app in Hnd' as (Hnl & _ & Hnd').
  apply NoDup_app in Hnd' as (Hnp & _ & Hns).
  unfold _gen_elements.
  destruct (filter_elements_tag css IMAGES (images self)
              (tag_spatial LABELS (labels self) ++ tag_spatial POINTS (points self) ++
               tag_spatial SHAPES (shapes self) ++ []) no_elements [] w)
    as (els1 & paths1 & -> & Hi1 & Ho1 & Hp1); [done | exact Hi | exact Hni |].
  destruct (filter_elements_tag css LABELS (labels self)
              (tag_spatial POINTS (points self) ++ tag_spatial SHAPES (shapes self) ++ [])
              els1 paths1 w)
    as (els2 & paths2 & -> & Hl2 & Ho2 & Hp2);
    [done | exact Hl | by rewrite Ho1 |].
  destruct (filter_elements_tag css POINTS (points self)
              (tag_spatial SHAPES (shapes self) ++ []) els2 paths2 w)
    as (els3 & paths3 & -> & Hp3 & Ho3 & Hpp3);
    [done | exact Hp | by rewrite Ho2, Ho1 |].
  destruct (filter_elements_tag css SHAPES (shapes self) [] els3 paths3 w)
    as (els4 & paths4 & -> & Hs4 & Ho4 & Hp4);
    [done | exact Hs | by rewrite Ho3, Ho2, Ho1 |].
  exists els4, paths4. split; [done|].
  split_and!.
  - by rewrite Ho4, Ho3, Ho2, Hi1.
  - by rewrite Ho4, Ho3, Hl2, Ho1.
  - by rewrite Ho4, Hp3, Ho2, Ho1.
  - by rewrite Hs4, Ho3, Ho2, Ho1.
  - intros x. rewrite Hp4, Hpp3, Hp2, Hp1. unfold kept_names.
    rewrite !elem_of_app, elem_of_nil. naive_solver.
Qed.

Lemma filtered_tables_wf self w css filter_tables :
  PyDict.wf (tables self) → PyDict.wf (filtered_tables self w css filter_tables).
Proof.
  unfold filtered_tables, PyDict.wf. destruct filter_tables; [|done].
  intros Hwf. rewrite <- list_fmap_compose.
  rewrite (list_fmap_ext _ fst (tables self)); done.
Qed.

Lemma filter_by_coordinate_system_run self coordinate_system filter_tables w :
  objects_exist self w →
  names_unique self →
  Forall (λ kv, table_accepted TableModel_validate kv.2)
         (filtered_tables self w (as_list coordinate_system) filter_tables) →
  ∃ w', filter_by_coordinate_system TableModel_validate self coordinate_system
          filter_tables w
        = (inr (filtered_container self w (as_list coordinate_system) filter_tables), w') ∧
        heap w' = heap w ∧ draws w' = draws w.
Proof.
  intros Hok [Hnd Hwf] Hacc. unfold filter_by_coordinate_system.
  destruct (filter_elements_run self (as_list coordinate_system) w Hok Hnd)
    as (els & paths & Hrun & Hi & Hl & Hp & Hs & Hpaths).
  rewrite (bind_inr _ _ _ _ _ Hrun). rewrite Hi, Hl, Hp, Hs.
  assert (Htables :
    (if filter_tables
     then foldl (λ tables kv,
                   PyDict.set kv.1 (_filter_table_by_coordinate_system kv.2 paths) tables)
                [] (tables self)
     else tables self)
    = filtered_tables self w (as_list coordinate_system) filter_tables).
  { unfold filtered_tables. destruct filter_tables; [|done].
    rewrite (foldl_set_fmap (λ t, _filter_table_by_coordinate_system t paths)) by done.
    apply list_fmap_ext. intros i [k t] _. simpl. f_equal.
    by apply filter_table_ext. }
  rewrite Htables.
  apply init_accepted; [| by apply filtered_tables_wf | done].
  by apply (kept_names_NoDup self w).
Qed.

(** C2: [filter_by_coordinate_system] returns the container that keeps a
    spatial element if and only if its mapping has one of the requested
    systems as a key; with [filter_tables] every table is replaced by its
    restriction to the names of the kept elements, without it the tables
    are the ones of the original; the objects of the heap are untouched.
    The restriction is spelled out: the new table has the name and the
    annotation metadata of the old one, and its rows of [X] and of every
    column of [obs] are the rows of the old table whose value in the
    region_key column is the name of a kept element, in their order; a
    table without such a column is left without rows. *)
Theorem filter_by_coordinate_system_spec self coordinate_system filter_tables w :
  objects_exist self w →
  names_unique self →
  Forall (λ kv, table_accepted TableModel_validate kv.2)
         (filtered_tables self w (as_list coordinate_system) filter_tables) →
  ∃ sdata w',
    filter_by_coordinate_system TableModel_validate self coordinate_system
      filter_tables w = (inr sdata, w') ∧
    heap w' = heap w ∧
    sdata = filtered_container self w (as_list coordinate_system) filter_tables ∧
    (∀ element_type name l,
       (name, l) ∈ spatial_collection element_type sdata ↔
       (name, l) ∈ spatial_collection element_type self ∧
       ∃ e, heap w !! l = Some e ∧
            Exists (λ cs, cs ∈ PyDict.keys (transformations e))
                   (as_list coordinate_system)) ∧
    tables sdata =
      (if filter_tables then
         (λ kv, (kv.1, _filter_table_by_coordinate_system kv.2
                         (spatial_element_names sdata))) <$> tables self
       else tables self) ∧
    (filter_tables = true →
     Forall2 (λ kv kv',
                kv'.1 = kv.1 ∧
                uns_ATTRS_KEY kv'.2 = uns_ATTRS_KEY kv.2 ∧
                match region_column kv.2 with
                | Some column =>
                    X kv'.2 = rows_whose_region_in column
                                (spatial_element_names sdata) (X kv.2) ∧
                    obs kv'.2 = (λ c, (c.1, rows_whose_region_in column
                                              (spatial_element_names sdata) c.2))
                                  <$> obs kv.2
                | None =>
                    X kv'.2 = [] ∧ obs kv'.2 = (λ c, (c.1, [])) <$> obs kv.2
                end)
             (tables self) (tables sdata)).
Proof.
  intros Hok Huniq Hacc.
  destruct (filter_by_coordinate_system_run self coordinate_system filter_tables w
              Hok Huniq Hacc) as (w' & Hrun & Hheap & _).
  eexists _, w'.
  split_and!; [exact Hrun | exact Hheap | reflexivity | | reflexivity |].
  2:{ intros ->. cbn [tables filtered_container filtered_tables].
      apply Forall2_fmap_r, Forall_Forall2_diag, Forall_forall. intros [k table] _.
      cbn [fst snd]. split; [done|]. apply filter_table_rows. }
  assert (Hkept : ∀ d name l,
    Forall (λ l, is_Some (heap w !! l)) d.*2 →
    (name, l) ∈ kept_elements w (as_list coordinate_system) d ↔
    (name, l) ∈ d ∧
    ∃ e, heap w !! l = Some e ∧
         Exists (λ cs, cs ∈ PyDict.keys (transformations e)) (as_list coordinate_system)).
  { intros d name l Hd. unfold kept_elements. rewrite list_elem_of_filter. simpl.
    split.
    - intros [Hhas Hin]. split; [done|].
      rewrite Forall_forall in Hd. destruct (Hd l) as [e He].
      { apply list_elem_of_fmap. by exists (name, l). }
      exists e. split; [done|]. by apply (has_transformation_to_Some w _ l e He).
    - intros [Hin (e & He & Hex)]. split; [|done].
      by apply (has_transformation_to_Some w _ l e He). }
  unfold objects_exist, _gen_spatial_element_values in Hok.
  rewrite !Forall_app in Hok. destruct Hok as (Hi & Hl & Hp & Hs).
  intros [] name l; cbn [spatial_collection filtered_container images labels points shapes];
    try by apply Hkept.
  rewrite elem_of_nil. naive_solver.
Qed.
End FilterFacts.

(** ** Transforming to a coordinate system *)

Section TransformFacts.
Variable TableModel_validate : AnnData → exn + unit.
Variable transform_payload : BaseTransformation → list Z → list Z.

Lemma get_transformation_between_run l cs e t w :
  heap w !! l = Some e →
  PyDict.get cs (transformations e) = Some t →
  get_transformation_between_coordinate_systems l cs w = (inr t, w).
Proof.
  intros He Ht. unfold get_transformation_between_coordinate_systems.
  rewrite (bind_inr _ _ _ _ _ (get_transformation_all_Some _ _ _ He)).
  by rewrite Ht.
Qed.

Lemma set_transformation_run l cs t e w :
  heap w !! l = Some e →
  set_transformation l t cs w =
    (inr (), mkWorld (<[l := mkSpatialElement (payload e)
                              (PyDict.set cs t (transformations e))]> (heap w))
                     (warnings w) (draws w)).
Proof.
  intros He. unfold set_transformation.
  rewrite (bind_inr _ _ _ _ _ (get_transformation_all_Some _ _ _ He)).
  by apply set_transformation_all_Some.
Qed.

Lemma lookup_last_object (h : list SpatialElement) x :
  (h ++ [x]) !! length h = Some x.
Proof. rewrite lookup_app_r by lia. by rewrite Nat.sub_diag. Qed.

Lemma insert_last_object (h : list SpatialElement) x y :
  <[length h := y]> (h ++ [x]) = h ++ [y].
Proof. rewrite insert_app_r_alt by lia. by rewrite Nat.sub_diag. Qed.

Lemma transform_element_to_coordinate_system_run l cs e t w :
  heap w !! l = Some e →
  PyDict.get cs (transformations e) = Some t →
  transform_element_to_coordinate_system transform_payload l cs w =
    (inr (length (heap w)),
     mkWorld (heap w ++ [mkSpatialElement (transform_payload t (payload e))
                           [(cs, Identity)]])
             (warnings w) (draws w)).
Proof.
  intros He Ht. unfold transform_element_to_coordinate_system.
  rewrite (bind_inr _ _ _ _ _ (get_transformation_between_run l cs e t w He Ht)).
  erewrite bind_inr; [|unfold transform; rewrite He; reflexivity].
  unfold remove_transformation_all.
  erewrite bind_inr;
    [|apply set_transformation_all_Some; cbn [heap]; apply lookup_last_object].
  cbn [heap warnings draws payload]. rewrite insert_last_object.
  erewrite bind_inr;
    [|apply set_transformation_run; cbn [heap]; apply lookup_last_object].
  cbn [heap warnings draws payload transformations]. by rewrite insert_last_object.
Qed.

Lemma elem_of_values_set {V} k (v x : V) d :
  x ∈ (PyDict.set k v d).*2 → x = v ∨ x ∈ d.*2.
Proof.
  induction d as [|[k' v'] d IH]; simpl.
  - rewrite list_elem_of_singleton. auto.
  - case_decide; simpl; rewrite !elem_of_cons; naive_solver.
Qed.

Lemma transform_elements_tag cs n0 ty d rest els w :
  ty ≠ TABLES →
  Forall (λ kv, ∃ e, heap w !! kv.2 = Some e ∧
                     is_Some (PyDict.get cs (transformations e))) d →
  NoDup ((els ty).*1 ++ d.*1) →
  transformed_so_far cs n0 els w →
  ∃ els' w',
    transform_elements transform_payload cs (tag_spatial ty d ++ rest) els w
      = transform_elements transform_payload cs rest els' w' ∧
    (els' ty).*1 = (els ty).*1 ++ d.*1 ∧
    (∀ ty', ty' ≠ ty → els' ty' = els ty') ∧
    heap_extends w w' ∧ warnings w' = warnings w ∧ draws w' = draws w ∧
    transformed_so_far cs n0 els' w'.
Proof.
  intros Hty. revert els w. induction d as [|[k l] d IH]; intros els w Hsrc Hnd Hinv.
  - exists els, w. split_and!; try done; [by rewrite app_nil_r|].
    exists []. by rewrite app_nil_r.
  - apply Forall_cons in Hsrc as [(e & He & [t Ht]) Hsrc]. simpl in He.
    cbn [tag_spatial map app transform_elements].
    rewrite bool_decide_eq_true_2 by done.
    rewrite (bind_inr _ _ _ _ _
               (transform_element_to_coordinate_system_run l cs e t w He Ht)).
    set (new := mkSpatialElement (transform_payload t (payload e)) [(cs, Identity)]).
    assert (∃ w1, w1 = mkWorld (heap w ++ [new]) (warnings w) (draws w)
                  ∧ heap w1 = heap w ++ [new] ∧ warnings w1 = warnings w
                  ∧ draws w1 = draws w) as (w1 & <- & Hh1 & Hw1 & Hd1) by eauto.
    destruct Hinv as (Hn0 & Hids & Hvals).
    assert (Hk : k ∉ (els ty).*1).
    { apply NoDup_app in Hnd as (_ & Hdisj & _). intros Hin.
      apply (Hdisj k Hin). left. }
    assert (Hlen : length (heap w1) = S (length (heap w))).
    { rewrite Hh1, length_app. simpl. lia. }
    assert (Hinv1 : transformed_so_far cs n0
                      (add_element ty k (length (heap w)) els) w1).
    { split_and!.
      - lia.
      - intros l' Hl'. rewrite Hlen in Hl'. unfold only_identity. rewrite Hh1.
        destruct (decide (l' = length (heap w))) as [->|Hne].
        + exists new. split; [apply lookup_last_object | done].
        + destruct (Hids l') as (e' & He' & Hd'); [lia|].
          exists e'. split; [|done]. by apply lookup_app_l_Some.
      - intros ty'. rewrite Hlen. unfold add_element.
        destruct (decide (ty' = ty)) as [->|Hne].
        + rewrite fn_lookup_insert. apply Forall_forall. intros l' Hl'.
          apply elem_of_values_set in Hl' as [->|Hl']; [lia|].
          specialize (Hvals ty). rewrite Forall_forall in Hvals.
          specialize (Hvals l' Hl'). lia.
        + rewrite fn_lookup_insert_ne by done. specialize (Hvals ty').
          eapply Forall_impl; [exact Hvals|]. intros l' Hl'. simpl in *. lia. }
    destruct (IH (add_element ty k (length (heap w)) els) w1)
      as (els' & w' & Hrun & Hnames & Hother & [news Hext] & Hwarn & Hdraws & Hinv').
    { rewrite Forall_forall in Hsrc. apply Forall_forall. intros kv Hkv.
      destruct (Hsrc kv Hkv) as (e' & He' & Hget). exists e'. split; [|done].
      rewrite Hh1. by apply lookup_app_l_Some. }
    { unfold add_element. rewrite fn_lookup_insert, set_fresh by done.
      rewrite fmap_app. simpl. by rewrite <- app_assoc. }
    { exact Hinv1. }
    exists els', w'. split_and!; try done.
    + rewrite Hnames. unfold add_element. rewrite fn_lookup_insert, set_fresh by done.
      rewrite fmap_app. simpl. by rewrite <- app_assoc.
    + intros ty' Hne. rewrite Hother by done. unfold add_element.
      by rewrite fn_lookup_insert_ne.
    + exists ([new] ++ news). rewrite Hext, Hh1. by rewrite <- app_assoc.
    + congruence.
    + congruence.
Qed.
Lemma kept_elements_sources w w1 cs d :
  heap w1 = heap w →
  Forall (λ kv, ∃ e, heap w1 !! kv.2 = Some e ∧
                     is_Some (PyDict.get cs (transformations e)))
         (kept_elements w [cs] d).
Proof.
  intros Hheap. apply Forall_forall. intros [k l] Hin.
  apply list_elem_of_filter in Hin as [Hhas _]. simpl in *.
  unfold has_transformation_to in Hhas.
  destruct (heap w !! l) as [e|] eqn:He; [|done].
  apply bool_decide_eq_true in Hhas.
  apply Exists_cons in Hhas as [Hcs|Hnil]; [|by apply Exists_nil in Hnil].
  exists e. split; [congruence|]. by apply elem_of_keys_get.
Qed.

Lemma sources_extend w w' cs (d : list (string * loc)) :
  heap_extends w w' →
  Forall (λ kv, ∃ e, heap w !! kv.2 = Some e ∧
                     is_Some (PyDict.get cs (transformations e))) d →
  Forall (λ kv, ∃ e, heap w' !! kv.2 = Some e ∧
                     is_Some (PyDict.get cs (transformations e))) d.
Proof.
  intros [news Hext] Hall. eapply Forall_impl; [exact Hall|].
  intros kv (e & He & Hget).
  exists e. split; [|done]. rewrite Hext. by apply lookup_app_l_Some.
Qed.

Lemma heap_extends_trans w1 w2 w3 :
  heap_extends w1 w2 → heap_extends w2 w3 → heap_extends w1 w3.
Proof.
  intros [n1 H1] [n2 H2]. exists (n1 ++ n2). by rewrite H2, H1, <- app_assoc.
Qed.

Lemma transform_to_coordinate_system_run self cs w :
  objects_exist self w →
  names_unique self →
  Forall (λ kv, table_accepted TableModel_validate kv.2) (tables self) →
  ∃ sdata w',
    transform_to_coordinate_system TableModel_validate transform_payload self cs w
      = (inr sdata, w') ∧
    tables sdata = tables self ∧
    spatial_element_names sdata = kept_names self w [cs] ∧
    Forall (only_identity w' cs) (_gen_spatial_element_values sdata) ∧
    heap_extends w w'.
Proof.
  intros Hok Huniq Hacc. unfold transform_to_coordinate_system.
  destruct (filter_by_coordinate_system_run TableModel_validate self (CsName cs) false w
              Hok Huniq Hacc) as (w1 & Hrun1 & Hheap1 & _).
  rewrite (bind_inr _ _ _ _ _ Hrun1). cbn [as_list].
  destruct Huniq as [Hnd Hwf].
  pose proof (kept_names_NoDup self w [cs] Hnd) as Hkept. unfold kept_names in Hkept.
  pose proof Hkept as Hnd'.
  apply NoDup_app in Hnd' as (Hni & _ & Hnd').
  apply NoDup_app in Hnd' as (Hnl & _ & Hnd').
  apply NoDup_app in Hnd' as (Hnp & _ & Hns).
  unfold _gen_elements at 1.
  cbn [filtered_container images labels points shapes tables filtered_tables].
  set (ki := kept_elements w [cs] (images self)) in *.
  set (kl := kept_elements w [cs] (labels self)) in *.
  set (kp := kept_elements w [cs] (points self)) in *.
  set (ks := kept_elements w [cs] (shapes self)) in *.
  assert (Hinv0 : transformed_so_far cs (length (heap w1)) no_elements w1).
  { split_and!; [lia | intros l Hl; lia | intros ty; apply Forall_nil_2]. }
  destruct (transform_elements_tag cs (length (heap w1)) IMAGES ki
              (tag_spatial LABELS kl ++ tag_spatial POINTS kp ++ tag_spatial SHAPES ks ++ [])
              no_elements w1)
    as (els1 & w2 & Hrun2 & Hn1 & Ho1 & Hx1 & Hwa1 & Hd1 & Hinv1);
    [done | by apply kept_elements_sources | exact Hni | exact Hinv0 |].
  destruct (transform_elements_tag cs (length (heap w1)) LABELS kl
              (tag_spatial POINTS kp ++ tag_spatial SHAPES ks ++ []) els1 w2)
    as (els2 & w3 & Hrun3 & Hn2 & Ho2 & Hx2 & Hwa2 & Hd2 & Hinv2);
    [done | by eapply sources_extend, kept_elements_sources
          | by rewrite Ho1 | exact Hinv1 |].
  destruct (transform_elements_tag cs (length (heap w1)) POINTS kp
              (tag_spatial SHAPES ks ++ []) els2 w3)
    as (els3 & w4 & Hrun4 & Hn3 & Ho3 & Hx3 & Hwa3 & Hd3 & Hinv3);
    [done | by eapply sources_extend, sources_extend, kept_elements_sources
          | by rewrite Ho2, Ho1 | exact Hinv2 |].
  destruct (transform_elements_tag cs (length (heap w1)) SHAPES ks [] els3 w4)
    as (els4 & w5 & Hrun5 & Hn4 & Ho4 & Hx4 & Hwa4 & Hd4 & Hinv4);
    [done | by eapply sources_extend, sources_extend, sources_extend,
                      kept_elements_sources
          | by rewrite Ho3, Ho2, Ho1 | exact Hinv3 |].
  assert (Hrun : transform_elements transform_payload cs
                   (tag_spatial IMAGES ki ++ tag_spatial LABELS kl ++
                    tag_spatial POINTS kp ++ tag_spatial SHAPES ks ++ [])
                   no_elements w1 = (inr els4, w5)).
  { by rewrite Hrun2, Hrun3, Hrun4, Hrun5. }
  rewrite (bind_inr _ _ _ _ _ Hrun).
  assert (HI : (els4 IMAGES).*1 = ki.*1) by by rewrite Ho4, Ho3, Ho2, Hn1.
  assert (HL : (els4 LABELS).*1 = kl.*1) by by rewrite Ho4, Ho3, Hn2, Ho1.
  assert (HP : (els4 POINTS).*1 = kp.*1) by by rewrite Ho4, Hn3, Ho2, Ho1.
  assert (HS : (els4 SHAPES).*1 = ks.*1) by by rewrite Hn4, Ho3, Ho2, Ho1.
  destruct (init_accepted TableModel_validate (els4 IMAGES) (els4 LABELS) (els4 POINTS)
              (els4 SHAPES) (tables self) w5) as (w6 & Hrun6 & Hheap6 & _);
    [by rewrite HI, HL, HP, HS | done | done |].
  eexists _, w6. split; [exact Hrun6|].
  split_and!.
  - done.
  - unfold spatial_element_names, kept_names. cbn [images labels points shapes].
    by rewrite HI, HL, HP, HS.
  - destruct Hinv4 as (_ & Hids & Hvals).
    unfold _gen_spatial_element_values. cbn [images labels points shapes].
    rewrite !Forall_app. split_and!;
      (eapply Forall_impl; [apply Hvals|]); intros l Hl;
      destruct (Hids l Hl) as (e & He & Hd); exists e; by rewrite Hheap6.
  - assert (heap_extends w w1) by (exists []; by rewrite app_nil_r).
    assert (heap_extends w5 w6) by (exists []; by rewrite app_nil_r).
    eauto 10 using heap_extends_trans.
Qed.

(** C3: every spatial element of the container returned by
    [transform_to_coordinate_system] has the target system as its only
    coordinate-system key, with the identity as transformation. *)
Theorem transform_to_coordinate_system_identity self cs w :
  objects_exist self w →
  names_unique self →
  Forall (λ kv, table_accepted TableModel_validate kv.2) (tables self) →
  ∃ sdata w',
    transform_to_coordinate_system TableModel_validate transform_payload self cs w
      = (inr sdata, w') ∧
    Forall (λ l, ∃ e, heap w' !! l = Some e ∧
                      PyDict.keys (transformations e) = [cs] ∧
                      PyDict.get cs (transformations e) = Some Identity)
           (_gen_spatial_element_values sdata).
Proof.
  intros Hok Huniq Hacc.
  destruct (transform_to_coordinate_system_run self cs w Hok Huniq Hacc)
    as (sdata & w' & Hrun & _ & _ & Hids & _).
  exists sdata, w'. split; [exact Hrun|].
  eapply Forall_impl; [exact Hids|]. intros l (e & He & Hd).
  exists e. rewrite Hd. split_and!; [done | done |].
  simpl. by rewrite decide_True.
Qed.

(** C9: the container returned by [transform_to_coordinate_system] has the
    tables of the original, with the same names and the same contents, also
    when spatial elements are dropped by the filtering step. *)
Theorem transform_to_coordinate_system_tables self cs w :
  objects_exist self w →
  names_unique self →
  Forall (λ kv, table_accepted TableModel_validate kv.2) (tables self) →
  ∃ sdata w',
    transform_to_coordinate_system TableModel_validate transform_payload self cs w
      = (inr sdata, w') ∧
    tables sdata = tables self.
Proof.
  intros Hok Huniq Hacc.
  destruct (transform_to_coordinate_system_run self cs w Hok Huniq Hacc)
    as (sdata & w' & Hrun & Htables & _).
  by exists sdata, w'.
Qed.

End TransformFacts.

(** ** Filtering and transforming: instances *)

Lemma sample_annotated_ok :
  objects_exist Samples.sdata_annotated Samples.world3 ∧
  names_unique Samples.sdata_annotated.
Proof.
  split; [repeat constructor; eexists; reflexivity|].
  split; by_computation.
Qed.

Lemma filter_by_coordinate_system_spec_witness :
  objects_exist Samples.sdata_annotated Samples.world3 ∧
  names_unique Samples.sdata_annotated ∧
  Forall (λ kv, table_accepted Samples.accept_all kv.2)
         (filtered_tables Samples.sdata_annotated Samples.world3
            (as_list (CsName "A")) true) ∧
  ∃ sdata w',
    filter_by_coordinate_system Samples.accept_all Samples.sdata_annotated
      (CsName "A") true Samples.world3 = (inr sdata, w') ∧
    heap w' = heap Samples.world3 ∧
    sdata = filtered_container Samples.sdata_annotated Samples.world3
              (as_list (CsName "A")) true ∧
    (∀ element_type name l,
       (name, l) ∈ spatial_collection element_type sdata ↔
       (name, l) ∈ spatial_collection element_type Samples.sdata_annotated ∧
       ∃ e, heap Samples.world3 !! l = Some e ∧
            Exists (λ cs, cs ∈ PyDict.keys (transformations e))
                   (as_list (CsName "A"))) ∧
    tables sdata =
      (if true then
         (λ kv, (kv.1, _filter_table_by_coordinate_system kv.2
                         (spatial_element_names sdata)))
           <$> tables Samples.sdata_annotated
       else tables Samples.sdata_annotated) ∧
    (true = true →
     Forall2 (λ kv kv',
                kv'.1 = kv.1 ∧
                uns_ATTRS_KEY kv'.2 = uns_ATTRS_KEY kv.2 ∧
                match region_column kv.2 with
                | Some column =>
                    X kv'.2 = rows_whose_region_in column
                                (spatial_element_names sdata) (X kv.2) ∧
                    obs kv'.2 = (λ c, (c.1, rows_whose_region_in column
                                              (spatial_element_names sdata) c.2))
                                  <$> obs kv.2
                | None =>
                    X kv'.2 = [] ∧ obs kv'.2 = (λ c, (c.1, [])) <$> obs kv.2
                end)
             (tables Samples.sdata_annotated) (tables sdata)).
Proof.
  destruct sample_annotated_ok as [Hok Huniq].
  assert (Hacc : Forall (λ kv, table_accepted Samples.accept_all kv.2)
                   (filtered_tables Samples.sdata_annotated Samples.world3
                      (as_list (CsName "A")) true)).
  { repeat constructor. intros attrs [= <-]. by eexists. }
  split_and!; [exact Hok | exact Huniq | exact Hacc |].
  exact (filter_by_coordinate_system_spec Samples.accept_all Samples.sdata_annotated
           (CsName "A") true Samples.world3 Hok Huniq Hacc).
Defined.

Lemma sample_tables_accepted :
  Forall (λ kv, table_accepted Samples.accept_all kv.2) (tables Samples.sdata_annotated).
Proof. repeat constructor. intros attrs [= <-]. by eexists. Qed.

Lemma transform_to_coordinate_system_identity_witness :
  objects_exist Samples.sdata_annotated Samples.world3 ∧
  names_unique Samples.sdata_annotated ∧
  Forall (λ kv, table_accepted Samples.accept_all kv.2) (tables Samples.sdata_annotated) ∧
  ∃ sdata w',
    transform_to_coordinate_system Samples.accept_all (λ _ p, p)
      Samples.sdata_annotated "B" Samples.world3 = (inr sdata, w') ∧
    Forall (λ l, ∃ e, heap w' !! l = Some e ∧
                      PyDict.keys (transformations e) = ["B"] ∧
                      PyDict.get "B" (transformations e) = Some Identity)
           (_gen_spatial_element_values sdata).
Proof.
  destruct sample_annotated_ok as [Hok Huniq].
  split_and!; [exact Hok | exact Huniq | exact sample_tables_accepted |].
  exact (transform_to_coordinate_system_identity Samples.accept_all (λ _ p, p)
           Samples.sdata_annotated "B" Samples.world3 Hok Huniq sample_tables_accepted).
Defined.

Lemma transform_to_coordinate_system_tables_witness :
  objects_exist Samples.sdata_annotated Samples.world3 ∧
  names_unique Samples.sdata_annotated ∧
  Forall (λ kv, table_accepted Samples.accept_all kv.2) (tables Samples.sdata_annotated) ∧
  ∃ sdata w',
    transform_to_coordinate_system Samples.accept_all (λ _ p, p)
      Samples.sdata_annotated "B" Samples.world3 = (inr sdata, w') ∧
    tables sdata = tables Samples.sdata_annotated.
Proof.
  destruct sample_annotated_ok as [Hok Huniq].
  split_and!; [exact Hok | exact Huniq | exact sample_tables_accepted |].
  exact (transform_to_coordinate_system_tables Samples.accept_all (λ _ p, p)
           Samples.sdata_annotated "B" Samples.world3 Hok Huniq sample_tables_accepted).
Defined.

(** On the sample container the shapes element, placed in ["C"] only, is
    dropped by the transformation to ["B"] while the table that annotates it
    is returned with all its rows. *)
Example transform_drops_shapes_keeps_table :
  ∃ sdata w',
    transform_to_coordinate_system Samples.accept_all (λ _ p, p)
      Samples.sdata_annotated "B" Samples.world3 = (inr sdata, w') ∧
    shapes sdata = [] ∧
    tables sdata = [("table", Samples.annotating_table)].
Proof. eexists _, _. split; [vm_compute; reflexivity|]. split; reflexivity. Qed.

(** Filtering the same container by ["A"] with [filter_tables] keeps the
    rows of the table whose region is a kept element. *)
Example filter_restricts_table :
  ∃ sdata w',
    filter_by_coordinate_system Samples.accept_all Samples.sdata_annotated
      (CsName "A") true Samples.world3 = (inr sdata, w') ∧
    (images sdata).*1 = ["image0"; "image1"] ∧ shapes sdata = [] ∧
    PyDict.get "region" <$> (obs <$> PyDict.get "table" (tables sdata))
      = Some (Some [CStr "image0"; CStr "image0"]) ∧
    X <$> PyDict.get "table" (tables sdata) = Some [[10%Z]; [30%Z]].
Proof. eexists _, _. split; [vm_compute; reflexivity|]. split_and!; reflexivity. Qed.

(** ** Writing *)

Lemma for_each_raises {S A} (xs : list A) (body : A → ST S unit) :
  Exists (λ x, ∀ s, ∃ e s', body x s = (inl e, s')) xs →
  ∀ s, ∃ e s', for_each xs body s = (inl e, s').
Proof.
  induction xs as [|x xs IH]; intros Hex s.
  - by apply Exists_nil in Hex.
  - cbn [for_each]. unfold mbind, ST_bind.
    destruct (body x s) as [[e|[]] s1] eqn:Hx; [by eauto|].
    apply Exists_cons in Hex as [Hx'|Hex]; [|by apply IH].
    destruct (Hx' s) as (e & s' & Hraise). congruence.
Qed.

Section WriteFacts.
Variable os_path_exists : string → bool.
Variable is_zarr_store : string → bool.
Variable open_store_fails : string → option exn.
Variable writer_fails : ElementType → string → option exn.
Variable consolidate_metadata_fails : option exn.

(** C8: when the target does not exist, the store can be opened and the
    writing of the elements raises [e], [write] raises [e] and leaves the
    container unbound: [path] is [None], [is_backed()] is false, and the
    collections are those of the container before the call. *)
Theorem write_rolls_back_path self file_path overwrite consolidate_metadata e root :
  os_path_exists file_path = false →
  open_store_fails file_path = None →
  write_elements writer_fails (set_path (Some file_path) self) overwrite []
    = (inl e, root) →
  ∃ self',
    write os_path_exists is_zarr_store open_store_fails writer_fails
      consolidate_metadata_fails file_path overwrite consolidate_metadata self
      = (inl e, self') ∧
    _path self' = None ∧ is_backed self' = false ∧
    self' = set_path None self.
Proof.
  intros Hexists Hopen Hraise. unfold write.
  rewrite Hexists, Hopen, Hraise. eexists. split; [reflexivity|].
  split_and!; [done | done |]. by destruct self.
Qed.

(** A writer that fails makes the writing of the elements raise. *)
Lemma write_collection_raises element_type keys overwrite name e root :
  name ∈ keys → writer_fails element_type name = Some e →
  ∃ e' root', write_collection writer_fails element_type keys overwrite root
              = (inl e', root').
Proof.
  intros Hin Hfail. unfold write_collection.
  rewrite bool_decide_eq_false_2 by (intros ->; by apply elem_of_nil in Hin).
  unfold mbind at 1, ST_bind at 1.
  destruct (create_group (element_type_name element_type) root) as [[e1|[]] root1];
    [by eauto|].
  apply for_each_raises. apply Exists_exists. exists name. split; [done|].
  intros s. unfold mbind, ST_bind.
  destruct (_init_add_element name element_type overwrite s) as [[e2|[]] s2];
    [by eauto|].
  unfold write_element. rewrite Hfail. eauto.
Qed.

Lemma write_elements_image_raises self overwrite name e root :
  name ∈ PyDict.keys (images self) → writer_fails IMAGES name = Some e →
  ∃ e' root', write_elements writer_fails self overwrite root = (inl e', root').
Proof.
  intros Hin Hfail. unfold write_elements.
  destruct (write_collection_raises IMAGES _ overwrite name e root Hin Hfail)
    as (e' & root' & Hraise).
  exists e', root'. by apply bind_inl.
Qed.
End WriteFacts.

(** ** Reading *)

Lemma elem_of_set {V} k k' (v v' : V) d :
  (k', v') ∈ PyDict.set k v d → (k' = k ∧ v' = v) ∨ (k', v') ∈ d.
Proof.
  induction d as [|[k0 v0] d IH]; simpl.
  - rewrite list_elem_of_singleton. naive_solver.
  - case_decide; rewrite !elem_of_cons; naive_solver.
Qed.

Lemma heap_extends_refl w : heap_extends w w.
Proof. exists []. by rewrite app_nil_r. Qed.

Lemma heap_extends_lookup w w' l e :
  heap_extends w w' → heap w !! l = Some e → heap w' !! l = Some e.
Proof. intros [news ->]. apply lookup_app_l_Some. Qed.

Lemma warnings_extend_refl w : warnings_extend w w.
Proof. exists []. by rewrite app_nil_r. Qed.

Lemma warnings_extend_trans w1 w2 w3 :
  warnings_extend w1 w2 → warnings_extend w2 w3 → warnings_extend w1 w3.
Proof.
  intros [m1 H1] [m2 H2]. exists (m1 ++ m2). by rewrite H2, H1, <- app_assoc.
Qed.

Lemma warnings_extend_elem w w' wg :
  warnings_extend w w' → wg ∈ warnings w → wg ∈ warnings w'.
Proof. intros [more ->] Hin. apply elem_of_app. by left. Qed.

Lemma read_collection_warn ty groups loaded w :
  ∃ loaded' w',
    read_collection OnWarn ty groups loaded w = (inr loaded', w') ∧
    heap_extends w w' ∧ warnings_extend w w' ∧
    (∀ name, name ∈ loaded'.*1 ↔
             name ∈ loaded.*1 ∨ ∃ element, (name, inr element) ∈ groups) ∧
    (∀ name e, (name, inl e) ∈ groups → bad_file_warning ty name e ∈ warnings w') ∧
    (∀ name l, (name, l) ∈ loaded' →
               (name, l) ∈ loaded ∨
               ∃ element, heap w' !! l = Some element ∧ (name, inr element) ∈ groups).
Proof.
  revert loaded w. induction groups as [|[name [e|element]] groups IH]; intros loaded w.
  - exists loaded, w. split_and!; try done.
    + apply heap_extends_refl.
    + apply warnings_extend_refl.
    + intros name. split; [auto|]. intros [?|(? & H)]; [done | by apply elem_of_nil in H].
    + intros name e Hin. by apply elem_of_nil in Hin.
    + auto.
  - cbn [read_collection handle_bad_file].
    set (w1 := mkWorld (heap w) (warnings w ++ [bad_file_warning ty name e]) (draws w)).
    destruct (IH loaded w1) as (loaded' & w' & Hrun & Hheap & Hwarn & Hnames & Hbad & Hobj).
    exists loaded', w'. split_and!.
    + unfold mbind, ST_bind, warnings_warn, mret, ST_ret. exact Hrun.
    + exact Hheap.
    + eapply warnings_extend_trans; [|exact Hwarn]. by eexists.
    + intros n. rewrite Hnames. setoid_rewrite elem_of_cons. naive_solver.
    + intros n e' [[= -> ->]|Hin]%elem_of_cons; [|by apply Hbad].
      eapply warnings_extend_elem; [exact Hwarn|].
      cbn. apply elem_of_app. right. left.
    + intros n l Hin. destruct (Hobj n l Hin) as [?|(el & ? & ?)]; [by left|].
      right. exists el. split; [done | by right].
  - cbn [read_collection].
    set (w1 := mkWorld (heap w ++ [element]) (warnings w) (draws w)).
    destruct (IH (PyDict.set name (length (heap w)) loaded) w1)
      as (loaded' & w' & Hrun & Hheap & Hwarn & Hnames & Hbad & Hobj).
    exists loaded', w'. split_and!.
    + unfold mbind, ST_bind, alloc. exact Hrun.
    + eapply heap_extends_trans; [|exact Hheap]. by eexists.
    + exact Hwarn.
    + intros n. rewrite Hnames, elem_of_keys_set. setoid_rewrite elem_of_cons.
      split; [|naive_solver].
      intros [[->|?]|(el & ?)]; eauto.
    + intros n e' [[=]|Hin]%elem_of_cons. by apply Hbad.
    + intros n l Hin. destruct (Hobj n l Hin) as [Hset|(el & ? & ?)].
      * apply elem_of_set in Hset as [[-> ->]|?]; [|by left].
        right. exists element. split; [|left].
        eapply heap_extends_lookup; [exact Hheap|]. cbn. apply lookup_last_object.
      * right. exists el. split; [done | by right].
Qed.

Lemma read_tables_warn groups loaded w :
  ∃ loaded' w',
    read_tables OnWarn groups loaded w = (inr loaded', w') ∧
    heap w' = heap w ∧ warnings_extend w w' ∧
    (∀ name, name ∈ loaded'.*1 ↔
             name ∈ loaded.*1 ∨ ∃ table, (name, inr table) ∈ groups) ∧
    (∀ name e, (name, inl e) ∈ groups → bad_file_warning TABLES name e ∈ warnings w') ∧
    (∀ name table, (name, table) ∈ loaded' →
                   (name, table) ∈ loaded ∨ (name, inr table) ∈ groups).
Proof.
  revert loaded w. induction groups as [|[name [e|table]] groups IH]; intros loaded w.
  - exists loaded, w. split_and!; try done.
    + apply warnings_extend_refl.
    + intros name. split; [auto|]. intros [?|(? & H)]; [done | by apply elem_of_nil in H].
    + intros name e Hin. by apply elem_of_nil in Hin.
    + auto.
  - cbn [read_tables handle_bad_file].
    set (w1 := mkWorld (heap w) (warnings w ++ [bad_file_warning TABLES name e]) (draws w)).
    destruct (IH loaded w1) as (loaded' & w' & Hrun & Hheap & Hwarn & Hnames & Hbad & Hobj).
    exists loaded', w'. split_and!.
    + unfold mbind, ST_bind, warnings_warn, mret, ST_ret. exact Hrun.
    + exact Hheap.
    + eapply warnings_extend_trans; [|exact Hwarn]. by eexists.
    + intros n. rewrite Hnames. setoid_rewrite elem_of_cons. naive_solver.
    + intros n e' [[= -> ->]|Hin]%elem_of_cons; [|by apply Hbad].
      eapply warnings_extend_elem; [exact Hwarn|].
      cbn. apply elem_of_app. right. left.
    + intros n t Hin. destruct (Hobj n t Hin) as [?|?]; [by left|].
      right. by right.
  - cbn [read_tables].
    destruct (IH (PyDict.set name table loaded) w)
      as (loaded' & w' & Hrun & Hheap & Hwarn & Hnames & Hbad & Hobj).
    exists loaded', w'. split_and!; try done.
    + intros n. rewrite Hnames, elem_of_keys_set. setoid_rewrite elem_of_cons.
      split; [|naive_solver].
      intros [[->|?]|(el & ?)]; eauto.
    + intros n e' [[=]|Hin]%elem_of_cons. by apply Hbad.
    + intros n t Hin. destruct (Hobj n t Hin) as [Hset|?].
      * apply elem_of_set in Hset as [[-> ->]|?]; [|by left]. right. left.
      * right. by right.
Qed.

Lemma warn_if_annotating_absent_run sdata t w :
  ∃ w', warn_if_annotating_absent sdata t w = (inr (), w') ∧
        heap w' = heap w ∧ warnings_extend w w'.
Proof.
  unfold warn_if_annotating_absent.
  destruct (uns_ATTRS_KEY t ≫= REGION_KEY) as [region|].
  - case_bool_decide.
    + exists w. split_and!; [done | done | apply warnings_extend_refl].
    + eexists. split_and!; [reflexivity | done | by eexists].
  - exists w. split_and!; [done | done | apply warnings_extend_refl].
Qed.

Lemma for_each_warn_if_annotating_absent sdata tables w :
  ∃ w', for_each tables (warn_if_annotating_absent sdata) w = (inr (), w') ∧
        heap w' = heap w ∧ warnings_extend w w'.
Proof.
  revert w. induction tables as [|t tables IH]; intros w.
  - exists w. split_and!; [done | done | apply warnings_extend_refl].
  - cbn [for_each].
    destruct (warn_if_annotating_absent_run sdata t w) as (w1 & Hrun1 & Hh1 & Hw1).
    rewrite (bind_inr _ _ _ _ _ Hrun1).
    destruct (IH w1) as (w' & Hrun & Hh & Hw). exists w'.
    split_and!; [exact Hrun | congruence |].
    by eapply warnings_extend_trans.
Qed.
Lemma wf_functional {V} (d : list (string * V)) k v1 v2 :
  PyDict.wf d → (k, v1) ∈ d → (k, v2) ∈ d → v1 = v2.
Proof.
  intros Hwf H1 H2. apply (elem_get _ _ _ Hwf) in H1, H2. congruence.
Qed.

(** C7: with [on_bad_files="warn"] the read returns a container; its
    collections hold exactly the names whose element group could be read,
    with the element that was stored; for every element group that could
    not be read a warning naming its path and the class of the error has
    been emitted, and in a store whose groups have distinct names that
    element is not in the container. *)
Theorem read_zarr_warn_isolates_failures store w :
  ∃ sdata w',
    read_zarr store OnWarn w = (inr sdata, w') ∧
    (∀ ty name, name ∈ PyDict.keys (spatial_collection ty sdata) ↔
                ∃ element, (name, inr element) ∈ stored_collection ty store) ∧
    (∀ name, name ∈ PyDict.keys (tables sdata) ↔
             ∃ table, (name, inr table) ∈ stored_tables store) ∧
    (∀ ty name l, (name, l) ∈ spatial_collection ty sdata →
                  ∃ element, heap w' !! l = Some element ∧
                             (name, inr element) ∈ stored_collection ty store) ∧
    (∀ name table, (name, table) ∈ tables sdata →
                   (name, inr table) ∈ stored_tables store) ∧
    (∀ ty name e, (name, inl e) ∈ stored_collection ty store →
                  bad_file_warning ty name e ∈ warnings w' ∧
                  (PyDict.wf (stored_collection ty store) →
                   name ∉ PyDict.keys (spatial_collection ty sdata))) ∧
    (∀ name e, (name, inl e) ∈ stored_tables store →
               bad_file_warning TABLES name e ∈ warnings w' ∧
               (PyDict.wf (stored_tables store) →
                name ∉ PyDict.keys (tables sdata))) ∧
    heap_extends w w' ∧ warnings_extend w w'.
Proof.
  unfold read_zarr.
  destruct (read_collection_warn IMAGES (stored_images store) [] w)
    as (im & w1 & Hr1 & Hh1 & Hw1 & Hn1 & Hb1 & Ho1).
  destruct (read_collection_warn LABELS (stored_labels store) [] w1)
    as (la & w2 & Hr2 & Hh2 & Hw2 & Hn2 & Hb2 & Ho2).
  destruct (read_collection_warn POINTS (stored_points store) [] w2)
    as (po & w3 & Hr3 & Hh3 & Hw3 & Hn3 & Hb3 & Ho3).
  destruct (read_collection_warn SHAPES (stored_shapes store) [] w3)
    as (sh & w4 & Hr4 & Hh4 & Hw4 & Hn4 & Hb4 & Ho4).
  destruct (read_tables_warn (stored_tables store) [] w4)
    as (ta & w5 & Hr5 & Hh5 & Hw5 & Hn5 & Hb5 & Ho5).
  destruct (for_each_warn_if_annotating_absent
              (mkSpatialData None im la po sh ta) (PyDict.values ta) w5)
    as (w6 & Hr6 & Hh6 & Hw6).
  rewrite (bind_inr _ _ _ _ _ Hr1), (bind_inr _ _ _ _ _ Hr2), (bind_inr _ _ _ _ _ Hr3),
    (bind_inr _ _ _ _ _ Hr4), (bind_inr _ _ _ _ _ Hr5), (bind_inr _ _ _ _ _ Hr6).
  assert (H56 : heap_extends w5 w6) by (exists []; by rewrite app_nil_r).
  assert (H45 : heap_extends w4 w5) by (exists []; by rewrite app_nil_r).
  assert (Hnil : ∀ {V} (x : string), x ∈ ([] : list (string * V)).*1 ↔ False).
  { intros V x. simpl. apply elem_of_nil. }
  assert (Hnames : ∀ ty name,
    name ∈ PyDict.keys (spatial_collection ty (mkSpatialData None im la po sh ta)) ↔
    ∃ element, (name, inr element) ∈ stored_collection ty store).
  { intros [] name; unfold PyDict.keys; cbn [spatial_collection images labels points shapes
      stored_collection]; rewrite ?Hn1, ?Hn2, ?Hn3, ?Hn4, ?Hnil; try tauto.
    split; [done|]. intros [? H]. by apply elem_of_nil in H. }
  assert (Htnames : ∀ name,
    name ∈ PyDict.keys ta ↔ ∃ table, (name, inr table) ∈ stored_tables store).
  { intros name. unfold PyDict.keys. rewrite Hn5, Hnil. tauto. }
  eexists _, w6. split; [reflexivity|]. split_and!.
  - exact Hnames.
  - exact Htnames.
  - intros [] name l Hin;
      cbn [spatial_collection images labels points shapes stored_collection] in *.
    + destruct (Ho1 name l Hin) as [H|(el & Hel & ?)]; [by apply elem_of_nil in H|].
      exists el. split; [|done].
      eauto 10 using heap_extends_lookup.
    + destruct (Ho2 name l Hin) as [H|(el & Hel & ?)]; [by apply elem_of_nil in H|].
      exists el. split; [|done].
      eauto 10 using heap_extends_lookup.
    + destruct (Ho3 name l Hin) as [H|(el & Hel & ?)]; [by apply elem_of_nil in H|].
      exists el. split; [|done].
      eauto 10 using heap_extends_lookup.
    + destruct (Ho4 name l Hin) as [H|(el & Hel & ?)]; [by apply elem_of_nil in H|].
      exists el. split; [|done].
      eauto 10 using heap_extends_lookup.
    + by apply elem_of_nil in Hin.
  - intros name table Hin. cbn [tables] in Hin.
    destruct (Ho5 name table Hin) as [H|?]; [by apply elem_of_nil in H | done].
  - intros ty name e Hin. split.
    + destruct ty; cbn [stored_collection] in Hin;
        [ apply Hb1 in Hin | apply Hb2 in Hin | apply Hb3 in Hin | apply Hb4 in Hin
        | by apply elem_of_nil in Hin ];
        eauto 10 using warnings_extend_elem.
    + intros Hwf [el Hel]%Hnames.
      by pose proof (wf_functional _ _ _ _ Hwf Hin Hel).
  - intros name e Hin. split.
    + apply Hb5 in Hin. eauto using warnings_extend_elem.
    + intros Hwf [t Ht]%Htnames.
      by pose proof (wf_functional _ _ _ _ Hwf Hin Ht).
  - eauto 10 using heap_extends_trans.
  - eauto 10 using warnings_extend_trans.
Qed.

(** With [on_bad_files="error"] a failing element group ends the read with
    its own error, and there is no container. *)
Lemma read_collection_error ty groups loaded w :
  ∃ r w', read_collection OnError ty groups loaded w = (r, w') ∧
    match r with
    | inl e => ∃ name, (name, inl e) ∈ groups
    | inr _ => Forall (λ g, ∃ element, g.2 = inr element) groups
    end.
Proof.
  revert loaded w. induction groups as [|[name [e|element]] groups IH]; intros loaded w.
  - eexists _, _. split; [reflexivity|]. constructor.
  - eexists _, _. split; [reflexivity|]. exists name. left.
  - cbn [read_collection]. unfold mbind, ST_bind, alloc.
    destruct (IH (PyDict.set name (length (heap w)) loaded)
                 (mkWorld (heap w ++ [element]) (warnings w) (draws w)))
      as (r & w' & Hrun & Hr).
    exists r, w'. split; [exact Hrun|]. destruct r as [e|?].
    + destruct Hr as [n Hn]. exists n. by right.
    + constructor; [by eexists | done].
Qed.

Lemma read_zarr_error_image store w name e :
  (name, inl e) ∈ stored_images store →
  ∃ e' w' name', read_zarr store OnError w = (inl e', w') ∧
                 (name', inl e') ∈ stored_images store.
Proof.
  intros Hin. unfold read_zarr.
  destruct (read_collection_error IMAGES (stored_images store) [] w)
    as ([e'|im] & w' & Hrun & Hr).
  - destruct Hr as [name' Hname']. exists e', w', name'.
    split; [by apply bind_inl | done].
  - rewrite Forall_forall in Hr. destruct (Hr _ Hin) as [el Hel]. done.
Qed.

(** ** Writing and reading: instances *)

Lemma write_rolls_back_path_witness :
  Samples.nothing_exists "data.zarr" = false ∧
  Samples.opens "data.zarr" = None ∧
  write_elements Samples.fails_on_image1 (set_path (Some "data.zarr") Samples.sdata)
    false []
    = (inl (StoreError "OSError" "No space left on device"),
       [("images", ["image0"])]) ∧
  ∃ self',
    write Samples.nothing_exists Samples.nothing_exists Samples.opens
      Samples.fails_on_image1 None "data.zarr" false true Samples.sdata
      = (inl (StoreError "OSError" "No space left on device"), self') ∧
    _path self' = None ∧ is_backed self' = false ∧
    self' = set_path None Samples.sdata.
Proof.
  split_and!; [reflexivity | reflexivity | reflexivity |].
  exact (write_rolls_back_path Samples.nothing_exists Samples.nothing_exists
           Samples.opens Samples.fails_on_image1 None Samples.sdata "data.zarr"
           false true _ _ eq_refl eq_refl eq_refl).
Defined.

(** The scenario of the specification: the metadata of the labels ["cells"]
    cannot be decoded. With [on_bad_files="warn"] the container has the
    image and the table but not the labels, and two warnings were emitted:
    one for ["labels/cells"] with the class of the error, one for the table
    that annotates an absent element. With [on_bad_files="error"] the read
    raises the decoding error. *)
Example read_corrupted_store_warn :
  ∃ sdata w',
    read_zarr Samples.corrupted_store OnWarn Samples.empty_world = (inr sdata, w') ∧
    images sdata = [("image0", 0)] ∧ labels sdata = [] ∧
    tables sdata = [("table", Samples.cells_annotating_table)] ∧
    warnings w' =
      [UserWarning "labels/cells: JSONDecodeError: Expecting value";
       UserWarning "The table is annotating an/some element(s) not present in the SpatialData object"].
Proof. eexists _, _. split; [vm_compute; reflexivity|]. split_and!; reflexivity. Qed.

Example read_corrupted_store_error :
  ∃ w', read_zarr Samples.corrupted_store OnError Samples.empty_world
        = (inl (StoreError "JSONDecodeError" "Expecting value"), w').
Proof. eexists. vm_compute. reflexivity. Qed.

(** ** The restriction of a table *)

Lemma select_rows_mask {A} (P : A → Prop) `{!∀ x, Decision (P x)} (l : list A) :
  select_rows ((λ x, bool_decide (P x)) <$> l) l = filter P l.
Proof.
  induction l as [|x l IH]; [done|].
  cbn [fmap list_fmap select_rows]. rewrite filter_cons.
  case_bool_decide; [rewrite decide_True by done | rewrite decide_False by done];
    by rewrite IH.
Qed.

Lemma get_fmap_values {V W} (f : V → W) k (d : list (string * V)) :
  PyDict.get k ((λ kv, (kv.1, f kv.2)) <$> d) = f <$> PyDict.get k d.
Proof.
  induction d as [|[k' v] d IH]; [done|]. cbn. case_decide; [done | exact IH].
Qed.

(** The region_key column of the restricted table holds the values of the
    original column that are among the names, in their order. *)
Lemma filter_table_region_column table element_names column :
  region_column table = Some column →
  region_column (_filter_table_by_coordinate_system table element_names)
  = Some (filter (λ c, c ∈ CStr <$> element_names) column).
Proof.
  intros Hcol. unfold _filter_table_by_coordinate_system, row_mask. rewrite Hcol.
  unfold region_column in *. cbn [uns_ATTRS_KEY obs].
  destruct (uns_ATTRS_KEY table) as [attrs|]; [|done]. cbn in *.
  destruct (REGION_KEY_KEY attrs) as [region_key|]; [|done]. cbn in *.
  rewrite get_fmap_values, Hcol. cbn. by rewrite select_rows_mask.
Qed.

(** * Further properties *)

(** ** Looking elements up *)

Lemma length_entries_of (ty : ElementType) (d : list (string * loc)) element :
  length ((λ kv : string * loc, (ty, kv.1)) <$> filter (λ kv, kv.2 = element) d)
  = length (filter (λ l, l = element) d.*2).
Proof.
  rewrite length_fmap. induction d as [|[k l] d IH]; [done|].
  cbn [fmap list_fmap snd]. rewrite !filter_cons. cbn [snd].
  case_decide; simpl; by rewrite IH.
Qed.

Lemma length_found_entries self element :
  length (found_entries self element) = registrations self element.
Proof.
  unfold found_entries, registrations, _gen_spatial_element_values.
  rewrite !filter_app, !length_app, !length_entries_of. done.
Qed.

Lemma found_entries_elem self element ty name :
  (ty, name) ∈ found_entries self element →
  (name, element) ∈ spatial_collection ty self.
Proof.
  unfold found_entries. rewrite !elem_of_app, !list_elem_of_fmap.
  intros [H|[H|[H|H]]]; destruct H as ([k l] & [= -> ->] & [Hl Hin]%list_elem_of_filter);
    simpl in *; by subst.
Qed.

(** X1: [_locate_spatial_element] returns exactly when the object is registered
    under one name, and then gives that name and its collection; an object
    that is not registered, or registered under several names, is a
    [ValueError]. *)
Theorem locate_spatial_element_spec self element :
  match _locate_spatial_element self element with
  | inr (name, element_type) =>
      registrations self element = 1 ∧
      (name, element) ∈ spatial_collection element_type self
  | inl e => is_ValueError e = true ∧ registrations self element ≠ 1
  end.
Proof.
  rewrite <- length_found_entries. unfold _locate_spatial_element.
  pose proof (found_entries_elem self element) as Helem.
  destruct (found_entries self element) as [|[ty name] [|? ?]]; simpl; [done | | done].
  split; [done|]. apply Helem. left.
Qed.

(** X2: [contains_element] without [raise_exception] answers whether the
    object is registered under exactly one name; in particular it answers
    [False] for an object registered twice. *)
Theorem contains_element_spec self element :
  contains_element self element false
  = inr (bool_decide (registrations self element = 1)).
Proof.
  rewrite <- length_found_entries. unfold contains_element, _locate_spatial_element.
  destruct (found_entries self element) as [|[ty name] [|? ?]]; simpl; done.
Qed.

Lemma find_in_spec name gen :
  match find_in name gen with
  | inr (ty, n, el) =>
      n = name ∧
      ∃ before after, gen = before ++ (ty, n, el) :: after ∧ name ∉ before.*1.*2
  | inl e => e = KeyError ("Could not find element with name '" +:+ name +:+ "'") ∧
             name ∉ gen.*1.*2
  end.
Proof.
  induction gen as [|[[ty n] el] gen IH]; simpl.
  - split; [done | apply not_elem_of_nil].
  - case_decide as Hn.
    + split; [done|]. exists [], gen. split; [done | apply not_elem_of_nil].
    + destruct (find_in name gen) as [e|[[ty' n'] el']].
      * destruct IH as [-> IH]. split; [done|]. rewrite not_elem_of_cons. done.
      * destruct IH as (-> & before & after & -> & Hbefore). split; [done|].
        exists ((ty, n, el) :: before), after. split; [done|].
        simpl. rewrite not_elem_of_cons. done.
Qed.

Lemma gen_elements_names_all self :
  (gen_elements self).*1.*2 = spatial_element_names self ++ (tables self).*1.
Proof.
  unfold gen_elements, _gen_elements, spatial_element_names.
  rewrite !fmap_app, !tag_spatial_names, <- !app_assoc. repeat f_equal.
  induction (tables self) as [|[k v] d IH]; [done|]. cbn. f_equal. exact IH.
Qed.

Lemma gen_elements_spatial_prefix self :
  ∃ spatial, gen_elements self
             = spatial ++ ((λ kv, (TABLES, kv.1, Table kv.2)) <$> tables self) ∧
             spatial.*1.*2 = spatial_element_names self ∧
             Forall (λ x, ∃ l, x.2 = Spatial l ∧ (x.1.2, l) ∈ spatial_collection x.1.1 self)
                    spatial.
Proof.
  exists (tag_spatial IMAGES (images self) ++ tag_spatial LABELS (labels self) ++
          tag_spatial POINTS (points self) ++ tag_spatial SHAPES (shapes self)).
  split_and!.
  - unfold gen_elements, _gen_elements. by rewrite <- !app_assoc.
  - unfold spatial_element_names. by rewrite !fmap_app, !tag_spatial_names.
  - assert (Htag : ∀ ty d, d = spatial_collection ty self →
              Forall (λ x, ∃ l, x.2 = Spatial l ∧ (x.1.2, l) ∈ spatial_collection x.1.1 self)
                     (tag_spatial ty d)).
    { intros ty d ->. unfold tag_spatial. apply Forall_forall.
      intros x ([k l] & -> & Hin)%list_elem_of_fmap. exists l. by split. }
    rewrite !Forall_app. split_and!; by apply Htag.
Qed.

(** X3: [_find_element] finds a name when it is the name of a spatial element
    or of a table, and raises [KeyError] otherwise; a name that is both is
    resolved to the spatial element, so the table of that name is hidden. *)
Theorem find_element_spec self element_name :
  match _find_element self element_name with
  | inr (element_type, name, element) =>
      name = element_name ∧
      (element_type, name, element) ∈ gen_elements self ∧
      (element_name ∈ spatial_element_names self →
       ∃ l, element = Spatial l ∧ (name, l) ∈ spatial_collection element_type self)
  | inl e =>
      e = KeyError ("Could not find element with name '" +:+ element_name +:+ "'") ∧
      (element_name ∉ spatial_element_names self) ∧
      (element_name ∉ PyDict.keys (tables self))
  end.
Proof.
  unfold _find_element. pose proof (find_in_spec element_name (gen_elements self)) as H.
  destruct (find_in element_name (gen_elements self)) as [e|[[ty n] el]].
  - destruct H as [-> H]. rewrite gen_elements_names_all, elem_of_app in H.
    split_and!; [done | tauto | unfold PyDict.keys; tauto].
  - destruct H as (-> & before & after & Hgen & Hbefore).
    split_and!; [done | rewrite Hgen; apply elem_of_app; right; left |].
    intros Hspatial.
    destruct (gen_elements_spatial_prefix self) as (spatial & Hsplit & Hnames & Hall).
    rewrite <- Hnames in Hspatial.
    apply list_elem_of_fmap in Hspatial as (tn & Htn & Hspatial).
    apply list_elem_of_fmap in Hspatial as (x & -> & Hx).
    (* the first entry of that name lies in the spatial part *)
    assert (Hin : (ty, element_name, el) ∈ spatial).
    { rewrite Hgen in Hsplit.
      apply list_elem_of_split in Hx as (s1 & s2 & ->).
      rewrite <- app_assoc in Hsplit. simpl in Hsplit.
      destruct (decide (length before < length s1)%nat) as [Hlt|Hge].
      - apply (f_equal (λ l, l !! length before)) in Hsplit.
        rewrite list_lookup_middle in Hsplit by done.
        rewrite lookup_app_l in Hsplit by done.
        symmetry in Hsplit. apply list_elem_of_lookup_2 in Hsplit.
        apply elem_of_app. by left.
      - destruct (decide (length before = length s1)) as [Heq|Hne].
        + apply (f_equal (λ l, l !! length before)) in Hsplit.
          rewrite list_lookup_middle in Hsplit by done.
          rewrite Heq, list_lookup_middle in Hsplit by done.
          injection Hsplit as <-. apply elem_of_app. right. left.
        + exfalso. apply Hbefore.
          apply (f_equal (λ l, l !! length s1)) in Hsplit.
          rewrite lookup_app_l in Hsplit by lia.
          rewrite list_lookup_middle in Hsplit by done.
          apply list_elem_of_lookup_2 in Hsplit.
          apply list_elem_of_fmap. exists x.1. split; [by rewrite Htn|].
          apply list_elem_of_fmap. by exists x. }
    rewrite Forall_forall in Hall. destruct (Hall _ Hin) as (l & Hl & Hcol).
    simpl in *. eauto.
Qed.

Lemma find_in_app_miss name gen1 gen2 :
  name ∉ gen1.*1.*2 → find_in name (gen1 ++ gen2) = find_in name gen2.
Proof.
  induction gen1 as [|[[ty n] el] gen1 IH]; [done|].
  cbn. rewrite not_elem_of_cons. intros [Hne Hnot].
  rewrite decide_False by done. by apply IH.
Qed.

Lemma find_in_tables name (d : list (string * AnnData)) :
  find_in name ((λ kv, (TABLES, kv.1, Table kv.2)) <$> d)
  = match PyDict.get name d with
    | Some table => inr (TABLES, name, Table table)
    | None => inl (KeyError ("Could not find element with name '" +:+ name +:+ "'"))
    end.
Proof.
  induction d as [|[k v] d IH]; [done|]. cbn.
  destruct (decide (k = name)) as [->|Hne].
  - by rewrite decide_True.
  - rewrite decide_False by done. exact IH.
Qed.

(** X4: for a name that no spatial element has, [sdata[name]] is the table
    registered under that name, and a [KeyError] when there is none. *)
Theorem getitem_table self item :
  item ∉ spatial_element_names self →
  __getitem__ self item
  = match PyDict.get item (tables self) with
    | Some table => inr (Table table)
    | None => inl (KeyError ("Could not find element with name '" +:+ item +:+ "'"))
    end.
Proof.
  intros Hnot. unfold __getitem__, _find_element.
  destruct (gen_elements_spatial_prefix self) as (spatial & -> & Hnames & _).
  rewrite find_in_app_miss by (by rewrite Hnames).
  rewrite find_in_tables. by destruct (PyDict.get item (tables self)).
Qed.

Lemma getitem_table_witness :
  ("table" ∉ spatial_element_names Samples.sdata_annotated) ∧
  __getitem__ Samples.sdata_annotated "table" = inr (Table Samples.annotating_table).
Proof.
  assert (H : "table" ∉ spatial_element_names Samples.sdata_annotated)
    by (apply (bool_decide_unpack _); vm_compute; exact I).
  split; [exact H|]. exact (getitem_table Samples.sdata_annotated "table" H).
Defined.

(** ** Writing on a fresh target *)

Section WriteSuccess.
Variable os_path_exists : string → bool.
Variable is_zarr_store : string → bool.
Variable open_store_fails : string → option exn.
Variable writer_fails : ElementType → string → option exn.
Variable consolidate_metadata_fails : option exn.

Lemma element_type_name_inj ty ty' :
  element_type_name ty = element_type_name ty' → ty = ty'.
Proof. by destruct ty, ty'. Qed.

(** The loop over the names of one collection, started in a store whose
    group of the collection holds [members]. *)
Lemma write_loop_ok element_type overwrite keys :
  element_type ≠ TABLES →
  ∀ members root,
  NoDup (members ++ keys) →
  (∀ name, name ∈ keys → writer_fails element_type name = None) →
  PyDict.get (element_type_name element_type) root = Some members →
  ∃ root',
    for_each keys (λ name,
      _init_add_element name element_type overwrite;;
      write_element writer_fails element_type name) root = (inr (), root') ∧
    PyDict.get (element_type_name element_type) root' = Some (members ++ keys) ∧
    ∀ k, k ≠ element_type_name element_type → PyDict.get k root' = PyDict.get k root.
Proof.
  intros Hty. induction keys as [|name keys IH]; intros members root Hnd Hok Hget.
  - exists root. rewrite app_nil_r. done.
  - assert (Hname : name ∉ members).
    { apply NoDup_app in Hnd as (_ & Hdisj & _). intros Hin.
      apply (Hdisj name Hin). left. }
    assert (Hinit : _init_add_element name element_type overwrite root = (inr (), root)).
    { unfold _init_add_element.
      rewrite bool_decide_eq_false_2 by done.
      assert (Hc : PyDict.contains (element_type_name element_type) root = true)
        by (apply contains_get; by rewrite Hget).
      rewrite Hc, andb_false_r, Hget.
      rewrite (bool_decide_eq_false_2 (name ∈ members)) by done.
      by destruct overwrite. }
    assert (Hbody : (_init_add_element name element_type overwrite;;
                     write_element writer_fails element_type name) root
                    = (inr (), PyDict.set (element_type_name element_type)
                                 (members ++ [name]) root)).
    { rewrite (bind_inr _ _ _ _ _ Hinit). unfold write_element.
      rewrite Hok by left. by rewrite Hget. }
    cbn [for_each]. rewrite (bind_inr _ _ _ _ _ Hbody).
    edestruct (IH (members ++ [name])
                 (PyDict.set (element_type_name element_type) (members ++ [name]) root))
      as (root' & Hrun & Hget' & Hframe).
    + by rewrite <- app_assoc.
    + intros n Hn. apply Hok. by right.
    + apply get_set_eq.
    + exists root'. rewrite <- app_assoc in Hget'. split_and!; [done..|].
      intros k Hk. rewrite Hframe by done. by apply get_set_ne.
Qed.

Lemma write_collection_ok element_type overwrite keys root :
  element_type ≠ TABLES →
  NoDup keys →
  (∀ name, name ∈ keys → writer_fails element_type name = None) →
  PyDict.get (element_type_name element_type) root = None →
  ∃ root',
    write_collection writer_fails element_type keys overwrite root = (inr (), root') ∧
    PyDict.get (element_type_name element_type) root'
      = (if bool_decide (keys = []) then None else Some keys) ∧
    ∀ k, k ≠ element_type_name element_type → PyDict.get k root' = PyDict.get k root.
Proof.
  intros Hty Hnd Hok Hget. unfold write_collection.
  case_bool_decide as Hkeys; [by exists root|].
  assert (Hcreate : create_group (element_type_name element_type) root
                    = (inr (), PyDict.set (element_type_name element_type) [] root)).
  { unfold create_group.
    assert (Hc : PyDict.contains (element_type_name element_type) root = false).
    { apply contains_false. unfold PyDict.keys. by apply get_None. }
    by rewrite Hc. }
  rewrite (bind_inr _ _ _ _ _ Hcreate).
  edestruct (write_loop_ok element_type overwrite keys Hty []
               (PyDict.set (element_type_name element_type) [] root))
    as (root' & Hrun & Hget' & Hframe); [done | done | apply get_set_eq |].
  exists root'. split_and!; [done..|].
  intros k Hk. rewrite Hframe by done. by apply get_set_ne.
Qed.

Lemma write_tables_ok keys root :
  (∀ name, name ∈ keys → writer_fails TABLES name = None) →
  PyDict.get "tables" root = None →
  ∃ root',
    (if bool_decide (keys = []) then mret ()
     else create_group "tables";; for_each keys (write_element writer_fails TABLES)) root
      = (inr (), root') ∧
    PyDict.get "tables" root' = (if bool_decide (keys = []) then None else Some keys) ∧
    ∀ k, k ≠ "tables" → PyDict.get k root' = PyDict.get k root.
Proof.
  intros Hok Hget. case_bool_decide as Hkeys; [by exists root|].
  assert (Hcreate : create_group "tables" root = (inr (), PyDict.set "tables" [] root)).
  { unfold create_group.
    assert (Hc : PyDict.contains "tables" root = false).
    { apply contains_false. unfold PyDict.keys. by apply get_None. }
    by rewrite Hc. }
  rewrite (bind_inr _ _ _ _ _ Hcreate).
  assert (Hloop : ∀ keys members root,
    (∀ name, name ∈ keys → writer_fails TABLES name = None) →
    PyDict.get "tables" root = Some members →
    ∃ root', for_each keys (write_element writer_fails TABLES) root = (inr (), root') ∧
             PyDict.get "tables" root' = Some (members ++ keys) ∧
             ∀ k, k ≠ "tables" → PyDict.get k root' = PyDict.get k root).
  { clear. induction keys as [|name keys IH]; intros members root Hok Hget.
    - exists root. by rewrite app_nil_r.
    - cbn [for_each]. unfold mbind, ST_bind. unfold write_element at 1.
      rewrite Hok by left. cbn [element_type_name]. rewrite Hget. cbn [default].
      edestruct (IH (members ++ [name]) (PyDict.set "tables" (members ++ [name]) root))
        as (root' & Hrun & Hget' & Hframe).
      + intros n Hn. apply Hok. by right.
      + apply get_set_eq.
      + exists root'. rewrite <- app_assoc in Hget'. split_and!; [done..|].
        intros k Hk. rewrite Hframe by done. by apply get_set_ne. }
  edestruct (Hloop keys [] (PyDict.set "tables" [] root))
    as (root' & Hrun & Hget' & Hframe); [done | apply get_set_eq |].
  exists root'. split_and!; [done..|].
  intros k Hk. rewrite Hframe by done. by apply get_set_ne.
Qed.

(** X5: once the writing of the elements returns, the store holds one
    group for each collection that is not empty and no group for an empty
    one, and the group lists the names of the collection in their order. *)
Theorem write_elements_store self overwrite :
  (∀ element_type, NoDup (collection_keys self element_type)) →
  (∀ element_type name,
     name ∈ collection_keys self element_type → writer_fails element_type name = None) →
  ∃ root,
    write_elements writer_fails self overwrite [] = (inr (), root) ∧
    ∀ element_type,
      PyDict.get (element_type_name element_type) root
      = if bool_decide (collection_keys self element_type = []) then None
        else Some (collection_keys self element_type).
Proof.
  intros Hnd Hok. unfold write_elements.
  destruct (write_collection_ok IMAGES overwrite (PyDict.keys (images self)) [])
    as (r1 & Hrun1 & Hget1 & Hframe1);
    [done | apply (Hnd IMAGES) | apply (Hok IMAGES) | done |].
  rewrite (bind_inr _ _ _ _ _ Hrun1).
  destruct (write_collection_ok LABELS overwrite (PyDict.keys (labels self)) r1)
    as (r2 & Hrun2 & Hget2 & Hframe2);
    [done | apply (Hnd LABELS) | apply (Hok LABELS) | by rewrite Hframe1 |].
  rewrite (bind_inr _ _ _ _ _ Hrun2).
  destruct (write_collection_ok POINTS overwrite (PyDict.keys (points self)) r2)
    as (r3 & Hrun3 & Hget3 & Hframe3);
    [done | apply (Hnd POINTS) | apply (Hok POINTS)
     | by rewrite Hframe2, Hframe1 |].
  rewrite (bind_inr _ _ _ _ _ Hrun3).
  destruct (write_collection_ok SHAPES overwrite (PyDict.keys (shapes self)) r3)
    as (r4 & Hrun4 & Hget4 & Hframe4);
    [done | apply (Hnd SHAPES) | apply (Hok SHAPES)
     | by rewrite Hframe3, Hframe2, Hframe1 |].
  rewrite (bind_inr _ _ _ _ _ Hrun4).
  destruct (write_tables_ok (PyDict.keys (tables self)) r4)
    as (r5 & Hrun5 & Hget5 & Hframe5);
    [apply (Hok TABLES) | by rewrite Hframe4, Hframe3, Hframe2, Hframe1 |].
  exists r5. split; [exact Hrun5|].
  intros [| | | |]; cbn [element_type_name collection_keys].
  - by rewrite Hframe5, Hframe4, Hframe3, Hframe2.
  - by rewrite Hframe5, Hframe4, Hframe3.
  - by rewrite Hframe5, Hframe4.
  - by rewrite Hframe5.
  - done.
Qed.

(** X6: on a target that does not exist, with a storage layer that opens
    the store and writes every element, [write] binds the container to the
    target and changes nothing else; the only error it can end with is the
    one of the consolidation of the metadata, and the container stays bound
    to the target then. *)
Theorem write_fresh_target self file_path overwrite consolidate_metadata :
  os_path_exists file_path = false →
  open_store_fails file_path = None →
  (∀ element_type, NoDup (collection_keys self element_type)) →
  (∀ element_type name,
     name ∈ collection_keys self element_type → writer_fails element_type name = None) →
  write os_path_exists is_zarr_store open_store_fails writer_fails
        consolidate_metadata_fails file_path overwrite consolidate_metadata self
  = (match (if consolidate_metadata then consolidate_metadata_fails else None) with
     | Some e => inl e
     | None => inr ()
     end, set_path (Some file_path) self).
Proof.
  intros Hexists Hopen Hnd Hok. unfold write. rewrite Hexists, Hopen.
  destruct (write_elements_store (set_path (Some file_path) self) overwrite Hnd Hok)
    as (root & -> & _).
  destruct consolidate_metadata; [|done]. by destruct consolidate_metadata_fails.
Qed.

(** X7: [write] never writes on a target that exists: whatever [overwrite]
    is and wherever the container is backed, it raises [ValueError] and
    leaves the container as it was. *)
Theorem write_existing_target self file_path overwrite consolidate_metadata :
  os_path_exists file_path = true →
  ∃ msg,
    write os_path_exists is_zarr_store open_store_fails writer_fails
          consolidate_metadata_fails file_path overwrite consolidate_metadata self
    = (inl (ValueError msg), self).
Proof.
  intros Hexists. unfold write. rewrite Hexists.
  destruct (negb (is_zarr_store file_path)); [by eexists|].
  destruct (negb overwrite && bool_decide (str_path (_path self) ≠ file_path));
    by eexists.
Qed.
End WriteSuccess.

Lemma write_elements_store_witness :
  ∃ root,
    write_elements (λ _ _, None) Samples.sdata_annotated false [] = (inr (), root) ∧
    ∀ element_type,
      PyDict.get (element_type_name element_type) root
      = if bool_decide (collection_keys Samples.sdata_annotated element_type = []) then None
        else Some (collection_keys Samples.sdata_annotated element_type).
Proof.
  apply (write_elements_store (λ _ _, None) Samples.sdata_annotated false).
  - intros []; apply (bool_decide_unpack _); vm_compute; exact I.
  - reflexivity.
Defined.

Lemma write_fresh_target_witness :
  write Samples.nothing_exists (λ _, true) Samples.opens (λ _ _, None) None
        "data.zarr" false true Samples.sdata_annotated
  = (inr (), set_path (Some "data.zarr") Samples.sdata_annotated).
Proof.
  apply (write_fresh_target Samples.nothing_exists (λ _, true) Samples.opens
           (λ _ _, None) None Samples.sdata_annotated "data.zarr" false true).
  - reflexivity.
  - reflexivity.
  - intros []; apply (bool_decide_unpack _); vm_compute; exact I.
  - reflexivity.
Defined.

Lemma write_existing_target_witness :
  ∃ msg,
    write (λ _, true) (λ _, true) Samples.opens (λ _ _, None) None
          "data.zarr" true true Samples.sdata_annotated
    = (inl (ValueError msg), Samples.sdata_annotated).
Proof.
  apply (write_existing_target (λ _, true) (λ _, true) Samples.opens (λ _ _, None) None
           Samples.sdata_annotated "data.zarr" true true).
  reflexivity.
Defined.

(** ** Element groups of a store *)

(** X8: without [overwrite], [_init_add_element] raises [ValueError]
    exactly when the store already has an element group of that name in the
    collection; it never changes the members of a group. *)
Theorem init_add_element_keeps element_type name root :
  element_type ≠ TABLES →
  ∃ root',
    _init_add_element name element_type false root
    = (if bool_decide (name ∈ group_members element_type root)
       then inl (ValueError ("Element " +:+ name +:+
                             " already exists, use overwrite=True to overwrite it"))
       else inr (), root') ∧
    (name ∈ group_members element_type root → root' = root) ∧
    ∀ ty, group_members ty root' = group_members ty root.
Proof.
  intros Hty. unfold _init_add_element, group_members.
  rewrite bool_decide_eq_false_2 by done.
  destruct (PyDict.get (element_type_name element_type) root) as [members|] eqn:Hget.
  - assert (Hc : PyDict.contains (element_type_name element_type) root = true)
      by (apply contains_get; by rewrite Hget).
    rewrite Hc, andb_false_r, Hget. simpl default.
    exists root. split_and!; [by case_bool_decide | done | done].
  - assert (Hc : PyDict.contains (element_type_name element_type) root = false).
    { apply contains_false. unfold PyDict.keys. by apply get_None. }
    rewrite Hc, andb_true_r. simpl default.
    rewrite (bool_decide_eq_false_2 (name ∈ [])) by apply not_elem_of_nil.
    case_bool_decide as Hlabels; cbn [negb].
    + rewrite get_set_eq. rewrite (bool_decide_eq_false_2 (name ∈ [])) by apply not_elem_of_nil.
      eexists. split; [done|]. split; [by intros ?%elem_of_nil|].
      intros ty. destruct (decide (element_type_name ty = element_type_name element_type)) as [->|Hne].
      * by rewrite get_set_eq, Hget.
      * by rewrite get_set_ne.
    + rewrite Hget. exists root. split; [done|]. split; [by intros ?%elem_of_nil|done].
Qed.

(** X9: with [overwrite], [_init_add_element] returns for the images, the
    points and the shapes, and for the labels when the store has a labels
    group; the name is then no member of the group of the collection, and
    every other member of every group is kept. For the labels of a store
    without labels group it ends in [UnboundLocalError]. *)
Theorem init_add_element_overwrite element_type name root :
  element_type ≠ TABLES →
  if bool_decide (element_type = LABELS ∧ PyDict.get "labels" root = None)
  then _init_add_element name element_type true root
       = (inl (UnboundLocalError "elem_group"), root)
  else ∃ root',
    _init_add_element name element_type true root = (inr (), root') ∧
    (name ∉ group_members element_type root') ∧
    ∀ ty n, (ty, n) ≠ (element_type, name) →
            n ∈ group_members ty root' ↔ n ∈ group_members ty root.
Proof.
  intros Hty. unfold _init_add_element, group_members.
  rewrite (bool_decide_eq_false_2 (element_type = TABLES)) by done.
  destruct (PyDict.get (element_type_name element_type) root) as [members|] eqn:Hget.
  - rewrite bool_decide_eq_false_2
      by (intros [-> Hnone]; cbn in Hget; congruence).
    assert (Hc : PyDict.contains (element_type_name element_type) root = true)
      by (apply contains_get; by rewrite Hget).
    rewrite Hc, andb_false_r, Hget.
    case_bool_decide as Hin.
    + eexists. split; [done|]. rewrite get_set_eq. simpl default. split.
      * rewrite list_elem_of_filter. tauto.
      * intros ty n Hne.
        destruct (decide (ty = element_type)) as [->|Hty'].
        -- rewrite get_set_eq, Hget. simpl default. rewrite list_elem_of_filter.
           split; [tauto|]. intros Hn. split; [congruence|done].
        -- rewrite get_set_ne; [done|]. by intros ?%element_type_name_inj.
    + exists root. rewrite Hget. done.
  - assert (Hc : PyDict.contains (element_type_name element_type) root = false).
    { apply contains_false. unfold PyDict.keys. by apply get_None. }
    rewrite Hc, andb_true_r.
    destruct (decide (element_type = LABELS)) as [->|Hlabels].
    + rewrite bool_decide_eq_true_2 by done.
      rewrite (bool_decide_eq_false_2 (LABELS ≠ LABELS)) by (intros H; by apply H).
      cbn [negb]. cbn in Hget. cbn [element_type_name]. by rewrite Hget.
    + rewrite bool_decide_eq_false_2 by tauto.
      rewrite (bool_decide_eq_true_2 (element_type ≠ LABELS)) by done.
      rewrite get_set_eq.
      rewrite (bool_decide_eq_false_2 (name ∈ [])) by apply not_elem_of_nil.
      eexists. split; [done|]. rewrite get_set_eq. simpl default.
      split; [apply not_elem_of_nil|].
      intros ty n _.
      destruct (decide (ty = element_type)) as [->|Hty'].
      * by rewrite get_set_eq, Hget.
      * rewrite get_set_ne; [done|]. by intros ?%element_type_name_inj.
Qed.

Lemma init_add_element_keeps_witness :
  ∃ root',
    _init_add_element "image0" IMAGES false [("images", ["image0"])]
    = (if bool_decide ("image0" ∈ group_members IMAGES [("images", ["image0"])])
       then inl (ValueError ("Element " +:+ "image0" +:+
                             " already exists, use overwrite=True to overwrite it"))
       else inr (), root') ∧
    ("image0" ∈ group_members IMAGES [("images", ["image0"])] →
     root' = [("images", ["image0"])]) ∧
    ∀ ty, group_members ty root' = group_members ty [("images", ["image0"])].
Proof.
  apply (init_add_element_keeps IMAGES "image0" [("images", ["image0"])]). discriminate.
Defined.

Lemma init_add_element_overwrite_witness :
  _init_add_element "cells" LABELS true [] = (inl (UnboundLocalError "elem_group"), []).
Proof.
  apply (init_add_element_overwrite LABELS "cells" []). discriminate.
Defined.

(** ** The list of coordinate systems *)

Lemma NoDup_set_add x s : NoDup s → NoDup (set_add x s).
Proof.
  intros Hnd. unfold set_add. case_bool_decide as Hin; [done|].
  apply NoDup_app. split_and!; [done | | apply NoDup_singleton].
  intros y Hy ->%list_elem_of_singleton. done.
Qed.

Lemma NoDup_foldl_set_add ks acc :
  NoDup acc → NoDup (foldl (λ acc cs, set_add cs acc) acc ks).
Proof.
  revert acc. induction ks as [|k ks IH]; intros acc Hnd; [done|].
  simpl. apply IH. by apply NoDup_set_add.
Qed.

Lemma collect_coordinate_systems_NoDup locs acc w cs w' :
  NoDup acc → collect_coordinate_systems locs acc w = (inr cs, w') → NoDup cs.
Proof.
  revert acc. induction locs as [|l locs IH]; intros acc Hnd Hrun.
  - by injection Hrun as <- _.
  - simpl in Hrun. unfold mbind, ST_bind in Hrun.
    destruct (get_transformation_all l w) as [[e|t] w1] eqn:Hget; [done|].
    assert (w1 = w) as ->.
    { unfold get_transformation_all in Hget. destruct (heap w !! l); by injection Hget. }
    eapply IH; [|exact Hrun]. by apply NoDup_foldl_set_add.
Qed.

(** X10: [coordinate_systems] returns, without changing anything, a list
    in which no name occurs twice and whose names are exactly those that
    key a transformation of some spatial element of the container. *)
Theorem coordinate_systems_exact self w :
  objects_exist self w →
  ∃ cs, coordinate_systems self w = (inr cs, w) ∧
        NoDup cs ∧
        ∀ k, k ∈ cs ↔ live self w k.
Proof.
  intros Hok. destruct (coordinate_systems_spec self w Hok) as (cs & Hrun & Hk).
  exists cs. split_and!; [done | | done].
  eapply collect_coordinate_systems_NoDup; [apply NoDup_nil_2 | exact Hrun].
Qed.

Lemma coordinate_systems_exact_witness :
  ∃ cs, coordinate_systems Samples.sdata_annotated Samples.world3
        = (inr cs, Samples.world3) ∧
        NoDup cs ∧
        ∀ k, k ∈ cs ↔ live Samples.sdata_annotated Samples.world3 k.
Proof.
  apply (coordinate_systems_exact Samples.sdata_annotated Samples.world3).
  apply (bool_decide_unpack _). vm_compute. exact I.
Defined.

(** ** Renaming in general *)

Lemma check_rename_dict_exact old_names new_names items :
  check_rename_dict old_names new_names items = inr () ↔
  Forall (λ on, on.1 ∈ old_names) items ∧
  NoDup items.*2 ∧
  Forall (λ on, on.2 ∉ new_names) items.
Proof.
  revert new_names. induction items as [|[o n] items IH]; intros new_names.
  - simpl. split; [intros _|done]. split_and!; [done | apply NoDup_nil_2 | done].
  - cbn [check_rename_dict]. rewrite !Forall_cons. cbn [fmap list_fmap fst snd].
    rewrite NoDup_cons.
    case_bool_decide as Ho.
    { split; [done|]. intros [[Ho' _] _]. done. }
    case_bool_decide as Hn.
    { split; [done|]. intros (_ & _ & Hn' & _). done. }
    rewrite IH.
    split.
    + intros (Hold & Hnd & Hnew). split_and!; try done.
      * intros Hin. apply list_elem_of_fmap in Hin as ([o' n'] & -> & Hin).
        rewrite Forall_forall in Hnew. apply (Hnew _ Hin).
        apply elem_of_app. right. left.
      * eapply Forall_impl; [exact Hnew|]. intros [o' n'] Hnot Hin. apply Hnot.
        apply elem_of_app. by left.
    + intros ([_ Hold] & [Hfresh Hnd] & [_ Hnew]). split_and!; try done.
      apply Forall_forall. intros [o' n'] Hin. cbn.
      rewrite elem_of_app, list_elem_of_singleton. intros [Hin'| ->].
      * rewrite Forall_forall in Hnew. by apply (Hnew _ Hin).
      * apply Hfresh. apply list_elem_of_fmap. by exists (o', n).
Qed.

Section RenameFacts.
Variable sha1_urandom : nat → N.

Lemma add_random_suffixes_total items :
  ∀ T S w, ∃ T' S' w',
    add_random_suffixes sha1_urandom items T S w = (inr (T', S'), w') ∧
    heap w' = heap w ∧ warnings w' = warnings w.
Proof.
  induction items as [|[o n] items IH]; intros T S w.
  - by exists T, S, w.
  - cbn [add_random_suffixes]. destruct (PyDict.get o T) as [t|]; [|apply IH].
    unfold mbind, ST_bind, random_suffix.
    edestruct IH as (T' & S' & w' & -> & Hh & Hw). by exists T', S', w'.
Qed.

Lemma add_random_suffixes_noop items T S w :
  (∀ k, k ∈ PyDict.keys items → k ∉ PyDict.keys T) →
  add_random_suffixes sha1_urandom items T S w = (inr (T, S), w).
Proof.
  induction items as [|[o n] items IH]; intros Hno; [done|].
  cbn [add_random_suffixes].
  assert (Ho : PyDict.get o T = None) by (apply get_None, Hno; left).
  rewrite Ho. apply IH. intros k Hk. apply Hno. by right.
Qed.

Lemma remove_random_suffixes_nil entries :
  PyDict.wf entries → remove_random_suffixes entries [] [] = entries.
Proof.
  intros Hwf. rewrite remove_random_suffixes_foldl by done.
  rewrite <- (dict_literal_wf entries Hwf) at 2. unfold dict_literal.
  apply foldl_ext_elem. intros [k v] acc _. cbn.
  rewrite strip_placeholder_notin; [done | apply not_elem_of_nil].
Qed.

Lemma remove_random_suffixes_wf entries S :
  PyDict.wf entries → PyDict.wf (remove_random_suffixes entries S []).
Proof.
  intros Hwf. rewrite remove_random_suffixes_foldl by done.
  generalize (@wf_nil BaseTransformation).
  generalize (@nil (string * BaseTransformation)).
  induction entries as [|[k v] entries IH]; intros acc Hacc; [done|].
  cbn. apply IH.
  - unfold PyDict.wf in *. by apply NoDup_cons in Hwf as [_ ?].
  - by apply wf_set.
Qed.

(** Renaming one element replaces its mapping and nothing else. *)
Lemma rename_element_total rename_dict l e w :
  heap w !! l = Some e →
  ∃ w' d',
    rename_element sha1_urandom rename_dict l w = (inr (), w') ∧
    heap w' = <[l := mkSpatialElement (payload e) d']> (heap w) ∧
    warnings w' = warnings w.
Proof.
  intros He. unfold rename_element.
  rewrite (bind_inr _ _ _ _ _ (get_transformation_all_Some _ _ _ He)).
  destruct (add_random_suffixes_total rename_dict (transformations e) [] w)
    as (T2 & S2 & w1 & Hrun & Hheap & Hwarn).
  rewrite (bind_inr _ _ _ _ _ Hrun).
  assert (He1 : heap w1 !! l = Some e) by by rewrite Hheap.
  rewrite (bind_inr _ _ _ _ _ (set_transformation_all_Some _ _ T2 _ He1)).
  assert (Hl : l < length (heap w1)) by by eapply lookup_lt_Some.
  rewrite (set_transformation_all_Some l (mkSpatialElement (payload e) T2));
    [|by apply list_lookup_insert_eq].
  cbn [heap warnings draws payload].
  eexists _, _. split; [reflexivity|]. cbn [heap warnings].
  by rewrite list_insert_insert_eq, Hheap.
Qed.

(** An element that has none of the renamed systems is left as it is. *)
Lemma rename_element_noop rename_dict l e w :
  heap w !! l = Some e →
  PyDict.wf (transformations e) →
  (∀ k, k ∈ PyDict.keys rename_dict → k ∉ PyDict.keys (transformations e)) →
  rename_element sha1_urandom rename_dict l w = (inr (), w).
Proof.
  intros He Hwf Hno. unfold rename_element.
  rewrite (bind_inr _ _ _ _ _ (get_transformation_all_Some _ _ _ He)).
  rewrite (bind_inr _ _ _ _ _ (add_random_suffixes_noop rename_dict _ [] w Hno)).
  rewrite (bind_inr _ _ _ _ _ (set_transformation_all_Some _ _ (transformations e) _ He)).
  assert (Hl : l < length (heap w)) by by eapply lookup_lt_Some.
  rewrite (set_transformation_all_Some l (mkSpatialElement (payload e) (transformations e)));
    [|by apply list_lookup_insert_eq].
  cbn [heap warnings draws payload].
  rewrite list_insert_insert_eq, remove_random_suffixes_nil by done.
  destruct e as [p T]. cbn [payload transformations].
  rewrite list_insert_id by done. by destruct w.
Qed.

Lemma for_each_rename_total rename_dict locs w :
  Forall (λ l, is_Some (heap w !! l)) locs →
  ∃ w',
    for_each locs (rename_element sha1_urandom rename_dict) w = (inr (), w') ∧
    warnings w' = warnings w ∧
    (∀ l e, heap w !! l = Some e →
            ∃ e', heap w' !! l = Some e' ∧ payload e' = payload e) ∧
    (∀ l, heap w !! l = None → heap w' !! l = None) ∧
    (∀ l, l ∉ locs → heap w' !! l = heap w !! l) ∧
    (∀ l e, heap w !! l = Some e →
            PyDict.wf (transformations e) →
            (∀ k, k ∈ PyDict.keys rename_dict → k ∉ PyDict.keys (transformations e)) →
            heap w' !! l = Some e).
Proof.
  revert w. induction locs as [|l locs IH]; intros w Hall.
  - exists w. split_and!; eauto.
  - apply Forall_cons in Hall as [[e He] Hall].
    destruct (rename_element_total rename_dict l e w He)
      as (w1 & d1 & Hrun & Hheap1 & Hwarn1).
    assert (Hl : l < length (heap w)) by by eapply lookup_lt_Some.
    assert (Hother : ∀ l', l' ≠ l → heap w1 !! l' = heap w !! l').
    { intros l' Hne. rewrite Hheap1. by apply list_lookup_insert_ne. }
    assert (Hself : heap w1 !! l = Some (mkSpatialElement (payload e) d1)).
    { rewrite Hheap1. by apply list_lookup_insert_eq. }
    destruct (IH w1) as (w' & Hrun' & Hwarn' & Hpay & Hnone & Hframe & Hkeep).
    { eapply Forall_impl; [exact Hall|]. intros l' [e' He'].
      destruct (decide (l' = l)) as [->|Hne]; [by rewrite Hself|].
      rewrite Hother by done. by eexists. }
    exists w'. cbn [for_each]. rewrite (bind_inr _ _ _ _ _ Hrun).
    split_and!; [done | congruence | | | |].
    + intros l' e' He'. destruct (decide (l' = l)) as [->|Hne].
      * pose proof (eq_trans (eq_sym He) He') as [= <-].
        destruct (Hpay _ _ Hself) as (e'' & ? & Hp). exists e''. split; [done|].
        by rewrite Hp.
      * apply Hpay. by rewrite Hother.
    + intros l' Hl'. apply Hnone. destruct (decide (l' = l)) as [->|Hne];
        [by pose proof (eq_trans (eq_sym He) Hl')|].
      by rewrite Hother.
    + intros l' [Hne Hnin]%not_elem_of_cons. rewrite Hframe, Hother; done.
    + intros l' e' He' Hwf Hno. destruct (decide (l' = l)) as [->|Hne].
      * pose proof (eq_trans (eq_sym He) He') as [= <-].
        rewrite (rename_element_noop rename_dict l e w He Hwf Hno) in Hrun.
        injection Hrun as <-. by apply Hkeep.
      * apply Hkeep; [|done..]. by rewrite Hother.
Qed.
End RenameFacts.
Lemma live_run self w cs k :
  coordinate_systems self w = (inr cs, w) → objects_exist self w →
  live self w k ↔ k ∈ cs.
Proof.
  intros Hrun Hok. destruct (coordinate_systems_spec self w Hok) as (cs' & Hrun' & Hlive).
  rewrite Hrun in Hrun'. injection Hrun' as <-. by rewrite Hlive.
Qed.

Section RenameTheorems.
Variable sha1_urandom : nat → N.

Lemma rename_accepted_check self w rename_dict cs :
  (∀ k, k ∈ cs ↔ live self w k) →
  rename_accepted self w rename_dict ↔
  check_rename_dict cs (filter (λ n, n ∉ PyDict.keys rename_dict) cs) rename_dict = inr ().
Proof.
  intros Hlive. rewrite check_rename_dict_exact. unfold rename_accepted.
  rewrite !Forall_forall.
  split; intros (Hsrc & Hnd & Htgt); split_and!; try done.
  - intros on Hon. apply Hlive. by apply Hsrc.
  - intros on Hon [Hnot Hin]%list_elem_of_filter. apply Hnot, (Htgt _ Hon).
    by apply Hlive.
  - intros on Hon. apply Hlive. by apply Hsrc.
  - intros on Hon Hl. destruct (decide (on.2 ∈ PyDict.keys rename_dict)) as [|Hnot]; [done|].
    exfalso. apply (Htgt _ Hon). apply list_elem_of_filter. split; [done|]. by apply Hlive.
Qed.

(** X11: [rename_coordinate_systems] returns exactly when every source is
    a live name, no target is given twice and every target that is a live
    name is itself a source; in every other case it raises [ValueError] and
    nothing has changed. *)
Theorem rename_coordinate_systems_accepted_iff self rename_dict w :
  objects_exist self w →
  match rename_coordinate_systems sha1_urandom self rename_dict w with
  | (inr _, _) => rename_accepted self w rename_dict
  | (inl e, w') =>
      is_ValueError e = true ∧ w' = w ∧ ¬ rename_accepted self w rename_dict
  end.
Proof.
  intros Hok. unfold rename_coordinate_systems.
  destruct (coordinate_systems_spec self w Hok) as (cs & Hcs & Hlive).
  rewrite (bind_inr _ _ _ _ _ Hcs).
  pose proof (rename_accepted_check self w rename_dict cs Hlive) as Hacc.
  destruct (check_rename_dict cs (filter (λ n, n ∉ PyDict.keys rename_dict) cs) rename_dict)
    as [e|[]] eqn:Hcheck.
  - unfold mbind, ST_bind, lift_result. split_and!; [|done|].
    + by eapply check_rename_dict_ValueError.
    + rewrite Hacc. done.
  - destruct (for_each_rename_total sha1_urandom rename_dict _ w Hok) as (w' & Hrun & _).
    unfold mbind, ST_bind, lift_result. unfold mbind, ST_bind in Hrun.
    rewrite Hrun. by apply Hacc.
Qed.

(** X12: an accepted renaming returns without a warning; it changes no
    payload, no object outside the container, and no element that has none
    of the renamed systems. *)
Theorem rename_coordinate_systems_frame self rename_dict w :
  objects_exist self w →
  rename_accepted self w rename_dict →
  ∃ w',
    rename_coordinate_systems sha1_urandom self rename_dict w = (inr (), w') ∧
    warnings w' = warnings w ∧
    (∀ l e, heap w !! l = Some e →
            ∃ e', heap w' !! l = Some e' ∧ payload e' = payload e) ∧
    (∀ l, l ∉ _gen_spatial_element_values self → heap w' !! l = heap w !! l) ∧
    (∀ l e, heap w !! l = Some e →
            PyDict.wf (transformations e) →
            (∀ k, k ∈ PyDict.keys rename_dict → k ∉ PyDict.keys (transformations e)) →
            heap w' !! l = Some e).
Proof.
  intros Hok Hacc. unfold rename_coordinate_systems.
  destruct (coordinate_systems_spec self w Hok) as (cs & Hcs & Hlive).
  rewrite (bind_inr _ _ _ _ _ Hcs).
  apply (rename_accepted_check self w rename_dict cs Hlive) in Hacc.
  destruct (for_each_rename_total sha1_urandom rename_dict _ w Hok)
    as (w' & Hrun & Hwarn & Hpay & _ & Hframe & Hkeep).
  exists w'. split_and!; [|done..].
  unfold mbind, ST_bind, lift_result. by rewrite Hacc.
Qed.
End RenameTheorems.

Lemma rename_coordinate_systems_accepted_iff_witness :
  objects_exist Samples.sdata Samples.world ∧
  match rename_coordinate_systems (λ _, 1%N) Samples.sdata [("A", "C"); ("B", "C")]
          Samples.world with
  | (inr _, _) => rename_accepted Samples.sdata Samples.world [("A", "C"); ("B", "C")]
  | (inl e, w') =>
      is_ValueError e = true ∧ w' = Samples.world ∧
      ¬ rename_accepted Samples.sdata Samples.world [("A", "C"); ("B", "C")]
  end.
Proof.
  assert (Hok : objects_exist Samples.sdata Samples.world).
  { repeat constructor; eexists; reflexivity. }
  split; [exact Hok|].
  exact (rename_coordinate_systems_accepted_iff (λ _, 1%N) Samples.sdata
           [("A", "C"); ("B", "C")] Samples.world Hok).
Defined.

Lemma rename_coordinate_systems_frame_witness :
  objects_exist Samples.sdata_annotated Samples.world3 ∧
  rename_accepted Samples.sdata_annotated Samples.world3 [("C", "D")] ∧
  ∃ w',
    rename_coordinate_systems (λ _, 1%N) Samples.sdata_annotated [("C", "D")]
      Samples.world3 = (inr (), w') ∧
    heap w' !! 0 = Some Samples.element0.
Proof.
  assert (Hok : objects_exist Samples.sdata_annotated Samples.world3).
  { repeat constructor; eexists; reflexivity. }
  assert (Hlive : ∀ k, live Samples.sdata_annotated Samples.world3 k
                       ↔ k ∈ ["A"; "B"; "B00000000"; "C"]).
  { intros k. apply live_run; [reflexivity | exact Hok]. }
  assert (Hacc : rename_accepted Samples.sdata_annotated Samples.world3 [("C", "D")]).
  { split_and!.
    - apply Forall_cons_2; [|apply Forall_nil_2]. cbn [fst].
      apply (proj2 (Hlive "C")). by_computation.
    - by_computation.
    - apply Forall_cons_2; [|apply Forall_nil_2]. cbn [snd].
      intros Hd. apply (proj1 (Hlive "D")) in Hd.
      exfalso. revert Hd. by_computation. }
  split_and!; [exact Hok | exact Hacc |].
  destruct (rename_coordinate_systems_frame (λ _, 1%N) Samples.sdata_annotated
              [("C", "D")] Samples.world3 Hok Hacc)
    as (w' & Hrun & _ & _ & _ & Hkeep).
  exists w'. split; [exact Hrun|].
  apply Hkeep; [reflexivity | by_computation |].
  intros k Hk. apply list_elem_of_singleton in Hk as ->. by_computation.
Defined.

(** ** Renaming one coordinate system *)

Section RenameSingle.
Variable sha1_urandom : nat → N.
Variables old_cs new_cs : string.
Hypothesis Hne : old_cs ≠ new_cs.

Lemma moved_entry_absent {V} (d : list (string * V)) k :
  PyDict.get old_cs d = None → new_cs ∉ PyDict.keys d →
  moved_entry old_cs new_cs d k = PyDict.get k d.
Proof.
  intros Hold Hnew. unfold moved_entry. repeat case_decide; subst; try done.
  symmetry. rewrite Hold. by apply get_None.
Qed.

Lemma remove_random_suffixes_single T t sfx :
  PyDict.wf T →
  String.length sfx = 8 →
  PyDict.get old_cs T = Some t →
  new_cs ∉ PyDict.keys T →
  new_cs +:+ sfx ∉ PyDict.keys T →
  ∀ k, PyDict.get k
         (remove_random_suffixes
            (PyDict.set (new_cs +:+ sfx) t (PyDict.remove old_cs T))
            [new_cs +:+ sfx] [])
       = moved_entry old_cs new_cs T k.
Proof.
  intros Hwf Hlen Hold Hnew Hfresh k.
  assert (Hwf2 : PyDict.wf (PyDict.set (new_cs +:+ sfx) t (PyDict.remove old_cs T)))
    by by apply wf_set, wf_remove.
  rewrite remove_random_suffixes_foldl by done.
  set (S := [new_cs +:+ sfx]).
  set (T2 := PyDict.set (new_cs +:+ sfx) t (PyDict.remove old_cs T)) in *.
  assert (Hkeys2 : ∀ k2, k2 ∈ T2.*1 ↔ k2 = new_cs +:+ sfx ∨ (k2 ≠ old_cs ∧ k2 ∈ T.*1)).
  { intros k2. unfold T2. by rewrite elem_of_keys_set, elem_of_keys_remove. }
  assert (Hstrip_new : strip_placeholder S (new_cs +:+ sfx) = new_cs).
  { apply strip_placeholder_in; [done | left]. }
  assert (Hstrip_other : ∀ k2, k2 ∈ T.*1 → strip_placeholder S k2 = k2).
  { intros k2 Hk2. apply strip_placeholder_notin.
    intros ->%list_elem_of_singleton. by apply Hfresh. }
  assert (Hinj : ∀ k1 k2, k1 ∈ T2.*1 → k2 ∈ T2.*1 →
                          strip_placeholder S k1 = strip_placeholder S k2 → k1 = k2).
  { intros k1 k2 [->|[_ H1]]%Hkeys2 [->|[_ H2]]%Hkeys2; [done| | |].
    - rewrite Hstrip_new, (Hstrip_other _ H2). intros <-. by destruct Hnew.
    - rewrite Hstrip_new, (Hstrip_other _ H1). intros ->. by destruct Hnew.
    - by rewrite (Hstrip_other _ H1), (Hstrip_other _ H2). }
  unfold moved_entry. destruct (decide (k = new_cs)) as [->|Hknew].
  { rewrite Hold, <- Hstrip_new. apply get_foldl_set_hit; [done | done |].
    apply get_Some_elem. unfold T2. apply get_set_eq. }
  destruct (decide (k = old_cs)) as [->|Hkold].
  { rewrite get_foldl_set_miss; [done|]. intros k2 [->|[Hk2 Hin]]%Hkeys2.
    - by rewrite Hstrip_new.
    - by rewrite (Hstrip_other _ Hin). }
  destruct (PyDict.get k T) as [v|] eqn:Hk.
  - assert (Hin : k ∈ T.*1) by (apply elem_of_keys_get; by rewrite Hk).
    rewrite <- (Hstrip_other k Hin). apply get_foldl_set_hit; [done | done |].
    apply get_Some_elem. unfold T2. rewrite get_set_ne, get_remove_ne; [done..|].
    intros ->. by apply Hfresh.
  - rewrite get_foldl_set_miss; [done|]. intros k2 [->|[Hk2 Hin]]%Hkeys2.
    + by rewrite Hstrip_new.
    + rewrite (Hstrip_other _ Hin). intros ->. apply get_None in Hk. done.
Qed.

Lemma rename_element_single l e w t :
  heap w !! l = Some e →
  ready_to_move sha1_urandom new_cs e →
  PyDict.get old_cs (transformations e) = Some t →
  ∃ w' e',
    rename_element sha1_urandom [(old_cs, new_cs)] l w = (inr (), w') ∧
    heap w' = <[l := e']> (heap w) ∧
    warnings w' = warnings w ∧
    moved_element old_cs new_cs e e'.
Proof.
  intros He (Hwf & Hnew & Hfresh) Hold. unfold rename_element.
  rewrite (bind_inr _ _ _ _ _ (get_transformation_all_Some _ _ _ He)).
  cbn [add_random_suffixes]. rewrite Hold.
  set (sfx := hexdigest8 (sha1_urandom (draws w))).
  set (T2 := PyDict.set (new_cs +:+ sfx) t (PyDict.remove old_cs (transformations e))).
  set (w1 := mkWorld (heap w) (warnings w) (S (draws w))).
  assert (Hadd : (suffix ← random_suffix sha1_urandom;
                  mret (PyDict.set (new_cs +:+ suffix) t
                          (PyDict.remove old_cs (transformations e)),
                        set_add (new_cs +:+ suffix) [])) w
                 = (inr (T2, set_add (new_cs +:+ sfx) []), w1)) by done.
  rewrite (bind_inr _ _ _ _ _ Hadd).
  assert (He1 : heap w1 !! l = Some e) by done.
  rewrite (bind_inr _ _ _ _ _ (set_transformation_all_Some _ _ T2 _ He1)).
  assert (Hl : l < length (heap w1)) by by eapply lookup_lt_Some.
  rewrite (set_transformation_all_Some l (mkSpatialElement (payload e) T2));
    [|by apply list_lookup_insert_eq].
  cbn [heap warnings draws payload].
  eexists _, _. split; [reflexivity|]. cbn [heap warnings].
  rewrite list_insert_insert_eq. split; [done|]. split; [done|].
  unfold moved_element. split; [done|]. split.
  - cbn [transformations]. apply remove_random_suffixes_wf.
    by apply wf_set, wf_remove.
  - cbn [transformations]. unfold set_add.
    rewrite bool_decide_eq_false_2 by apply not_elem_of_nil. cbn [app].
    apply remove_random_suffixes_single; [done | apply length_hexdigest8 | done..|].
    apply Hfresh.
Qed.

Lemma moved_entry_old {V} (d : list (string * V)) :
  moved_entry old_cs new_cs d old_cs = None.
Proof. unfold moved_entry. rewrite decide_False, decide_True; done. Qed.

Lemma for_each_rename_single w0 locs :
  ∀ w,
  Forall (λ l, ∃ e0 e, heap w0 !! l = Some e0 ∧
                       ready_to_move sha1_urandom new_cs e0 ∧
                       heap w !! l = Some e ∧
                       (e = e0 ∨ moved_element old_cs new_cs e0 e)) locs →
  ∃ w',
    for_each locs (rename_element sha1_urandom [(old_cs, new_cs)]) w = (inr (), w') ∧
    warnings w' = warnings w ∧
    (∀ l e0 e, heap w0 !! l = Some e0 → heap w !! l = Some e →
               moved_element old_cs new_cs e0 e → heap w' !! l = Some e) ∧
    Forall (λ l, ∃ e0 e', heap w0 !! l = Some e0 ∧ heap w' !! l = Some e' ∧
                          moved_element old_cs new_cs e0 e') locs.
Proof.
  induction locs as [|l locs IH]; intros w Hall.
  - exists w. split_and!; [done | done | by intros | done].
  - apply Forall_cons in Hall as [(e0 & e & H0 & Hready & He & Hst) Hall].
    destruct (PyDict.get old_cs (transformations e)) as [t|] eqn:Hold.
    + assert (e = e0) as ->.
      { destruct Hst as [?|(_ & _ & Hm)]; [done|].
        rewrite Hm, moved_entry_old in Hold. done. }
      destruct (rename_element_single l e0 w t He Hready Hold)
        as (w1 & e1 & Hrun & Hheap1 & Hwarn1 & Hmoved).
      assert (Hl : l < length (heap w)) by by eapply lookup_lt_Some.
      assert (Hother : ∀ l', l' ≠ l → heap w1 !! l' = heap w !! l').
      { intros l' Hl'. rewrite Hheap1. by apply list_lookup_insert_ne. }
      assert (Hself : heap w1 !! l = Some e1).
      { rewrite Hheap1. by apply list_lookup_insert_eq. }
      destruct (IH w1) as (w' & Hrun' & Hwarn' & Hstable & Hdone).
      { eapply Forall_impl; [exact Hall|]. intros l' (e0' & e' & H0' & Hready' & He' & Hst').
        destruct (decide (l' = l)) as [->|Hl'].
        - pose proof (eq_trans (eq_sym H0) H0') as [= <-].
          exists e0, e1. split_and!; [done | done | done | by right].
        - exists e0', e'. rewrite Hother by done. done. }
      exists w'. cbn [for_each]. rewrite (bind_inr _ _ _ _ _ Hrun).
      split_and!; [done | congruence | |].
      * intros l' e0' e' H0' He' Hm'. destruct (decide (l' = l)) as [->|Hl'].
        -- pose proof (eq_trans (eq_sym He) He') as [= <-].
           destruct Hm' as (_ & _ & Hm'). rewrite Hm', moved_entry_old in Hold. done.
        -- apply (Hstable l' e0' e'); [done | by rewrite Hother | done].
      * apply Forall_cons. split; [|done].
        exists e0, e1. split_and!; [done | by apply (Hstable l e0 e1) | done].
    + assert (Hm : moved_element old_cs new_cs e0 e).
      { destruct Hst as [->|?]; [|done]. destruct Hready as (Hwf & Hnew & _).
        split_and!; [done | done |]. intros k. symmetry. by apply moved_entry_absent. }
      assert (Hrun : rename_element sha1_urandom [(old_cs, new_cs)] l w = (inr (), w)).
      { apply (rename_element_noop sha1_urandom _ l e w He); [apply Hm|].
        intros k ->%list_elem_of_singleton. by apply get_None. }
      destruct (IH w Hall) as (w' & Hrun' & Hwarn' & Hstable & Hdone).
      exists w'. cbn [for_each]. rewrite (bind_inr _ _ _ _ _ Hrun).
      split_and!; [done | done | done |].
      apply Forall_cons. split; [|done].
      exists e0, e. split_and!; [done | by apply (Hstable l e0 e) | done].
Qed.
End RenameSingle.

(** The renaming of one system, with what it leaves behind: the new
    mappings are dictionaries again. *)
Lemma rename_single_run sha1_urandom self old_cs new_cs w :
  objects_exist self w →
  mappings_wf self w →
  placeholders_fresh_in sha1_urandom self w new_cs →
  live self w old_cs →
  ¬ live self w new_cs →
  ∃ w',
    rename_coordinate_systems sha1_urandom self [(old_cs, new_cs)] w = (inr (), w') ∧
    warnings w' = warnings w ∧
    Forall (λ l, ∃ e e', heap w !! l = Some e ∧ heap w' !! l = Some e' ∧
                         payload e' = payload e ∧
                         PyDict.wf (transformations e') ∧
                         ∀ k, PyDict.get k (transformations e')
                              = moved_entry old_cs new_cs (transformations e) k)
           (_gen_spatial_element_values self) ∧
    ¬ live self w' old_cs ∧
    live self w' new_cs.
Proof.
  intros Hok Hwf Hfresh Hold Hnew.
  assert (Hne : old_cs ≠ new_cs) by (intros ->; done).
  unfold rename_coordinate_systems.
  destruct (coordinate_systems_spec self w Hok) as (cs & Hcs & Hlive).
  rewrite (bind_inr _ _ _ _ _ Hcs).
  assert (Hcheck : check_rename_dict cs
            (filter (λ n, n ∉ PyDict.keys [(old_cs, new_cs)]) cs) [(old_cs, new_cs)]
          = inr ()).
  { apply check_rename_dict_exact. split_and!.
    - apply Forall_cons_2; [|apply Forall_nil_2]. by apply Hlive.
    - apply NoDup_singleton.
    - apply Forall_cons_2; [|apply Forall_nil_2].
      intros [_ Hin]%list_elem_of_filter. apply Hnew. by apply Hlive. }
  destruct (for_each_rename_single sha1_urandom old_cs new_cs Hne w
              (_gen_spatial_element_values self) w)
    as (w' & Hrun & Hwarn & _ & Hdone).
  { unfold objects_exist, mappings_wf, placeholders_fresh_in in *.
    rewrite Forall_forall in Hok, Hwf, Hfresh. apply Forall_forall. intros l Hl.
    destruct (Hok l Hl) as [e He]. exists e, e.
    split; [done|]. split; [|split; [done | by left]].
    split; [by apply (Hwf l Hl)|]. split; [|by apply (Hfresh l Hl)].
    intros Hin. apply Hnew. apply Exists_exists. exists l. split; [done|]. by exists e. }
  exists w'. split_and!.
  - unfold mbind, ST_bind, lift_result. rewrite Hcheck. exact Hrun.
  - done.
  - eapply Forall_impl; [exact Hdone|]. intros l (e0 & e' & H0 & He' & Hp & Hwf' & Hm).
    by exists e0, e'.
  - intros (l & Hl & e' & He' & Hin)%Exists_exists.
    rewrite Forall_forall in Hdone.
    destruct (Hdone l Hl) as (e0 & e'' & H0 & He'' & _ & _ & Hm).
    pose proof (eq_trans (eq_sym He') He'') as [= <-].
    apply elem_of_keys_get in Hin as [t Ht].
    rewrite Hm, moved_entry_old in Ht; done.
  - apply Exists_exists in Hold as (l & Hl & e & He & Hin).
    rewrite Forall_forall in Hdone.
    destruct (Hdone l Hl) as (e0 & e' & H0 & He' & _ & _ & Hm).
    pose proof (eq_trans (eq_sym He) H0) as [= <-].
    apply Exists_exists. exists l. split; [done|]. exists e'. split; [done|].
    apply elem_of_keys_get. rewrite Hm. unfold moved_entry. rewrite decide_True by done.
    by apply elem_of_keys_get.
Qed.

(** X13: renaming one live coordinate system to a name that is not live
    moves, in every element, the entry of the old name to the new name and
    keeps every other entry and the payload; this also holds when one object
    is registered under several names. Afterwards the old name is not live
    and the new one is. No placeholder of the run may already be a key. *)
Theorem rename_coordinate_systems_single sha1_urandom self old_cs new_cs w :
  objects_exist self w →
  mappings_wf self w →
  placeholders_fresh_in sha1_urandom self w new_cs →
  live self w old_cs →
  ¬ live self w new_cs →
  ∃ w',
    rename_coordinate_systems sha1_urandom self [(old_cs, new_cs)] w = (inr (), w') ∧
    warnings w' = warnings w ∧
    Forall (λ l, ∃ e e', heap w !! l = Some e ∧ heap w' !! l = Some e' ∧
                         payload e' = payload e ∧
                         ∀ k, PyDict.get k (transformations e')
                              = moved_entry old_cs new_cs (transformations e) k)
           (_gen_spatial_element_values self) ∧
    ¬ live self w' old_cs ∧
    live self w' new_cs.
Proof.
  intros Hok Hwf Hfresh Hold Hnew.
  destruct (rename_single_run sha1_urandom self old_cs new_cs w Hok Hwf Hfresh Hold Hnew)
    as (w' & Hrun & Hwarn & Hdone & Hgone & Hthere).
  exists w'. split_and!; [done | done | | done | done].
  eapply Forall_impl; [exact Hdone|]. intros l (e & e' & He & He' & Hp & _ & Hm).
  by exists e, e'.
Qed.

Lemma rename_coordinate_systems_single_witness :
  objects_exist Samples.sdata_aliased Samples.world ∧
  mappings_wf Samples.sdata_aliased Samples.world ∧
  placeholders_fresh_in (λ _, 1%N) Samples.sdata_aliased Samples.world "C" ∧
  live Samples.sdata_aliased Samples.world "A" ∧
  ¬ live Samples.sdata_aliased Samples.world "C" ∧
  ∃ w',
    rename_coordinate_systems (λ _, 1%N) Samples.sdata_aliased [("A", "C")] Samples.world
      = (inr (), w') ∧
    ¬ live Samples.sdata_aliased w' "A" ∧
    live Samples.sdata_aliased w' "C".
Proof.
  assert (Hok : objects_exist Samples.sdata_aliased Samples.world).
  { repeat constructor; eexists; reflexivity. }
  assert (Hwf : mappings_wf Samples.sdata_aliased Samples.world).
  { repeat constructor; intros e [= <-]; by_computation. }
  assert (Hf : placeholders_fresh_in (λ _, 1%N) Samples.sdata_aliased Samples.world "C").
  { repeat constructor; intros e [= <-] n; by_computation. }
  assert (Hlive : ∀ k, live Samples.sdata_aliased Samples.world k ↔ k ∈ ["A"; "B"]).
  { intros k. apply live_run; [reflexivity | exact Hok]. }
  assert (Ha : live Samples.sdata_aliased Samples.world "A").
  { apply (proj2 (Hlive "A")). by_computation. }
  assert (Hc : ¬ live Samples.sdata_aliased Samples.world "C").
  { intros Hc. apply (proj1 (Hlive "C")) in Hc. revert Hc. by_computation. }
  split_and!; try assumption.
  destruct (rename_coordinate_systems_single (λ _, 1%N) Samples.sdata_aliased "A" "C"
              Samples.world Hok Hwf Hf Ha Hc) as (w' & Hrun & _ & _ & Hold & Hnew).
  by exists w'.
Defined.

(** ** Annotation targets, further *)

Lemma set_same {V} k (v : V) d : PyDict.get k d = Some v → PyDict.set k v d = d.
Proof.
  induction d as [|[k' v'] d IH]; [done|]. simpl.
  case_decide as Hk; [intros [= ->]; by subst|]. intros Hget. by rewrite IH.
Qed.

Lemma set_tables_same self k v :
  PyDict.get k (tables self) = Some v →
  mkSpatialData (_path self) (images self) (labels self) (points self) (shapes self)
    (PyDict.set k v (tables self)) = self.
Proof. intros Hget. rewrite (set_same _ _ _ Hget). by destruct self. Qed.

Lemma set_table_annotation_target_run table region region_key instance_key :
  match _set_table_annotation_target region region_key instance_key table with
  | (inl e, table') =>
      is_ValueError e = true ∧ table' = table ∧
      annotation_target_refused table region region_key instance_key
  | (inr _, table') =>
      ¬ annotation_target_refused table region region_key instance_key ∧
      table' = mkAnnData (obs table) (X table)
                 (Some (mkAttrs (Some region) (Some region_key) (Some instance_key)))
  end.
Proof.
  unfold _set_table_annotation_target, annotation_target_refused.
  destruct (PyDict.contains region_key (obs table)) eqn:Hrk; simpl.
  2:{ apply contains_false in Hrk. auto. }
  destruct (PyDict.contains instance_key (obs table)) eqn:Hik; simpl.
  2:{ apply contains_false in Hik. auto. }
  apply contains_true in Hrk, Hik.
  destruct (PyDict.get region_key (obs table)) as [column|] eqn:Hcol.
  2:{ apply get_None in Hcol. done. }
  case_bool_decide as Hall.
  - split_and!; [|done..]. intros [?|[?|(col & c & Hc & Hin & Hnot)]]; [done..|].
    injection Hc as <-.
    rewrite Forall_forall in Hall. auto.
  - split_and!; [done..|]. right. right.
    apply not_Forall_Exists in Hall; [|apply _].
    apply Exists_exists in Hall as (c & Hin & Hnot). eauto.
Qed.

Section TableExtras.
Variable TableModel_validate : AnnData → exn + unit.
Variable _validate_set_instance_key : option string → ST AnnData unit.

(** X14: for a table that passes the schema validation and declares a
    region, [validate_table_in_spatialdata] returns and leaves the heap as
    it was; it leaves everything as it was exactly when every declared
    region is the name of a spatial element of the container. *)
Theorem validate_table_in_spatialdata_quiet_iff self data attrs region w :
  TableModel_validate data = inr () →
  uns_ATTRS_KEY data = Some attrs →
  REGION_KEY attrs = Some region →
  ∃ w',
    validate_table_in_spatialdata TableModel_validate self data w = (inr (), w') ∧
    heap w' = heap w ∧
    (w' = w ↔ Forall (λ name, name ∈ spatial_element_names self) (region_names region)).
Proof.
  intros Hvalid Hattrs Hregion. unfold validate_table_in_spatialdata.
  unfold mbind, ST_bind, lift_result. rewrite Hvalid, Hattrs, Hregion.
  rewrite (proj1 (gen_elements_names self)).
  case_bool_decide as Hall.
  - exists w. by split_and!.
  - eexists. split; [reflexivity|]. split; [done|].
    split; [|done]. intros Heq. apply (f_equal warnings) in Heq. cbn in Heq.
    apply (f_equal length) in Heq. rewrite length_app in Heq. cbn in Heq. lia.
Qed.

(** X15: for a table that the container holds under one name only, that
    has no annotation metadata, and a region that is the name of a spatial
    element, [set_table_annotates_spatialelement] with both keys raises
    [ValueError] and leaves the container as it was when a key column is
    missing or the region column holds another value; otherwise it returns,
    the table of that name carries the triple region, region_key,
    instance_key, and nothing else of the container has changed. The call
    changes the table object in place, so a table registered under a second
    name would change there too: the statement is for a table that no other
    name of the container holds. *)
Theorem set_table_annotates_spatialelement_first
    self table_name table name region_key instance_key :
  PyDict.get table_name (tables self) = Some table →
  (∀ other, other ≠ table_name → PyDict.get other (tables self) ≠ Some table) →
  attrs_truthy table = false →
  name ∈ spatial_element_names self →
  (annotation_target_refused table (RegionName name) region_key instance_key →
   ∃ msg, set_table_annotates_spatialelement _validate_set_instance_key table_name
            (RegionName name) (Some region_key) (Some instance_key) self
          = (inl (ValueError msg), self)) ∧
  (¬ annotation_target_refused table (RegionName name) region_key instance_key →
   set_table_annotates_spatialelement _validate_set_instance_key table_name
     (RegionName name) (Some region_key) (Some instance_key) self
   = (inr (),
      set_tables
        (PyDict.set table_name
           (mkAnnData (obs table) (X table)
              (Some (mkAttrs (Some (RegionName name)) (Some region_key)
                             (Some instance_key))))
           (tables self)) self)).
Proof.
  intros Htable _ Hattrs Hname. unfold set_table_annotates_spatialelement.
  rewrite Htable, (proj2 (gen_elements_names self)).
  rewrite bool_decide_eq_false_2 by (intros Hnot; done).
  rewrite Hattrs.
  pose proof (set_table_annotation_target_run table (RegionName name) region_key
                instance_key) as Hrun.
  destruct (_set_table_annotation_target (RegionName name) region_key instance_key table)
    as [[e|[]] table'].
  - destruct Hrun as (HV & -> & Hrefused). split; [|done]. intros _.
    destruct e; try done. exists msg. by rewrite set_tables_same.
  - destruct Hrun as (Hok & ->). split; [done|]. intros _. done.
Qed.

(** X16: [_change_table_annotation_target] uses the region_key given as
    argument, and the one of the annotation metadata when none is given;
    when there is none at all, or when it is not a column of [table.obs],
    it raises [ValueError] before anything is done to the table. *)
Theorem change_table_annotation_target_refuses
    table attrs region region_key instance_key :
  uns_ATTRS_KEY table = Some attrs →
  let used := if falsy region_key then REGION_KEY_KEY attrs else region_key in
  falsy used = true ∨ (∃ k, used = Some k ∧ k ∉ PyDict.keys (obs table)) →
  ∃ msg, _change_table_annotation_target _validate_set_instance_key
           region region_key instance_key table
         = (inl (ValueError msg), table).
Proof.
  intros Hattrs used Hbad. unfold _change_table_annotation_target. rewrite Hattrs.
  subst used. destruct (falsy region_key) eqn:Hrk.
  - destruct Hbad as [Hf|(k & Hk & Hnot)].
    + rewrite Hf. eauto.
    + destruct (falsy (REGION_KEY_KEY attrs)); [eauto|].
      rewrite Hk. cbn [from_option].
      apply contains_false in Hnot. rewrite Hnot. eauto.
  - destruct Hbad as [Hf|(k & Hk & Hnot)]; [congruence|].
    rewrite Hk. cbn [from_option].
    apply contains_false in Hnot. rewrite Hnot. eauto.
Qed.

(** X17: when [_change_table_annotation_target] returns, the annotation
    metadata names the new region, and its region_key is the one it had
    before: a region_key given as argument is tested but not recorded. The
    instance-key step is taken to leave the region_key entry alone. *)
Theorem change_table_annotation_target_region_key
    table table' region region_key instance_key :
  (∀ t t', _validate_set_instance_key instance_key t = (inr (), t') →
           REGION_KEY_KEY <$> uns_ATTRS_KEY t' = REGION_KEY_KEY <$> uns_ATTRS_KEY t) →
  _change_table_annotation_target _validate_set_instance_key
    region region_key instance_key table = (inr (), table') →
  ∃ attrs attrs',
    uns_ATTRS_KEY table = Some attrs ∧
    uns_ATTRS_KEY table' = Some attrs' ∧
    REGION_KEY attrs' = Some region ∧
    REGION_KEY_KEY attrs' = REGION_KEY_KEY attrs.
Proof.
  intros Hkeep Hrun. unfold _change_table_annotation_target in Hrun.
  destruct (uns_ATTRS_KEY table) as [attrs|] eqn:Hattrs; [|done].
  assert (Hbody :
    (_validate_set_instance_key instance_key;;
     inspect (λ table, check_target_region_column_symmetry table
                         (REGION_KEY_KEY attrs) region);;
     modify (set_attrs_region region)) table = (inr (), table')).
  { destruct (falsy region_key).
    - destruct (falsy (REGION_KEY_KEY attrs)); [done|].
      by destruct (negb _).
    - by destruct (negb _). }
  clear Hrun. unfold mbind, ST_bind in Hbody.
  destruct (_validate_set_instance_key instance_key table) as [[e|[]] t1] eqn:Hstep;
    [done|].
  apply Hkeep in Hstep. rewrite Hattrs in Hstep. cbn in Hstep.
  unfold inspect, modify in Hbody.
  destruct (check_target_region_column_symmetry t1 (REGION_KEY_KEY attrs) region)
    as [e|[]]; [done|].
  injection Hbody as <-. unfold set_attrs_region.
  destruct (uns_ATTRS_KEY t1) as [attrs1|]; [|done].
  injection Hstep as Hstep. cbn [uns_ATTRS_KEY].
  eexists attrs, _. split_and!; [done | reflexivity | done | done].
Qed.
End TableExtras.

Lemma validate_table_in_spatialdata_quiet_iff_witness :
  ∃ w',
    validate_table_in_spatialdata Samples.accept_all Samples.sdata_cells
      Samples.cells_annotating_table Samples.world = (inr (), w') ∧
    heap w' = heap Samples.world ∧
    (w' = Samples.world ↔
     Forall (λ name, name ∈ spatial_element_names Samples.sdata_cells)
            (region_names (RegionName "cells"))).
Proof.
  apply (validate_table_in_spatialdata_quiet_iff Samples.accept_all Samples.sdata_cells
           Samples.cells_annotating_table
           (mkAttrs (Some (RegionName "cells")) (Some "region") (Some "id"))
           (RegionName "cells") Samples.world); reflexivity.
Defined.

Lemma set_table_annotates_spatialelement_first_witness :
  (∀ other, other ≠ "table" →
            PyDict.get other (tables Samples.sdata_cells) ≠ Some Samples.cells_table) ∧
  ¬ annotation_target_refused Samples.cells_table (RegionName "cells") "region" "id" ∧
  set_table_annotates_spatialelement Samples.keep_instance_key "table"
    (RegionName "cells") (Some "region") (Some "id") Samples.sdata_cells
  = (inr (),
     set_tables
       (PyDict.set "table"
          (mkAnnData (obs Samples.cells_table) (X Samples.cells_table)
             (Some (mkAttrs (Some (RegionName "cells")) (Some "region") (Some "id"))))
          (tables Samples.sdata_cells)) Samples.sdata_cells).
Proof.
  assert (Hok : ¬ annotation_target_refused Samples.cells_table (RegionName "cells")
                    "region" "id").
  { intros [H|[H|(column & c & Hcol & Hin & Hnot)]].
    - revert H. by_computation.
    - revert H. by_computation.
    - injection Hcol as <-. apply Hnot.
      repeat (apply elem_of_cons in Hin as [->|Hin]); [left..|by apply elem_of_nil in Hin]. }
  assert (Hone : ∀ other, other ≠ "table" →
            PyDict.get other (tables Samples.sdata_cells) ≠ Some Samples.cells_table).
  { intros other Hother. cbn. by rewrite decide_False. }
  split; [exact Hone|]. split; [exact Hok|].
  apply (set_table_annotates_spatialelement_first Samples.keep_instance_key
           Samples.sdata_cells "table" Samples.cells_table "cells" "region" "id");
    [reflexivity | exact Hone | reflexivity | by_computation | exact Hok].
Defined.

Lemma change_table_annotation_target_refuses_witness :
  ∃ msg, _change_table_annotation_target Samples.keep_instance_key
           (RegionName "nuclei") (Some "missing") None Samples.nuclei_table
         = (inl (ValueError msg), Samples.nuclei_table).
Proof.
  apply (change_table_annotation_target_refuses Samples.keep_instance_key
           Samples.nuclei_table
           (mkAttrs (Some (RegionName "nuclei")) (Some "region") (Some "id"))
           (RegionName "nuclei") (Some "missing") None); [reflexivity|].
  right. exists "missing". split; [reflexivity | by_computation].
Defined.

Lemma change_table_annotation_target_region_key_witness :
  ∃ attrs attrs',
    uns_ATTRS_KEY Samples.cells_annotating_table = Some attrs ∧
    uns_ATTRS_KEY
      (mkAnnData (obs Samples.cells_annotating_table) (X Samples.cells_annotating_table)
         (Some (mkAttrs (Some (RegionName "cells")) (Some "region") (Some "id"))))
      = Some attrs' ∧
    REGION_KEY attrs' = Some (RegionName "cells") ∧
    REGION_KEY_KEY attrs' = REGION_KEY_KEY attrs.
Proof.
  apply (change_table_annotation_target_region_key Samples.keep_instance_key
           Samples.cells_annotating_table _ (RegionName "cells") (Some "id") None).
  - intros t t' [= <-]. reflexivity.
  - reflexivity.
Defined.

(** ** Filtering, further *)

Lemma kept_elements_heap w w' css d :
  heap w' = heap w → kept_elements w' css d = kept_elements w css d.
Proof.
  intros Hheap. unfold kept_elements, has_transformation_to. by rewrite Hheap.
Qed.

Lemma kept_elements_idemp w css d :
  kept_elements w css (kept_elements w css d) = kept_elements w css d.
Proof.
  unfold kept_elements. induction d as [|kv d IH]; [done|].
  rewrite filter_cons. case_decide as Hkeep; [|done].
  rewrite filter_cons, decide_True by done. by rewrite IH.
Qed.

Lemma kept_elements_subseteq w css d : (kept_elements w css d).*2 ⊆ d.*2.
Proof.
  intros l ([k l'] & -> & [_ Hin]%list_elem_of_filter)%list_elem_of_fmap.
  apply list_elem_of_fmap. by exists (k, l').
Qed.

Lemma kept_elements_none w css d :
  Forall (λ kv, has_transformation_to w css kv.2 = false) d →
  kept_elements w css d = [].
Proof.
  unfold kept_elements. induction 1 as [|kv d Hkv _ IH]; [done|].
  rewrite filter_cons, decide_False; [done|]. by rewrite Hkv.
Qed.

Section FilterExtras.
Variable TableModel_validate : AnnData → exn + unit.

Lemma filtered_container_exists self w w' css filter_tables :
  heap w' = heap w → objects_exist self w →
  objects_exist (filtered_container self w css filter_tables) w'.
Proof.
  unfold objects_exist, _gen_spatial_element_values. intros Hheap.
  cbn [filtered_container images labels points shapes].
  rewrite !Forall_app, Hheap, !Forall_forall. intros (Hi & Hl & Hp & Hs).
  split_and!; intros l Hin%kept_elements_subseteq; eauto.
Qed.

(** X18: filtering without [filter_tables] is idempotent: the container it
    returns is returned again when that container is filtered by the same
    coordinate systems. *)
Theorem filter_by_coordinate_system_idempotent self coordinate_system w :
  objects_exist self w →
  names_unique self →
  Forall (λ kv, table_accepted TableModel_validate kv.2) (tables self) →
  ∃ sdata w1 w2,
    filter_by_coordinate_system TableModel_validate self coordinate_system false w
      = (inr sdata, w1) ∧
    filter_by_coordinate_system TableModel_validate sdata coordinate_system false w1
      = (inr sdata, w2).
Proof.
  intros Hok Huniq Hacc.
  destruct (filter_by_coordinate_system_run TableModel_validate self coordinate_system
              false w Hok Huniq Hacc) as (w1 & Hrun1 & Hheap1 & _).
  set (css := as_list coordinate_system) in *.
  set (sdata := filtered_container self w css false) in *.
  destruct (filter_by_coordinate_system_run TableModel_validate sdata coordinate_system
              false w1) as (w2 & Hrun2 & _).
  { by apply filtered_container_exists. }
  { destruct Huniq as [Hnd Hwf]. split; [|done].
    apply (kept_names_NoDup self w css Hnd). }
  { done. }
  exists sdata, w1, w2. split; [done|]. rewrite Hrun2. do 2 f_equal.
  unfold filtered_container. cbn [images labels points shapes tables sdata filtered_container].
  fold css. rewrite !(kept_elements_heap w w1) by done.
  by rewrite !kept_elements_idemp.
Qed.

(** X19: when no spatial element of the container has a transformation
    into any of the requested systems (an unknown name, an empty list),
    filtering raises nothing: it returns a container without spatial
    elements. *)
Theorem filter_by_coordinate_system_none self coordinate_system filter_tables w :
  objects_exist self w →
  names_unique self →
  Forall (λ kv, table_accepted TableModel_validate kv.2)
         (filtered_tables self w (as_list coordinate_system) filter_tables) →
  Forall (λ cs, ¬ live self w cs) (as_list coordinate_system) →
  ∃ sdata w',
    filter_by_coordinate_system TableModel_validate self coordinate_system
      filter_tables w = (inr sdata, w') ∧
    spatial_element_names sdata = [] ∧
    PyDict.keys (tables sdata) = PyDict.keys (tables self).
Proof.
  intros Hok Huniq Hacc Hnone.
  destruct (filter_by_coordinate_system_run TableModel_validate self coordinate_system
              filter_tables w Hok Huniq Hacc) as (w1 & Hrun1 & Hheap1 & _).
  eexists _, w1. split; [exact Hrun1|].
  assert (Hkept : ∀ d, d.*2 ⊆ _gen_spatial_element_values self →
                       kept_elements w (as_list coordinate_system) d = []).
  { intros d Hsub. apply kept_elements_none. apply Forall_forall. intros [k l] Hin.
    cbn [snd]. unfold has_transformation_to.
    destruct (heap w !! l) as [e|] eqn:He; [|done].
    apply bool_decide_eq_false_2. intros (cs & Hcs & Hk)%Exists_exists.
    rewrite Forall_forall in Hnone. apply (Hnone cs Hcs).
    apply Exists_exists. exists l. split; [|by exists e].
    apply Hsub. apply list_elem_of_fmap. by exists (k, l). }
  unfold spatial_element_names, filtered_container.
  cbn [images labels points shapes tables].
  unfold _gen_spatial_element_values in Hkept.
  rewrite !Hkept.
  - split; [done|]. unfold filtered_tables, PyDict.keys. destruct filter_tables; [|done].
    rewrite <- list_fmap_compose. by apply list_fmap_ext.
  - intros l Hl. rewrite !elem_of_app. tauto.
  - intros l Hl. rewrite !elem_of_app. tauto.
  - intros l Hl. rewrite !elem_of_app. tauto.
  - intros l Hl. rewrite !elem_of_app. tauto.
Qed.
End FilterExtras.

Lemma filter_by_coordinate_system_idempotent_witness :
  ∃ sdata w1 w2,
    filter_by_coordinate_system Samples.accept_all Samples.sdata_annotated
      (CsName "C") false Samples.world3 = (inr sdata, w1) ∧
    filter_by_coordinate_system Samples.accept_all sdata (CsName "C") false w1
      = (inr sdata, w2).
Proof.
  apply (filter_by_coordinate_system_idempotent Samples.accept_all
           Samples.sdata_annotated (CsName "C") Samples.world3).
  - apply sample_annotated_ok.
  - apply sample_annotated_ok.
  - apply sample_tables_accepted.
Defined.

Lemma filter_by_coordinate_system_none_witness :
  Forall (λ cs, ¬ live Samples.sdata_annotated Samples.world3 cs)
         (as_list (CsName "unknown")) ∧
  ∃ sdata w',
    filter_by_coordinate_system Samples.accept_all Samples.sdata_annotated
      (CsName "unknown") false Samples.world3 = (inr sdata, w') ∧
    spatial_element_names sdata = [] ∧
    PyDict.keys (tables sdata) = PyDict.keys (tables Samples.sdata_annotated).
Proof.
  assert (Hnone : Forall (λ cs, ¬ live Samples.sdata_annotated Samples.world3 cs)
                         (as_list (CsName "unknown"))).
  { apply Forall_cons_2; [|apply Forall_nil_2]. intros Hlive.
    apply (live_run _ _ ["A"; "B"; "B00000000"; "C"]) in Hlive;
      [|reflexivity | apply sample_annotated_ok].
    revert Hlive. by_computation. }
  split; [exact Hnone|].
  apply (filter_by_coordinate_system_none Samples.accept_all Samples.sdata_annotated
           (CsName "unknown") false Samples.world3).
  - apply sample_annotated_ok.
  - apply sample_annotated_ok.
  - apply sample_tables_accepted.
  - exact Hnone.
Defined.

(** ** The constructor *)

Section InitFacts.
Variable TableModel_validate : AnnData → exn + unit.

Lemma validate_table_in_spatialdata_cases self data w :
  match validate_table_in_spatialdata TableModel_validate self data w with
  | (inr _, w') => table_accepted TableModel_validate data ∧ heap w' = heap w
  | (inl _, w') => ¬ table_accepted TableModel_validate data ∧ w' = w
  end.
Proof.
  unfold validate_table_in_spatialdata, table_accepted.
  unfold mbind, ST_bind, lift_result.
  destruct (TableModel_validate data) as [e|[]] eqn:Hvalid.
  { split; [|done]. by intros [? _]. }
  destruct (uns_ATTRS_KEY data) as [attrs|] eqn:Hattrs; [|by split_and!].
  destruct (REGION_KEY attrs) as [region|] eqn:Hregion.
  - assert (Hacc : ∀ attrs0, Some attrs = Some attrs0 → is_Some (REGION_KEY attrs0)).
    { intros ? [= <-]. by rewrite Hregion. }
    case_bool_decide; by split_and!.
  - split; [|done]. intros [_ Hacc]. destruct (Hacc attrs eq_refl) as [? ?]. congruence.
Qed.

Lemma init_tables_cases items :
  ∀ self w,
  match init_tables TableModel_validate self items w with
  | (inr self', w') =>
      self' = set_tables (foldl (λ d kv, PyDict.set kv.1 kv.2 d) (tables self) items) self ∧
      heap w' = heap w ∧
      Forall (λ kv, table_accepted TableModel_validate kv.2) items
  | (inl _, w') =>
      heap w' = heap w ∧
      Exists (λ kv, ¬ table_accepted TableModel_validate kv.2) items
  end.
Proof.
  induction items as [|[k v] items IH]; intros self w.
  - cbn. split_and!; [by destruct self | done | done].
  - cbn [init_tables]. unfold mbind, ST_bind.
    pose proof (validate_table_in_spatialdata_cases self v w) as Hv.
    destruct (validate_table_in_spatialdata TableModel_validate self v w) as [[e|[]] w1].
    + destruct Hv as [Hnot ->]. split; [done|]. by apply Exists_cons_hd.
    + destruct Hv as [Hacc Hheap1].
      specialize (IH (mkSpatialData (_path self) (images self) (labels self)
                        (points self) (shapes self) (PyDict.set k v (tables self))) w1).
      destruct (init_tables _ _ items w1) as [[e|self'] w'].
      * destruct IH as [Hheap Hex]. split; [congruence|]. by apply Exists_cons_tl.
      * destruct IH as (-> & Hheap & Hall). split_and!; [done | congruence|].
        by apply Forall_cons_2.
Qed.

(** X20: for tables whose names are pairwise distinct and are not names of
    the images, labels, points and shapes handed in, the constructor returns
    exactly when the names of those elements are pairwise distinct and every
    table goes through the validation; the container then holds the
    collections it was given and is not backed. A name used twice among the
    images, labels, points and shapes is a [KeyError] raised before anything
    else is done, and no call changes an object of the heap. With the names
    of the five collections distinct, no test of the collection classes on
    names shared between collections can come into play. *)
Theorem init_spec images labels points shapes tables w :
  PyDict.wf tables →
  (∀ name, name ∈ PyDict.keys tables →
           name ∉ PyDict.keys images ++ PyDict.keys labels ++
                  PyDict.keys points ++ PyDict.keys shapes) →
  if decide (NoDup (PyDict.keys images ++ PyDict.keys labels ++
                    PyDict.keys points ++ PyDict.keys shapes))
  then
    match __init__ TableModel_validate images labels points shapes tables w with
    | (inr self, w') =>
        self = mkSpatialData None images labels points shapes tables ∧
        is_backed self = false ∧
        heap w' = heap w ∧
        Forall (λ kv, table_accepted TableModel_validate kv.2) tables
    | (inl _, w') =>
        heap w' = heap w ∧
        Exists (λ kv, ¬ table_accepted TableModel_validate kv.2) tables
    end
  else
    ∃ msg, __init__ TableModel_validate images labels points shapes tables w
           = (inl (KeyError msg), w).
Proof.
  intros Hwf _. unfold __init__, _validate_unique_element_names.
  case_decide as Hnd.
  - rewrite bool_decide_eq_true_2 by done.
    unfold mbind at 1, ST_bind at 1, lift_result.
    pose proof Hnd as Hnd'. unfold PyDict.keys in Hnd'.
    apply NoDup_app in Hnd' as (Hi & _ & Hnd').
    apply NoDup_app in Hnd' as (Hl & _ & Hnd').
    apply NoDup_app in Hnd' as (Hp & _ & Hs).
    rewrite !dict_literal_wf by done.
    pose proof (init_tables_cases tables
                  (mkSpatialData None images labels points shapes []) w) as Hrun.
    destruct (init_tables _ _ tables w) as [[e|self] w']; [done|].
    destruct Hrun as (-> & Hheap & Hall). split_and!; [|done..].
    unfold set_tables. cbn. f_equal. apply (dict_literal_wf tables Hwf).
  - rewrite bool_decide_eq_false_2 by done.
    unfold mbind, ST_bind, lift_result. eauto.
Qed.
End InitFacts.

Lemma init_spec_witness :
  PyDict.wf (tables Samples.sdata_annotated) ∧
  (∀ name, name ∈ PyDict.keys (tables Samples.sdata_annotated) →
           name ∉ PyDict.keys (images Samples.sdata_annotated) ++
                  PyDict.keys (labels Samples.sdata_annotated) ++
                  PyDict.keys (points Samples.sdata_annotated) ++
                  PyDict.keys (shapes Samples.sdata_annotated)) ∧
  ∃ w',
    __init__ Samples.accept_all (images Samples.sdata_annotated)
      (labels Samples.sdata_annotated) (points Samples.sdata_annotated)
      (shapes Samples.sdata_annotated) (tables Samples.sdata_annotated) Samples.world3
    = (inr Samples.sdata_annotated, w').
Proof.
  assert (Hwf : PyDict.wf (tables Samples.sdata_annotated)) by by_computation.
  assert (Hnames : ∀ name, name ∈ PyDict.keys (tables Samples.sdata_annotated) →
           name ∉ PyDict.keys (images Samples.sdata_annotated) ++
                  PyDict.keys (labels Samples.sdata_annotated) ++
                  PyDict.keys (points Samples.sdata_annotated) ++
                  PyDict.keys (shapes Samples.sdata_annotated)).
  { intros name ->%list_elem_of_singleton. by_computation. }
  split; [exact Hwf|]. split; [exact Hnames|].
  pose proof (init_spec Samples.accept_all (images Samples.sdata_annotated)
                (labels Samples.sdata_annotated) (points Samples.sdata_annotated)
                (shapes Samples.sdata_annotated) (tables Samples.sdata_annotated)
                Samples.world3 Hwf Hnames) as Hinit.
  rewrite decide_True in Hinit by by_computation.
  destruct (__init__ _ _ _ _ _ _ _) as [[e|self] w'].
  - exfalso. destruct Hinit as [_ Hex]. apply Exists_exists in Hex as (kv & Hin & Hnot).
    apply Hnot. apply list_elem_of_singleton in Hin as ->.
    split; [reflexivity|]. intros attrs [= <-]. by eexists.
  - destruct Hinit as (-> & _). by exists w'.
Defined.

(** ** Transforming, further *)

Section TransformExtras.
Variable TableModel_validate : AnnData → exn + unit.
Variable transform_payload : BaseTransformation → list Z → list Z.

(** X21: [transform_to_coordinate_system] returns a container whose
    spatial elements have the names of the elements that have a
    transformation into the target system, in the same order; every object
    that existed before the call is left as it was, the transformed
    elements being new objects. *)
Theorem transform_to_coordinate_system_keeps_originals self cs w :
  objects_exist self w →
  names_unique self →
  Forall (λ kv, table_accepted TableModel_validate kv.2) (tables self) →
  ∃ sdata w',
    transform_to_coordinate_system TableModel_validate transform_payload self cs w
      = (inr sdata, w') ∧
    spatial_element_names sdata = kept_names self w [cs] ∧
    (∀ l e, heap w !! l = Some e → heap w' !! l = Some e).
Proof.
  intros Hok Huniq Hacc.
  destruct (transform_to_coordinate_system_run TableModel_validate transform_payload
              self cs w Hok Huniq Hacc)
    as (sdata & w' & Hrun & _ & Hnames & _ & Hext).
  exists sdata, w'. split_and!; [done | done |].
  intros l e He. by apply (heap_extends_lookup w w').
Qed.
End TransformExtras.

Lemma transform_to_coordinate_system_keeps_originals_witness :
  ∃ sdata w',
    transform_to_coordinate_system Samples.accept_all (λ _ p, p)
      Samples.sdata_annotated "C" Samples.world3 = (inr sdata, w') ∧
    spatial_element_names sdata = kept_names Samples.sdata_annotated Samples.world3 ["C"] ∧
    (∀ l e, heap Samples.world3 !! l = Some e → heap w' !! l = Some e).
Proof.
  apply (transform_to_coordinate_system_keeps_originals Samples.accept_all (λ _ p, p)
           Samples.sdata_annotated "C" Samples.world3).
  - apply sample_annotated_ok.
  - apply sample_annotated_ok.
  - apply sample_tables_accepted.
Defined.

(** ** The deprecated accessors of the table named table *)

Section TableAccessorFacts.
Variable TableModel_validate : AnnData → exn + unit.

(** X22: the setter of [table] never replaces a table: with a table named
    table in the container it raises [ValueError]; without one, and for a
    table that passes the schema validation, it stores the table, which the
    getter then returns, and every other table is kept. Both accessors emit
    a [DeprecationWarning]. *)
Theorem table_setter_then_getter self table w :
  TableModel_validate table = inr () →
  match table_setter TableModel_validate self table w with
  | (inr self', w') =>
      PyDict.get "table" (tables self) = None ∧
      (∃ w'', table_getter self' w' = (inr (Some table), w'') ∧
              length (warnings w'') = S (S (length (warnings w)))) ∧
      (∀ k, k ≠ "table" → PyDict.get k (tables self') = PyDict.get k (tables self)) ∧
      spatial_element_names self' = spatial_element_names self
  | (inl e, w') =>
      is_ValueError e = true ∧ is_Some (PyDict.get "table" (tables self)) ∧
      length (warnings w') = S (length (warnings w))
  end.
Proof.
  intros Hvalid. unfold table_setter, warnings_warn, lift_result, raise.
  unfold mbind, ST_bind. rewrite Hvalid.
  destruct (PyDict.get "table" (tables self)) as [t|] eqn:Hget.
  - cbn. rewrite length_app. cbn. split_and!; [done | by eexists | lia].
  - cbn. split_and!; [done | | |done].
    + unfold table_getter, warnings_warn. unfold mbind, ST_bind. cbn.
      rewrite get_set_eq. eexists. split; [reflexivity|]. cbn.
      rewrite !length_app. cbn. lia.
    + intros k Hk. by apply get_set_ne.
Qed.
End TableAccessorFacts.

(** X23: [del sdata.table] returns exactly when the container has a table
    named table with at least one row; that table is then gone and every
    other table is kept. Without such a table, or with one that has no row,
    it raises [KeyError] and the tables are as before. *)
Theorem table_deleter_spec self w :
  match table_deleter self w with
  | (inr self', _) =>
      (∃ table, PyDict.get "table" (tables self) = Some table ∧ n_obs table ≠ 0) ∧
      PyDict.get "table" (tables self') = None ∧
      (∀ k, k ≠ "table" → PyDict.get k (tables self') = PyDict.get k (tables self)) ∧
      spatial_element_names self' = spatial_element_names self
  | (inl e, _) =>
      (∃ msg, e = KeyError msg) ∧
      (PyDict.get "table" (tables self) = None ∨
       ∃ table, PyDict.get "table" (tables self) = Some table ∧ n_obs table = 0)
  end.
Proof.
  unfold table_deleter, warnings_warn, raise. unfold mbind, ST_bind.
  destruct (PyDict.get "table" (tables self)) as [t|] eqn:Hget.
  - case_bool_decide as Hrows; cbn.
    + split_and!; [by eauto | apply get_remove_eq | | done].
      intros k Hk. by apply get_remove_ne.
    + split; [by eexists|]. right. exists t. split; [done|]. lia.
  - cbn. split; [by eexists | by left].
Qed.

Lemma table_setter_then_getter_witness :
  match table_setter Samples.accept_all Samples.sdata Samples.cells_table Samples.world with
  | (inr self', w') =>
      PyDict.get "table" (tables Samples.sdata) = None ∧
      (∃ w'', table_getter self' w' = (inr (Some Samples.cells_table), w'') ∧
              length (warnings w'') = S (S (length (warnings Samples.world)))) ∧
      (∀ k, k ≠ "table" →
            PyDict.get k (tables self') = PyDict.get k (tables Samples.sdata)) ∧
      spatial_element_names self' = spatial_element_names Samples.sdata
  | (inl e, w') =>
      is_ValueError e = true ∧ is_Some (PyDict.get "table" (tables Samples.sdata)) ∧
      length (warnings w') = S (length (warnings Samples.world))
  end.
Proof.
  apply (table_setter_then_getter Samples.accept_all Samples.sdata Samples.cells_table
           Samples.world).
  reflexivity.
Defined.

(** X24: renaming a live coordinate system to a name that is not live and
    then renaming it back gives every element the entries it had: each key
    is mapped to the transformation it was mapped to before, and the
    payloads are untouched. No placeholder of the two runs may already be a
    key, nor be the intermediate name. *)
Theorem rename_coordinate_systems_round_trip sha1_urandom self a b w :
  objects_exist self w →
  mappings_wf self w →
  placeholders_fresh_in sha1_urandom self w a →
  placeholders_fresh_in sha1_urandom self w b →
  (∀ n, a +:+ hexdigest8 (sha1_urandom n) ≠ b) →
  live self w a →
  ¬ live self w b →
  ∃ w1 w2,
    rename_coordinate_systems sha1_urandom self [(a, b)] w = (inr (), w1) ∧
    rename_coordinate_systems sha1_urandom self [(b, a)] w1 = (inr (), w2) ∧
    Forall (λ l, ∃ e e2, heap w !! l = Some e ∧ heap w2 !! l = Some e2 ∧
                         payload e2 = payload e ∧
                         ∀ k, PyDict.get k (transformations e2)
                              = PyDict.get k (transformations e))
           (_gen_spatial_element_values self).
Proof.
  intros Hok Hwf Hfa Hfb Hab Ha Hb.
  assert (Hne : a ≠ b) by (intros ->; done).
  destruct (rename_single_run sha1_urandom self a b w Hok Hwf Hfb Ha Hb)
    as (w1 & Hrun1 & _ & Hdone1 & Hgone1 & Hthere1).
  rewrite Forall_forall in Hdone1.
  destruct (rename_single_run sha1_urandom self b a w1)
    as (w2 & Hrun2 & _ & Hdone2 & _ & _); [| | |done|done|].
  - apply Forall_forall. intros l Hl.
    destruct (Hdone1 l Hl) as (e & e1 & _ & He1 & _). by eexists.
  - apply Forall_forall. intros l Hl e1' He1'.
    destruct (Hdone1 l Hl) as (e & e1 & _ & He1 & _ & Hwf1 & _).
    pose proof (eq_trans (eq_sym He1) He1') as [= <-]. done.
  - apply Forall_forall. intros l Hl e1' He1' n.
    destruct (Hdone1 l Hl) as (e & e1 & He & He1 & _ & _ & Hm).
    pose proof (eq_trans (eq_sym He1) He1') as [= <-].
    unfold PyDict.keys. apply get_None. rewrite Hm. unfold moved_entry.
    rewrite decide_False by apply Hab.
    rewrite decide_False by (apply app_string_ne_self; rewrite length_hexdigest8; lia).
    apply get_None.
    unfold placeholders_fresh_in in Hfa. rewrite Forall_forall in Hfa.
    apply (Hfa l Hl e He n).
  - exists w1, w2. split_and!; [done | done |].
    apply Forall_forall. intros l Hl.
    destruct (Hdone1 l Hl) as (e & e1 & He & He1 & Hp1 & _ & Hm1).
    rewrite Forall_forall in Hdone2.
    destruct (Hdone2 l Hl) as (e1' & e2 & He1' & He2 & Hp2 & _ & Hm2).
    pose proof (eq_trans (eq_sym He1) He1') as [= <-].
    exists e, e2. split_and!; [done | done | congruence |].
    intros k. rewrite Hm2. unfold moved_entry at 1.
    destruct (decide (k = a)) as [->|Hka].
    { rewrite Hm1. unfold moved_entry. by rewrite decide_True. }
    destruct (decide (k = b)) as [->|Hkb].
    { symmetry. apply get_None. intros Hin. apply Hb.
      apply Exists_exists. exists l. split; [done|]. by exists e. }
    rewrite Hm1. unfold moved_entry. by rewrite !decide_False.
Qed.

Lemma rename_coordinate_systems_round_trip_witness :
  ∃ w1 w2,
    rename_coordinate_systems (λ _, 1%N) Samples.sdata_aliased [("A", "C")] Samples.world
      = (inr (), w1) ∧
    rename_coordinate_systems (λ _, 1%N) Samples.sdata_aliased [("C", "A")] w1
      = (inr (), w2) ∧
    Forall (λ l, ∃ e e2, heap Samples.world !! l = Some e ∧ heap w2 !! l = Some e2 ∧
                         payload e2 = payload e ∧
                         ∀ k, PyDict.get k (transformations e2)
                              = PyDict.get k (transformations e))
           (_gen_spatial_element_values Samples.sdata_aliased).
Proof.
  assert (Hok : objects_exist Samples.sdata_aliased Samples.world).
  { repeat constructor; eexists; reflexivity. }
  assert (Hlive : ∀ k, live Samples.sdata_aliased Samples.world k ↔ k ∈ ["A"; "B"]).
  { intros k. apply live_run; [reflexivity | exact Hok]. }
  apply (rename_coordinate_systems_round_trip (λ _, 1%N) Samples.sdata_aliased "A" "C"
           Samples.world).
  - exact Hok.
  - repeat constructor; intros e [= <-]; by_computation.
  - repeat constructor; intros e [= <-] n; by_computation.
  - repeat constructor; intros e [= <-] n; by_computation.
  - intros n. by_computation.
  - apply (proj2 (Hlive "A")). by_computation.
  - intros Hc. apply (proj1 (Hlive "C")) in Hc. revert Hc. by_computation.
Defined.

(** ** Writing, further *)

Section WriteFailure.
Variable os_path_exists : string → bool.
Variable is_zarr_store : string → bool.
Variable open_store_fails : string → option exn.
Variable writer_fails : ElementType → string → option exn.
Variable consolidate_metadata_fails : option exn.

Lemma write_tables_raises keys name e root :
  name ∈ keys → writer_fails TABLES name = Some e →
  ∃ e' root',
    (if bool_decide (keys = []) then mret ()
     else create_group "tables";; for_each keys (write_element writer_fails TABLES)) root
    = (inl e', root').
Proof.
  intros Hin Hfail.
  rewrite bool_decide_eq_false_2 by (intros ->; by apply elem_of_nil in Hin).
  unfold mbind at 1, ST_bind at 1.
  destruct (create_group "tables" root) as [[e1|[]] root1]; [by eauto|].
  apply for_each_raises. apply Exists_exists. exists name. split; [done|].
  intros s. unfold write_element. rewrite Hfail. eauto.
Qed.

Lemma bind_raises_either {S A B} (m : ST S A) (f : A → ST S B) s :
  (∀ a s1, ∃ e s', f a s1 = (inl e, s')) →
  ∃ e s', (m ≫= f) s = (inl e, s').
Proof.
  intros Hf. unfold mbind, ST_bind. destruct (m s) as [[e|a] s1]; [by eauto|]. apply Hf.
Qed.

Lemma bind_raises_first {S A B} (m : ST S A) (f : A → ST S B) s :
  (∃ e s', m s = (inl e, s')) →
  ∃ e s', (m ≫= f) s = (inl e, s').
Proof.
  intros (e & s' & Hm). exists e, s'. by apply bind_inl.
Qed.

Lemma write_elements_raises self overwrite element_type name e root :
  name ∈ collection_keys self element_type →
  writer_fails element_type name = Some e →
  ∃ e' root', write_elements writer_fails self overwrite root = (inl e', root').
Proof.
  intros Hin Hfail. unfold write_elements.
  destruct element_type; cbn [collection_keys] in Hin.
  - apply bind_raises_first. by eapply write_collection_raises.
  - apply bind_raises_either. intros _ r1.
    apply bind_raises_first. by eapply write_collection_raises.
  - apply bind_raises_either. intros _ r1.
    apply bind_raises_either. intros _ r2.
    apply bind_raises_first. by eapply write_collection_raises.
  - apply bind_raises_either. intros _ r1.
    apply bind_raises_either. intros _ r2.
    apply bind_raises_either. intros _ r3.
    apply bind_raises_first. by eapply write_collection_raises.
  - apply bind_raises_either. intros _ r1.
    apply bind_raises_either. intros _ r2.
    apply bind_raises_either. intros _ r3.
    apply bind_raises_either. intros _ r4.
    by eapply write_tables_raises.
Qed.

(** X25: when the writer of one element of the container fails, [write]
    on a fresh target ends with an exception and the container is not
    backed afterwards, whatever it was backed by before; its collections
    are unchanged. *)
Theorem write_element_failure
    self file_path overwrite consolidate_metadata element_type name e :
  os_path_exists file_path = false →
  open_store_fails file_path = None →
  name ∈ collection_keys self element_type →
  writer_fails element_type name = Some e →
  ∃ e',
    write os_path_exists is_zarr_store open_store_fails writer_fails
      consolidate_metadata_fails file_path overwrite consolidate_metadata self
    = (inl e', set_path None self).
Proof.
  intros Hexists Hopen Hin Hfail. unfold write. rewrite Hexists, Hopen.
  destruct (write_elements_raises (set_path (Some file_path) self) overwrite
              element_type name e []) as (e' & root' & ->); [by destruct element_type | done |].
  by exists e'.
Qed.
End WriteFailure.

Lemma write_element_failure_witness :
  ∃ e',
    write Samples.nothing_exists (λ _, true) Samples.opens Samples.fails_on_image1 None
      "data.zarr" false true Samples.sdata_annotated
    = (inl e', set_path None Samples.sdata_annotated).
Proof.
  apply (write_element_failure Samples.nothing_exists (λ _, true) Samples.opens
           Samples.fails_on_image1 None Samples.sdata_annotated "data.zarr" false true
           IMAGES "image1" (StoreError "OSError" "No space left on device")).
  - reflexivity.
  - reflexivity.
  - by_computation.
  - reflexivity.
Defined.

(** ** Annotation targets: a table without metadata *)

Section TableKeys.
Variable _validate_set_instance_key : option string → ST AnnData unit.

(** X26: for a table that has no annotation metadata,
    [set_table_annotates_spatialelement] needs both keys: when the
    region_key or the instance_key is left out it raises [TypeError] and the
    container is as before. A name that is no table of the container is a
    [KeyError]. *)
Theorem set_table_annotates_spatialelement_needs_keys
    self table_name name region_key instance_key :
  region_key = None ∨ instance_key = None →
  match PyDict.get table_name (tables self) with
  | None =>
      ∃ msg, set_table_annotates_spatialelement _validate_set_instance_key table_name
               (RegionName name) region_key instance_key self
             = (inl (KeyError msg), self)
  | Some table =>
      attrs_truthy table = false →
      name ∈ spatial_element_names self →
      ∃ msg, set_table_annotates_spatialelement _validate_set_instance_key table_name
               (RegionName name) region_key instance_key self
             = (inl (TypeError msg), self)
  end.
Proof.
  intros Hkeys. unfold set_table_annotates_spatialelement.
  destruct (PyDict.get table_name (tables self)) as [table|]; [|by eauto].
  intros Hattrs Hname. rewrite (proj2 (gen_elements_names self)).
  rewrite bool_decide_eq_false_2 by (intros Hnot; done).
  rewrite Hattrs. destruct Hkeys as [-> | ->]; [by eauto|].
  destruct region_key; by eauto.
Qed.
End TableKeys.

Lemma set_table_annotates_spatialelement_needs_keys_witness :
  ∃ msg, set_table_annotates_spatialelement Samples.keep_instance_key "table"
           (RegionName "cells") (Some "region") None Samples.sdata_cells
         = (inl (TypeError msg), Samples.sdata_cells).
Proof.
  apply (set_table_annotates_spatialelement_needs_keys Samples.keep_instance_key
           Samples.sdata_cells "table" "cells" (Some "region") None).
  - by right.
  - reflexivity.
  - by_computation.
Defined.
